(** * Display Manager core: CRC16, frame encoder, frame parser, binder

    A shallow embedding of the C sources
      core/crc16.c, core/dm_config.h, core/dm_platform.h,
      core/dm_packet.c, core/dm_parser.c, core/dm_protocol.h,
      app/dm_binder.c (dm_handle_show_page), app/ui/ui_pages.c (ui_pages_show)
    and the properties of the wire protocol established on it.

    Conventions.
    - A C unsigned integer of width w is a [Z] in [0, 2^w); every place
      where C truncates on assignment is written out with [u8], [u16] or
      [u32].
    - A byte buffer is a [list Z]; an array store is stdpp's list insert.
    - A function pointer slot of [dm_platform_t] is a [bool] (is the slot
      non-NULL); calling it is recorded, in call order, in a trace.
    - A pointer that may be NULL is an [option]. *)

From Stdlib Require Import ZArith List Lia String Bool.
From stdpp Require Import base list.

Open Scope Z_scope.

(** ** Fixed-width arithmetic *)

Definition u8 (z : Z) : Z := z mod 256.
Definition u16 (z : Z) : Z := z mod 65536.
Definition u32 (z : Z) : Z := z mod 4294967296.

Definition is_u8 (z : Z) : Prop := 0 <= z < 256.
Definition is_u16 (z : Z) : Prop := 0 <= z < 65536.
Definition is_u32 (z : Z) : Prop := 0 <= z < 4294967296.
Definition is_i16 (z : Z) : Prop := -32768 <= z < 32768.

(** ** core/dm_config.h *)

Definition DM_MAX_PAYLOAD : Z := 128.
Definition DM_PROTOCOL_VERSION : Z := 0x01.
Definition DM_START_BYTE : Z := 0xAA.
Definition DM_HEADER_SIZE : Z := 5.
Definition DM_CRC_SIZE : Z := 2.
Definition DM_MAX_FRAME_SIZE : Z := DM_HEADER_SIZE + DM_MAX_PAYLOAD + DM_CRC_SIZE.

(** ** core/dm_protocol.h: event identifiers *)

Definition CMD_SHOW_PAGE : Z := 0x10.
Definition EVT_BUTTON_PRESSED : Z := 0x80.
Definition EVT_SLIDER_CHANGED : Z := 0x81.
Definition EVT_PAGE_CHANGED : Z := 0x82.
Definition EVT_TOUCH_EVENT : Z := 0x83.
Definition EVT_ACK : Z := 0xF0.
Definition EVT_NACK : Z := 0xF1.

(** ** core/crc16.c *)

Definition CRC16_POLY : Z := 0x1021.

(** One iteration of the bit loop of [crc16_update]. *)
Definition crc16_shift (crc : Z) : Z :=
  if negb (Z.land crc 0x8000 =? 0)
  then u16 (Z.lxor (Z.shiftl crc 1) CRC16_POLY)
  else u16 (Z.shiftl crc 1).

Definition crc16_update (crc byte : Z) : Z :=
  let crc := u16 (Z.lxor crc (Z.shiftl byte 8)) in
  Nat.iter 8 crc16_shift crc.

(** [data] holds the [length] bytes the C function is given. *)
Definition crc16_ccitt (data : list Z) : Z :=
  fold_left crc16_update data 0xFFFF.

(** ** core/dm_platform.h *)

(** Each field tells whether the slot of the vtable is non-NULL. *)
Record dm_platform_t := {
  write_bytes : bool;
  millis : bool;
  log : bool
}.

(** ** core/dm_parser.h *)

Record dm_frame_t := {
  version : Z;
  command : Z;
  seq_id : Z;
  payload_len : Z;
  payload : list Z            (* uint8_t payload[DM_MAX_PAYLOAD] *)
}.

Inductive dm_parse_state_t :=
| PARSE_WAIT_START
| PARSE_VERSION
| PARSE_COMMAND
| PARSE_SEQ_ID
| PARSE_LENGTH
| PARSE_PAYLOAD
| PARSE_CRC_HIGH
| PARSE_CRC_LOW.

Record dm_parser_t := {
  state : dm_parse_state_t;
  frame : dm_frame_t;
  payload_index : Z;          (* uint16_t *)
  running_crc : Z;            (* uint16_t *)
  crc_high : Z;               (* uint8_t *)
  frames_ok : Z;              (* uint32_t *)
  frames_crc_err : Z;         (* uint32_t *)
  frames_len_err : Z          (* uint32_t *)
}.

(** The calls the parser makes out of its translation unit, in order. *)
Inductive parser_call :=
| Dispatch (f : dm_frame_t)   (* dm_protocol_dispatch(&p->frame, plat) *)
| Log (msg : string).         (* plat->log(msg) *)

(** Field assignments. *)

Definition set_version (v : Z) (f : dm_frame_t) : dm_frame_t :=
  {| version := v; command := command f; seq_id := seq_id f;
     payload_len := payload_len f; payload := payload f |}.
Definition set_command (v : Z) (f : dm_frame_t) : dm_frame_t :=
  {| version := version f; command := v; seq_id := seq_id f;
     payload_len := payload_len f; payload := payload f |}.
Definition set_seq_id (v : Z) (f : dm_frame_t) : dm_frame_t :=
  {| version := version f; command := command f; seq_id := v;
     payload_len := payload_len f; payload := payload f |}.
Definition set_payload_len (v : Z) (f : dm_frame_t) : dm_frame_t :=
  {| version := version f; command := command f; seq_id := seq_id f;
     payload_len := v; payload := payload f |}.
Definition set_payload (v : list Z) (f : dm_frame_t) : dm_frame_t :=
  {| version := version f; command := command f; seq_id := seq_id f;
     payload_len := payload_len f; payload := v |}.

Definition set_state (v : dm_parse_state_t) (p : dm_parser_t) : dm_parser_t :=
  {| state := v; frame := frame p; payload_index := payload_index p;
     running_crc := running_crc p; crc_high := crc_high p;
     frames_ok := frames_ok p; frames_crc_err := frames_crc_err p;
     frames_len_err := frames_len_err p |}.
Definition set_frame (v : dm_frame_t) (p : dm_parser_t) : dm_parser_t :=
  {| state := state p; frame := v; payload_index := payload_index p;
     running_crc := running_crc p; crc_high := crc_high p;
     frames_ok := frames_ok p; frames_crc_err := frames_crc_err p;
     frames_len_err := frames_len_err p |}.
Definition set_payload_index (v : Z) (p : dm_parser_t) : dm_parser_t :=
  {| state := state p; frame := frame p; payload_index := v;
     running_crc := running_crc p; crc_high := crc_high p;
     frames_ok := frames_ok p; frames_crc_err := frames_crc_err p;
     frames_len_err := frames_len_err p |}.
Definition set_running_crc (v : Z) (p : dm_parser_t) : dm_parser_t :=
  {| state := state p; frame := frame p; payload_index := payload_index p;
     running_crc := v; crc_high := crc_high p;
     frames_ok := frames_ok p; frames_crc_err := frames_crc_err p;
     frames_len_err := frames_len_err p |}.
Definition set_crc_high (v : Z) (p : dm_parser_t) : dm_parser_t :=
  {| state := state p; frame := frame p; payload_index := payload_index p;
     running_crc := running_crc p; crc_high := v;
     frames_ok := frames_ok p; frames_crc_err := frames_crc_err p;
     frames_len_err := frames_len_err p |}.
Definition set_frames_ok (v : Z) (p : dm_parser_t) : dm_parser_t :=
  {| state := state p; frame := frame p; payload_index := payload_index p;
     running_crc := running_crc p; crc_high := crc_high p;
     frames_ok := v; frames_crc_err := frames_crc_err p;
     frames_len_err := frames_len_err p |}.
Definition set_frames_crc_err (v : Z) (p : dm_parser_t) : dm_parser_t :=
  {| state := state p; frame := frame p; payload_index := payload_index p;
     running_crc := running_crc p; crc_high := crc_high p;
     frames_ok := frames_ok p; frames_crc_err := v;
     frames_len_err := frames_len_err p |}.
Definition set_frames_len_err (v : Z) (p : dm_parser_t) : dm_parser_t :=
  {| state := state p; frame := frame p; payload_index := payload_index p;
     running_crc := running_crc p; crc_high := crc_high p;
     frames_ok := frames_ok p; frames_crc_err := frames_crc_err p;
     frames_len_err := v |}.

(** ** core/dm_parser.c *)

Definition parser_reset (p : dm_parser_t) : dm_parser_t :=
  set_crc_high 0
    (set_running_crc 0xFFFF
       (set_payload_index 0
          (set_state PARSE_WAIT_START p))).

(** [memset(p, 0, sizeof( *p))] followed by [parser_reset]. *)
Definition dm_parser_init : dm_parser_t :=
  parser_reset
    {| state := PARSE_WAIT_START;
       frame := {| version := 0; command := 0; seq_id := 0; payload_len := 0;
                   payload := replicate (Z.to_nat DM_MAX_PAYLOAD) 0 |};
       payload_index := 0; running_crc := 0; crc_high := 0;
       frames_ok := 0; frames_crc_err := 0; frames_len_err := 0 |}.

(** [if (plat && plat->log) plat->log(msg);]   (DM_DEBUG_LOG is 1) *)
Definition debug_log (plat : option dm_platform_t) (msg : string)
  : list parser_call :=
  match plat with
  | Some pl => if log pl then [Log msg] else []
  | None => []
  end.

(** [dm_parser_feed].  The result is [None] exactly when the store
    [p->frame.payload[p->payload_index++] = byte] falls outside the array
    [payload[DM_MAX_PAYLOAD]], which C leaves undefined.  The [default:]
    arm of the switch only serves values outside the enumeration, which
    [dm_parse_state_t] does not have. *)
Definition dm_parser_feed (p : dm_parser_t) (byte : Z)
    (plat : option dm_platform_t) : option (dm_parser_t * list parser_call) :=
  match state p with
  | PARSE_WAIT_START =>
      if byte =? DM_START_BYTE
      then Some (set_state PARSE_VERSION (parser_reset p), [])
      else Some (p, [])
  | PARSE_VERSION =>
      let p := set_frame (set_version byte (frame p)) p in
      let p := set_running_crc (crc16_update (running_crc p) byte) p in
      Some (set_state PARSE_COMMAND p, [])
  | PARSE_COMMAND =>
      let p := set_frame (set_command byte (frame p)) p in
      let p := set_running_crc (crc16_update (running_crc p) byte) p in
      Some (set_state PARSE_SEQ_ID p, [])
  | PARSE_SEQ_ID =>
      let p := set_frame (set_seq_id byte (frame p)) p in
      let p := set_running_crc (crc16_update (running_crc p) byte) p in
      Some (set_state PARSE_LENGTH p, [])
  | PARSE_LENGTH =>
      if byte >? DM_MAX_PAYLOAD then
        let p := set_frames_len_err (u32 (frames_len_err p + 1)) p in
        let calls := debug_log plat "DM: frame length overflow, resyncing" in
        Some (parser_reset p, calls)
      else
        let p := set_frame (set_payload_len byte (frame p)) p in
        let p := set_running_crc (crc16_update (running_crc p) byte) p in
        let p := set_payload_index 0 p in
        if byte =? 0
        then Some (set_state PARSE_CRC_HIGH p, [])
        else Some (set_state PARSE_PAYLOAD p, [])
  | PARSE_PAYLOAD =>
      let i := payload_index p in
      if (0 <=? i) && (i <? DM_MAX_PAYLOAD) then
        let p := set_frame
                   (set_payload (<[Z.to_nat i := byte]> (payload (frame p)))
                      (frame p)) p in
        let p := set_payload_index (u16 (i + 1)) p in
        let p := set_running_crc (crc16_update (running_crc p) byte) p in
        if payload_index p >=? payload_len (frame p)
        then Some (set_state PARSE_CRC_HIGH p, [])
        else Some (p, [])
      else None
  | PARSE_CRC_HIGH =>
      let p := set_crc_high byte p in
      Some (set_state PARSE_CRC_LOW p, [])
  | PARSE_CRC_LOW =>
      let received_crc := u16 (Z.lor (Z.shiftl (crc_high p) 8) byte) in
      if received_crc =? running_crc p then
        let p := set_frames_ok (u32 (frames_ok p + 1)) p in
        Some (parser_reset p, [Dispatch (frame p)])
      else
        let p := set_frames_crc_err (u32 (frames_crc_err p + 1)) p in
        let calls := debug_log plat "DM: CRC mismatch, frame dropped" in
        Some (parser_reset p, calls)
  end.

(** Feeding a byte stream, one [dm_parser_feed] per byte (the loop of
    [dm_receive_byte] callers); the calls of all steps are concatenated. *)
Fixpoint dm_parser_feed_all (p : dm_parser_t) (bytes : list Z)
    (plat : option dm_platform_t) : option (dm_parser_t * list parser_call) :=
  match bytes with
  | [] => Some (p, [])
  | b :: rest =>
      match dm_parser_feed p b plat with
      | None => None
      | Some (p1, calls1) =>
          match dm_parser_feed_all p1 rest plat with
          | None => None
          | Some (p2, calls2) => Some (p2, calls1 ++ calls2)
          end
      end
  end.

(** The frames handed to the dispatcher among a list of calls. *)
Fixpoint dispatched (calls : list parser_call) : list dm_frame_t :=
  match calls with
  | [] => []
  | Dispatch f :: rest => f :: dispatched rest
  | Log _ :: rest => dispatched rest
  end.

(** ** core/dm_packet.c *)

(** What the encoder and its callers act on: the file-scope counter
    [s_seq_counter] (uint8_t) and the platform's transmit side, kept as the
    list of buffers handed to [plat->write_bytes], oldest call first. *)
Record world := {
  s_seq_counter : Z;
  written : list (list Z)
}.

Definition set_s_seq_counter (v : Z) (w : world) : world :=
  {| s_seq_counter := v; written := written w |}.

(** [plat->write_bytes(frame, idx)] *)
Definition call_write_bytes (buf : list Z) (w : world) : world :=
  {| s_seq_counter := s_seq_counter w; written := written w ++ [buf] |}.

(** [dm_packet_send].  [payload] is [None] for a NULL pointer and otherwise
    the bytes the pointer addresses, of which the caller owns at least
    [payload_len]; [frame] grows as [frame[idx++] = ...] fills the stack
    buffer, so that its length is [idx]. *)
Definition dm_packet_send (cmd seq : Z) (payload : option (list Z))
    (payload_len : Z) (plat : option dm_platform_t) (w : world) : world :=
  match plat with
  | None => w
  | Some pl =>
      if negb (write_bytes pl) then w
      else
        let payload_len :=
          if payload_len >? DM_MAX_PAYLOAD then DM_MAX_PAYLOAD
          else payload_len in
        let frame := [DM_START_BYTE] in
        let frame := frame ++ [DM_PROTOCOL_VERSION] in
        let frame := frame ++ [cmd] in
        let frame := frame ++ [seq] in
        let frame := frame ++ [payload_len] in
        let frame :=
          match payload with
          | Some data =>
              if payload_len >? 0
              then frame ++ take (Z.to_nat payload_len) data
              else frame
          | None => frame
          end in
        let crc := crc16_ccitt (drop 1 frame) in
        let frame := frame ++ [u8 (Z.shiftr crc 8)] in
        let frame := frame ++ [u8 (Z.land crc 0xFF)] in
        call_write_bytes frame w
  end.

Definition dm_packet_send_ack (seq : Z) (plat : option dm_platform_t)
    (payload : option (list Z)) (payload_len : Z) (w : world) : world :=
  dm_packet_send EVT_ACK seq payload payload_len plat w.

Definition dm_packet_send_nack (seq : Z) (plat : option dm_platform_t)
    (w : world) : world :=
  dm_packet_send EVT_NACK seq None 0 plat w.

(** In the four event senders the argument [s_seq_counter++] is evaluated,
    and the counter stored back, before [dm_packet_send] is entered. *)

Definition dm_packet_send_button_pressed (widget_idx : Z)
    (plat : option dm_platform_t) (w : world) : world :=
  let seq := s_seq_counter w in
  let w := set_s_seq_counter (u8 (seq + 1)) w in
  dm_packet_send EVT_BUTTON_PRESSED seq (Some [widget_idx]) 1 plat w.

(** [value] is an int16_t. *)
Definition dm_packet_send_slider_changed (widget_idx value : Z)
    (plat : option dm_platform_t) (w : world) : world :=
  let buf := [widget_idx;
              u8 (Z.land (Z.shiftr value 8) 0xFF);
              u8 (Z.land value 0xFF)] in
  let seq := s_seq_counter w in
  let w := set_s_seq_counter (u8 (seq + 1)) w in
  dm_packet_send EVT_SLIDER_CHANGED seq (Some buf) 3 plat w.

Definition dm_packet_send_page_changed (page_id : Z)
    (plat : option dm_platform_t) (w : world) : world :=
  let seq := s_seq_counter w in
  let w := set_s_seq_counter (u8 (seq + 1)) w in
  dm_packet_send EVT_PAGE_CHANGED seq (Some [page_id]) 1 plat w.

(** [x] and [y] are int16_t. *)
Definition dm_packet_send_touch_event (x y : Z)
    (plat : option dm_platform_t) (w : world) : world :=
  let buf := [u8 (Z.land (Z.shiftr x 8) 0xFF);
              u8 (Z.land x 0xFF);
              u8 (Z.land (Z.shiftr y 8) 0xFF);
              u8 (Z.land y 0xFF)] in
  let seq := s_seq_counter w in
  let w := set_s_seq_counter (u8 (seq + 1)) w in
  dm_packet_send EVT_TOUCH_EVENT seq (Some buf) 4 plat w.

(** A device-originated event, as a request to one of the four senders. *)
Inductive device_event :=
| ButtonPressed (widget_idx : Z)
| SliderChanged (widget_idx value : Z)
| PageChanged (page_id : Z)
| TouchEvent (x y : Z).

Definition send_event (e : device_event) (plat : option dm_platform_t)
    (w : world) : world :=
  match e with
  | ButtonPressed i => dm_packet_send_button_pressed i plat w
  | SliderChanged i v => dm_packet_send_slider_changed i v plat w
  | PageChanged pg => dm_packet_send_page_changed pg plat w
  | TouchEvent x y => dm_packet_send_touch_event x y plat w
  end.

Definition send_events (es : list device_event) (plat : option dm_platform_t)
    (w : world) : world :=
  fold_left (fun w e => send_event e plat w) es w.

(** ** app/ui/ui_pages.c: page switching *)

(** The file-scope variables [ui_pages_show] reads and writes.  The LVGL
    call [lv_scr_load] draws and has no effect on the protocol side. *)
Record ui_pages := {
  s_page_count : Z;           (* uint8_t *)
  s_current_page : Z          (* uint8_t *)
}.

Definition ui_pages_show (page_id : Z) (ui : ui_pages) : bool * ui_pages :=
  if page_id >=? s_page_count ui then (false, ui)
  else (true, {| s_page_count := s_page_count ui; s_current_page := page_id |}).

(** ** app/dm_binder.c *)

(** [p] is the payload buffer of the dispatched frame, [len] its
    [payload_len]. *)
Definition dm_handle_show_page (seq : Z) (p : list Z) (len : Z)
    (plat : option dm_platform_t) (ui : ui_pages) (w : world)
  : ui_pages * world :=
  if len <? 1 then (ui, dm_packet_send_nack seq plat w)
  else
    let page_id := nth 0 p 0 in
    let '(shown, ui) := ui_pages_show page_id ui in
    if shown then
      let w := dm_packet_send_ack seq plat None 0 w in
      let w := dm_packet_send_page_changed page_id plat w in
      (ui, w)
    else (ui, dm_packet_send_nack seq plat w).

(** ** The wire format, in the words of the specification *)

(** [crc_of]: fold [crc_update] across the bytes from the seed 0xFFFF. *)
Definition crc_of (bytes : list Z) : Z :=
  fold_left crc16_update bytes 0xFFFF.

(** [0xAA, version, cmd, seq, payload_len, payload, crc_hi, crc_lo] with
    the CRC of [version .. payload], most significant byte first. *)
Definition wire_frame (cmd seq : Z) (body : list Z) : list Z :=
  let covered := [DM_PROTOCOL_VERSION; cmd; seq; Z.of_nat (length body)] ++ body in
  [DM_START_BYTE] ++ covered ++ [crc_of covered / 256; crc_of covered mod 256].

(** The bytes of its payload argument that [dm_packet_send] puts on the
    wire: the first [min payload_len DM_MAX_PAYLOAD] of them, none for a
    NULL pointer. *)
Definition sent_payload (payload : option (list Z)) (payload_len : Z) : list Z :=
  match payload with
  | Some data => take (Z.to_nat (Z.min payload_len DM_MAX_PAYLOAD)) data
  | None => []
  end.

(** ** The CRC of the specification, section 4.A, in its own words *)

(** [crc_init() -> 0xFFFF] *)
Definition spec_crc_init : Z := 0xFFFF.

(** One of the eight iterations: if the high bit is set,
    [crc = (crc << 1) XOR 0x1021], else [crc <<= 1], in 16-bit
    arithmetic. *)
Definition spec_crc_round (crc : Z) : Z :=
  if 0x8000 <=? crc
  then Z.lxor ((crc * 2) mod 65536) 0x1021
  else (crc * 2) mod 65536.

(** [crc_update(crc, byte)]: [crc ^= byte << 8], then the eight
    iterations; no final XOR. *)
Definition spec_crc_update (crc byte : Z) : Z :=
  Nat.iter 8 spec_crc_round (Z.lxor crc (byte * 256) mod 65536).

(** [crc_of(bytes)]: fold [crc_update] across the bytes, starting from the
    seed. *)
Definition spec_crc_of (bytes : list Z) : Z :=
  fold_left spec_crc_update bytes spec_crc_init.

(** Flipping bit [k] of the byte at position [i] of a byte stream. *)
Definition flip_bit (i : nat) (k : Z) (bytes : list Z) : list Z :=
  alter (fun b => Z.lxor b (Z.shiftl 1 k)) i bytes.

(** A platform with every slot filled in, as the board ports provide. *)
Definition full_platform : dm_platform_t :=
  {| write_bytes := true; millis := true; log := true |}.

Definition world0 : world := {| s_seq_counter := 0; written := [] |}.

Definition ascii_123456789 : list Z :=
  [0x31; 0x32; 0x33; 0x34; 0x35; 0x36; 0x37; 0x38; 0x39].

(** ** Auxiliary definitions for the proofs *)

(** The integers [0 .. n-1], to settle a finite range by evaluation. *)
Fixpoint Z_from (start : Z) (count : nat) : list Z :=
  match count with
  | O => []
  | S count => start :: Z_from (start + 1) count
  end.

Definition Z_upto (n : Z) : list Z := Z_from 0 (Z.to_nat n).

(** The inverse of [crc16_shift] on 16-bit values: the low bit of the
    result tells which branch was taken, since [CRC16_POLY] is odd. *)
Definition crc16_unshift (d : Z) : Z :=
  if Z.odd d
  then Z.lor (Z.shiftr (Z.lxor d CRC16_POLY) 1) 0x8000
  else Z.shiftr d 1.

(** The C type invariants of a [dm_parser_t]: every field within the range
    of its type and the payload array of [DM_MAX_PAYLOAD] bytes. *)
Record parser_wf (p : dm_parser_t) : Prop := {
  wf_payload_length : length (payload (frame p)) = Z.to_nat DM_MAX_PAYLOAD;
  wf_payload_index : is_u16 (payload_index p);
  wf_running_crc : is_u16 (running_crc p);
  wf_crc_high : is_u8 (crc_high p);
  wf_frames_ok : is_u32 (frames_ok p);
  wf_frames_crc_err : is_u32 (frames_crc_err p);
  wf_frames_len_err : is_u32 (frames_len_err p)
}.

(** The invariant behind the absence of buffer overruns. *)
Definition payload_cursor_ok (p : dm_parser_t) : Prop :=
  state p = PARSE_PAYLOAD ->
  0 <= payload_index p < payload_len (frame p) /\
  payload_len (frame p) <= DM_MAX_PAYLOAD.

(** ** Further definitions *)

(** The bytes of a parsed frame that the CRC covers: the four header
    fields and the first [payload_len] bytes of the payload array. *)
Definition frame_contents (f : dm_frame_t) : list Z :=
  [version f; command f; seq_id f; payload_len f]
  ++ take (Z.to_nat (payload_len f)) (payload f).

(** A parsed frame carries the given command, sequence number and payload. *)
Definition frame_carries (f : dm_frame_t) (req : Z * Z * list Z) : Prop :=
  let '(cmd, seq, body) := req in
  version f = DM_PROTOCOL_VERSION /\ command f = cmd /\ seq_id f = seq
  /\ payload_len f = Z.of_nat (length body)
  /\ take (length body) (payload f) = body.

(** The [plat->log] calls among a list of calls. *)
Fixpoint logged (calls : list parser_call) : list string :=
  match calls with
  | [] => []
  | Dispatch _ :: rest => logged rest
  | Log msg :: rest => msg :: logged rest
  end.

(** What the parser has accumulated, state by state: the running CRC is
    the CRC of the bytes consumed since the start byte, and the payload
    cursor and length stay within the payload array. *)
Definition parser_progress (p : dm_parser_t) : Prop :=
  let f := frame p in
  match state p with
  | PARSE_WAIT_START => True
  | PARSE_VERSION => running_crc p = crc16_ccitt []
  | PARSE_COMMAND => running_crc p = crc16_ccitt [version f]
  | PARSE_SEQ_ID => running_crc p = crc16_ccitt [version f; command f]
  | PARSE_LENGTH => running_crc p = crc16_ccitt [version f; command f; seq_id f]
  | PARSE_PAYLOAD =>
      0 <= payload_index p < payload_len f /\ payload_len f <= DM_MAX_PAYLOAD
      /\ running_crc p
         = crc16_ccitt ([version f; command f; seq_id f; payload_len f]
                        ++ take (Z.to_nat (payload_index p)) (payload f))
  | PARSE_CRC_HIGH | PARSE_CRC_LOW =>
      0 <= payload_len f <= DM_MAX_PAYLOAD
      /\ running_crc p = crc16_ccitt (frame_contents f)
  end.

(** An upper bound on the number of bytes after which a frame in progress
    is over, one way or the other. *)
Definition bytes_to_idle (p : dm_parser_t) : Z :=
  match state p with
  | PARSE_WAIT_START => 0
  | PARSE_VERSION => DM_MAX_FRAME_SIZE - 1
  | PARSE_COMMAND => DM_MAX_FRAME_SIZE - 2
  | PARSE_SEQ_ID => DM_MAX_FRAME_SIZE - 3
  | PARSE_LENGTH => DM_MAX_FRAME_SIZE - 4
  | PARSE_PAYLOAD => payload_len (frame p) - payload_index p + DM_CRC_SIZE
  | PARSE_CRC_HIGH => 2
  | PARSE_CRC_LOW => 1
  end.

(** Does [plat->log] exist. *)
Definition platform_logs (plat : option dm_platform_t) : bool :=
  match plat with
  | Some pl => log pl
  | None => false
  end.

(** A request as the host sends it: command, sequence number, payload. *)
Definition encode_request (req : Z * Z * list Z) : list Z :=
  let '(cmd, seq, body) := req in wire_frame cmd seq body.

(** ** core/dm_config.h and core/dm_protocol.h, the remaining constants *)

Definition DM_MAX_TEXT_LEN : Z := 64.

Definition CMD_PING : Z := 0x01.
Definition CMD_GET_VERSION : Z := 0x02.
Definition CMD_RESET : Z := 0x03.
Definition CMD_ENTER_BOOTLOADER : Z := 0x04.
Definition CMD_SET_TEXT : Z := 0x20.
Definition CMD_SET_VALUE : Z := 0x21.
Definition CMD_SET_VISIBLE : Z := 0x22.
Definition CMD_SET_ENABLED : Z := 0x23.

(** ** app/ui/ui_pages.c: the widget table *)

Definition WIDGET_TABLE_SIZE : Z := 16.

Inductive widget_type_t := WIDGET_LABEL | WIDGET_SLIDER | WIDGET_BUTTON.

(** [obj] is the [lv_obj_t *] handle, 0 for NULL. *)
Record widget_entry_t := {
  obj : Z;
  type : widget_type_t
}.

(** The calls into LVGL made by the widget operations, with the object
    they act on.  The flag of [lv_obj_clear_flag]/[lv_obj_add_flag] is
    LV_OBJ_FLAG_HIDDEN, the state of [lv_obj_clear_state]/[lv_obj_add_state]
    is LV_STATE_DISABLED, and [lv_slider_set_value] animates (LV_ANIM_ON). *)
Inductive lv_call :=
| lv_label_set_text (o : Z) (text : list Z)
| lv_slider_set_value (o : Z) (value : Z)
| lv_obj_clear_flag (o : Z)
| lv_obj_add_flag (o : Z)
| lv_obj_clear_state (o : Z)
| lv_obj_add_state (o : Z).

(** The file-scope variables of the widget side: the table
    [s_widgets[WIDGET_TABLE_SIZE]] with its fill count and the platform
    pointer [s_plat] used by the event callbacks.  [lv_first_child o] is
    what [lv_obj_get_child(o, 0)] returns ([None] for NULL); [lv_calls] are
    the calls made into LVGL, oldest first. *)
Record ui_widgets := {
  s_widgets : list widget_entry_t;
  s_widget_count : Z;         (* uint8_t *)
  s_plat : option dm_platform_t;
  lv_first_child : Z -> option Z;
  lv_calls : list lv_call
}.

Definition call_lv (c : lv_call) (ui : ui_widgets) : ui_widgets :=
  {| s_widgets := s_widgets ui; s_widget_count := s_widget_count ui;
     s_plat := s_plat ui; lv_first_child := lv_first_child ui;
     lv_calls := lv_calls ui ++ [c] |}.

(** [s_widgets[idx]] *)
Definition widget_at (ui : ui_widgets) (idx : Z) : widget_entry_t :=
  nth (Z.to_nat idx) (s_widgets ui) {| obj := 0; type := WIDGET_LABEL |}.

(** [register_widget]: the index given to the widget, 0xFF when the table
    is full. *)
Definition register_widget (o : Z) (t : widget_type_t) (ui : ui_widgets)
  : Z * ui_widgets :=
  if s_widget_count ui >=? WIDGET_TABLE_SIZE then (0xFF, ui)
  else
    let idx := s_widget_count ui in
    (idx,
     {| s_widgets := <[Z.to_nat idx := {| obj := o; type := t |}]> (s_widgets ui);
        s_widget_count := u8 (idx + 1);
        s_plat := s_plat ui;
        lv_first_child := lv_first_child ui;
        lv_calls := lv_calls ui |}).

(** The loop of [btn_event_cb]: [for (i = ...; i < s_widget_count; i++)]
    with [count] iterations left, leaving at the first widget whose object
    is the target, provided [s_plat] is set. *)
Fixpoint btn_event_loop (ui : ui_widgets) (btn : Z) (i : Z) (count : nat)
    (w : world) : world :=
  match count with
  | O => w
  | S count =>
      if (obj (widget_at ui i) =? btn)
         && (match s_plat ui with Some _ => true | None => false end)
      then dm_packet_send_button_pressed i (s_plat ui) w
      else btn_event_loop ui btn (u8 (i + 1)) count w
  end.

(** [btn_event_cb]; [clicked] tells whether [lv_event_get_code(e)] is
    LV_EVENT_CLICKED, [btn] is [lv_event_get_target(e)]. *)
Definition btn_event_cb (clicked : bool) (btn : Z) (ui : ui_widgets)
    (w : world) : world :=
  if negb clicked then w
  else btn_event_loop ui btn 0 (Z.to_nat (s_widget_count ui)) w.

Fixpoint slider_event_loop (ui : ui_widgets) (slider val : Z) (i : Z)
    (count : nat) (w : world) : world :=
  match count with
  | O => w
  | S count =>
      if (obj (widget_at ui i) =? slider)
         && (match s_plat ui with Some _ => true | None => false end)
      then dm_packet_send_slider_changed i val (s_plat ui) w
      else slider_event_loop ui slider val (u8 (i + 1)) count w
  end.

(** [slider_event_cb]; [changed] tells whether the event code is
    LV_EVENT_VALUE_CHANGED, [val] is [(int16_t)lv_slider_get_value(slider)]. *)
Definition slider_event_cb (changed : bool) (slider val : Z) (ui : ui_widgets)
    (w : world) : world :=
  if negb changed then w
  else slider_event_loop ui slider val 0 (Z.to_nat (s_widget_count ui)) w.

(** A C string: the bytes of a buffer before its first NUL. *)
Fixpoint c_string (buf : list Z) : list Z :=
  match buf with
  | [] => []
  | c :: rest => if c =? 0 then [] else c :: c_string rest
  end.

(** [text] is the string the [const char *] points at. *)
Definition ui_pages_set_text (widget_idx : Z) (text : list Z) (ui : ui_widgets)
  : bool * ui_widgets :=
  if widget_idx >=? s_widget_count ui then (false, ui)
  else
    let w := widget_at ui widget_idx in
    match type w with
    | WIDGET_LABEL => (true, call_lv (lv_label_set_text (obj w) text) ui)
    | WIDGET_BUTTON =>
        match lv_first_child ui (obj w) with
        | Some lbl => (true, call_lv (lv_label_set_text lbl text) ui)
        | None => (false, ui)
        end
    | WIDGET_SLIDER => (false, ui)
    end.

(** [value] is an int16_t. *)
Definition ui_pages_set_value (widget_idx value : Z) (ui : ui_widgets)
  : bool * ui_widgets :=
  if widget_idx >=? s_widget_count ui then (false, ui)
  else
    let w := widget_at ui widget_idx in
    match type w with
    | WIDGET_SLIDER => (true, call_lv (lv_slider_set_value (obj w) value) ui)
    | _ => (false, ui)
    end.

Definition ui_pages_set_visible (widget_idx : Z) (visible : bool)
    (ui : ui_widgets) : ui_widgets :=
  if widget_idx >=? s_widget_count ui then ui
  else if visible
       then call_lv (lv_obj_clear_flag (obj (widget_at ui widget_idx))) ui
       else call_lv (lv_obj_add_flag (obj (widget_at ui widget_idx))) ui.

Definition ui_pages_set_enabled (widget_idx : Z) (enabled : bool)
    (ui : ui_widgets) : ui_widgets :=
  if widget_idx >=? s_widget_count ui then ui
  else if enabled
       then call_lv (lv_obj_clear_state (obj (widget_at ui widget_idx))) ui
       else call_lv (lv_obj_add_state (obj (widget_at ui widget_idx))) ui.

(** ** app/dm_binder.c, the remaining handlers *)

(** The conversion [(int16_t)] of a 16-bit unsigned value. *)
Definition to_int16 (z : Z) : Z := if z >=? 32768 then z - 65536 else z.

Definition dm_handle_set_text (seq : Z) (p : list Z) (len : Z)
    (plat : option dm_platform_t) (ui : ui_widgets) (w : world)
  : ui_widgets * world :=
  if len <? 2 then (ui, dm_packet_send_nack seq plat w)
  else
    let widget_idx := nth 0 p 0 in
    let text_len := u8 (len - 1) in
    let text_len :=
      if text_len >=? DM_MAX_TEXT_LEN then u8 (DM_MAX_TEXT_LEN - 1)
      else text_len in
    (* memcpy(text, p + 1, text_len); text[text_len] = '\0'; *)
    let text := take (Z.to_nat text_len) (drop 1 p) ++ [0] in
    let '(done, ui) := ui_pages_set_text widget_idx (c_string text) ui in
    if done then (ui, dm_packet_send_ack seq plat None 0 w)
    else (ui, dm_packet_send_nack seq plat w).

Definition dm_handle_set_value (seq : Z) (p : list Z) (len : Z)
    (plat : option dm_platform_t) (ui : ui_widgets) (w : world)
  : ui_widgets * world :=
  if len <? 3 then (ui, dm_packet_send_nack seq plat w)
  else
    let widget_idx := nth 0 p 0 in
    let value :=
      to_int16 (u16 (Z.lor (Z.shiftl (nth 1 p 0) 8) (nth 2 p 0))) in
    let '(done, ui) := ui_pages_set_value widget_idx value ui in
    if done then (ui, dm_packet_send_ack seq plat None 0 w)
    else (ui, dm_packet_send_nack seq plat w).

Definition dm_handle_set_visible (seq : Z) (p : list Z) (len : Z)
    (plat : option dm_platform_t) (ui : ui_widgets) (w : world)
  : ui_widgets * world :=
  if len <? 2 then (ui, dm_packet_send_nack seq plat w)
  else
    let ui := ui_pages_set_visible (nth 0 p 0) (negb (nth 1 p 0 =? 0)) ui in
    (ui, dm_packet_send_ack seq plat None 0 w).

Definition dm_handle_set_enabled (seq : Z) (p : list Z) (len : Z)
    (plat : option dm_platform_t) (ui : ui_widgets) (w : world)
  : ui_widgets * world :=
  if len <? 2 then (ui, dm_packet_send_nack seq plat w)
  else
    let ui := ui_pages_set_enabled (nth 0 p 0) (negb (nth 1 p 0 =? 0)) ui in
    (ui, dm_packet_send_ack seq plat None 0 w).

(** ** core/dm_protocol.c *)

(** The handlers that [dm_binder.c] leaves to the weak defaults. *)

Definition dm_handle_ping (seq : Z) (p : list Z) (len : Z)
    (plat : option dm_platform_t) (w : world) : world :=
  dm_packet_send_ack seq plat None 0 w.

Definition dm_handle_get_version (seq : Z) (p : list Z) (len : Z)
    (plat : option dm_platform_t) (w : world) : world :=
  let ver := [DM_PROTOCOL_VERSION; 0x00; 0x00] in
  dm_packet_send_ack seq plat (Some ver) 3 w.

Definition dm_handle_reset (seq : Z) (p : list Z) (len : Z)
    (plat : option dm_platform_t) (w : world) : world :=
  dm_packet_send_ack seq plat None 0 w.

Definition dm_handle_enter_bootloader (seq : Z) (p : list Z) (len : Z)
    (plat : option dm_platform_t) (w : world) : world :=
  dm_packet_send_nack seq plat w.

(** Everything the dispatcher and the handlers act on: the two parts of
    the UI state, the encoder's world and the strings passed to
    [plat->log]. *)
Record system := {
  pages : ui_pages;
  widgets : ui_widgets;
  io : world;
  logs : list string
}.

Definition set_io (v : world) (s : system) : system :=
  {| pages := pages s; widgets := widgets s; io := v; logs := logs s |}.

Definition set_pages_io (v : ui_pages * world) (s : system) : system :=
  {| pages := fst v; widgets := widgets s; io := snd v; logs := logs s |}.

Definition set_widgets_io (v : ui_widgets * world) (s : system) : system :=
  {| pages := pages s; widgets := fst v; io := snd v; logs := logs s |}.

(** [if (plat && plat->log) plat->log(msg);] *)
Definition system_log (plat : option dm_platform_t) (msg : string)
    (s : system) : system :=
  match plat with
  | Some pl =>
      if log pl
      then {| pages := pages s; widgets := widgets s; io := io s;
              logs := logs s ++ [msg] |}
      else s
  | None => s
  end.

(** [dm_protocol_dispatch], linked with [dm_binder.c]: the five UI
    commands go to the binder's handlers, the other four to the weak
    defaults. *)
Definition dm_protocol_dispatch (f : dm_frame_t) (plat : option dm_platform_t)
    (s : system) : system :=
  let c := command f in
  if c =? CMD_PING then
    set_io (dm_handle_ping (seq_id f) (payload f) (payload_len f) plat (io s)) s
  else if c =? CMD_GET_VERSION then
    set_io (dm_handle_get_version (seq_id f) (payload f) (payload_len f) plat (io s)) s
  else if c =? CMD_RESET then
    set_io (dm_handle_reset (seq_id f) (payload f) (payload_len f) plat (io s)) s
  else if c =? CMD_ENTER_BOOTLOADER then
    set_io (dm_handle_enter_bootloader (seq_id f) (payload f) (payload_len f) plat (io s)) s
  else if c =? CMD_SHOW_PAGE then
    set_pages_io
      (dm_handle_show_page (seq_id f) (payload f) (payload_len f) plat
         (pages s) (io s)) s
  else if c =? CMD_SET_TEXT then
    set_widgets_io
      (dm_handle_set_text (seq_id f) (payload f) (payload_len f) plat
         (widgets s) (io s)) s
  else if c =? CMD_SET_VALUE then
    set_widgets_io
      (dm_handle_set_value (seq_id f) (payload f) (payload_len f) plat
         (widgets s) (io s)) s
  else if c =? CMD_SET_VISIBLE then
    set_widgets_io
      (dm_handle_set_visible (seq_id f) (payload f) (payload_len f) plat
         (widgets s) (io s)) s
  else if c =? CMD_SET_ENABLED then
    set_widgets_io
      (dm_handle_set_enabled (seq_id f) (payload f) (payload_len f) plat
         (widgets s) (io s)) s
  else
    let s := system_log plat "DM: unknown command – sending NACK" s in
    set_io (dm_packet_send_nack (seq_id f) plat (io s)) s.

(** ** core/dm_core.c *)

Record dm_core_t := {
  s_platform : option dm_platform_t;
  s_parser : dm_parser_t
}.

(** [dm_init]; [dm_protocol_init] has an empty body. *)
Definition dm_init (platform : option dm_platform_t) (s : system)
  : dm_core_t * system :=
  ({| s_platform := platform; s_parser := dm_parser_init |},
   system_log platform "DM: initialised" s).

(** The calls of one [dm_parser_feed], carried out in order. *)
Fixpoint perform_calls (calls : list parser_call) (plat : option dm_platform_t)
    (s : system) : system :=
  match calls with
  | [] => s
  | Dispatch f :: rest => perform_calls rest plat (dm_protocol_dispatch f plat s)
  | Log msg :: rest =>
      perform_calls rest plat
        {| pages := pages s; widgets := widgets s; io := io s;
           logs := logs s ++ [msg] |}
  end.

(** [dm_receive_byte]: [None] when the parser would store outside its
    payload array. *)
Definition dm_receive_byte (byte : Z) (cs : dm_core_t * system)
  : option (dm_core_t * system) :=
  let '(core, s) := cs in
  match dm_parser_feed (s_parser core) byte (s_platform core) with
  | None => None
  | Some (p, calls) =>
      Some ({| s_platform := s_platform core; s_parser := p |},
            perform_calls calls (s_platform core) s)
  end.

Fixpoint dm_receive_bytes (bytes : list Z) (cs : dm_core_t * system)
  : option (dm_core_t * system) :=
  match bytes with
  | [] => Some cs
  | b :: rest =>
      match dm_receive_byte b cs with
      | None => None
      | Some cs' => dm_receive_bytes rest cs'
      end
  end.

(** What a request is answered with: ACK (possibly with a payload) or NACK
    without one, in both cases with the request's sequence number. *)
Definition is_answer (seq : Z) (buf : list Z) : Prop :=
  (exists body, buf = wire_frame EVT_ACK seq body)
  \/ buf = wire_frame EVT_NACK seq [].

(** * Properties *)

(** ** Finite ranges *)

Lemma Z_from_In (count : nat) (start z : Z) :
  start <= z < start + Z.of_nat count -> In z (Z_from start count).
Proof.
  revert start. induction count as [|count IH]; simpl; intros start Hz; [lia|].
  destruct (Z.eq_dec start z) as [->|Hne]; [left; reflexivity|].
  right. apply IH. lia.
Qed.

Lemma Z_upto_complete (f : Z -> bool) (n : Z) :
  forallb f (Z_upto n) = true ->
  forall z, 0 <= z < n -> f z = true.
Proof.
  intros Hall z Hz.
  rewrite forallb_forall in Hall.
  apply Hall. unfold Z_upto.
  apply Z_from_In. lia.
Qed.

(** ** Fixed-width arithmetic *)

Lemma u8_range z : is_u8 (u8 z).
Proof. unfold is_u8, u8. apply Z.mod_pos_bound. lia. Qed.

Lemma u16_range z : is_u16 (u16 z).
Proof. unfold is_u16, u16. apply Z.mod_pos_bound. lia. Qed.

Lemma u32_range z : is_u32 (u32 z).
Proof. unfold is_u32, u32. apply Z.mod_pos_bound. lia. Qed.

Lemma u16_id z : is_u16 z -> u16 z = z.
Proof. unfold is_u16, u16. intros. apply Z.mod_small. lia. Qed.

Lemma u8_id z : is_u8 z -> u8 z = z.
Proof. unfold is_u8, u8. intros. apply Z.mod_small. lia. Qed.

Lemma u16_land z : u16 z = Z.land z (Z.ones 16).
Proof. unfold u16. rewrite Z.land_ones by lia. reflexivity. Qed.

Lemma u16_lxor a b : u16 (Z.lxor a b) = Z.lxor (u16 a) (u16 b).
Proof.
  rewrite !u16_land. apply Z.bits_inj'. intros n Hn.
  rewrite Z.lxor_spec, !Z.land_spec, Z.lxor_spec.
  destruct (Z.testbit (Z.ones 16) n); rewrite ?andb_true_r, ?andb_false_r; reflexivity.
Qed.

Lemma shiftl8_u16 b : is_u8 b -> is_u16 (Z.shiftl b 8).
Proof. unfold is_u8, is_u16. rewrite Z.shiftl_mul_pow2 by lia. lia. Qed.

Lemma lxor_u16 a b : is_u16 a -> is_u16 b -> is_u16 (Z.lxor a b).
Proof.
  intros Ha Hb. rewrite <- (u16_id a Ha), <- (u16_id b Hb), <- u16_lxor.
  apply u16_range.
Qed.

Lemma lxor_inj_l a b c : Z.lxor a c = Z.lxor b c -> a = b.
Proof.
  intros H.
  assert (E : Z.lxor (Z.lxor a c) c = Z.lxor (Z.lxor b c) c) by (rewrite H; reflexivity).
  rewrite !Z.lxor_assoc, !Z.lxor_nilpotent, !Z.lxor_0_r in E. exact E.
Qed.

Lemma lxor_inj_r a b c : Z.lxor c a = Z.lxor c b -> a = b.
Proof. rewrite !(Z.lxor_comm c). apply lxor_inj_l. Qed.

Lemma shiftl8_inj a b : Z.shiftl a 8 = Z.shiftl b 8 -> a = b.
Proof. rewrite !Z.shiftl_mul_pow2 by lia. lia. Qed.

(** Splitting a 16-bit value into two bytes and joining them again, as
    the encoder and the parser do with the CRC. *)
Lemma crc_bytes_join crc :
  is_u16 crc ->
  u16 (Z.lor (Z.shiftl (u8 (Z.shiftr crc 8)) 8) (u8 (Z.land crc 0xFF))) = crc.
Proof.
  intros H.
  apply Z.eqb_eq.
  apply (Z_upto_complete
           (fun c => u16 (Z.lor (Z.shiftl (u8 (Z.shiftr c 8)) 8)
                            (u8 (Z.land c 0xFF))) =? c) 65536);
    [vm_compute; reflexivity | exact H].
Qed.

Lemma crc_bytes_spec crc :
  is_u16 crc ->
  u8 (Z.shiftr crc 8) = crc / 256 /\ u8 (Z.land crc 0xFF) = crc mod 256.
Proof.
  intros H.
  assert (E : (u8 (Z.shiftr crc 8) =? crc / 256)
              && (u8 (Z.land crc 0xFF) =? crc mod 256) = true).
  { apply (Z_upto_complete
             (fun c => (u8 (Z.shiftr c 8) =? c / 256)
                       && (u8 (Z.land c 0xFF) =? c mod 256)) 65536);
      [vm_compute; reflexivity | exact H]. }
  apply andb_true_iff in E. destruct E as [E1 E2].
  split; apply Z.eqb_eq; assumption.
Qed.

(** The parser's 16-bit value of two received bytes. *)
Lemma join_bytes_value h l :
  is_u8 h -> is_u8 l -> u16 (Z.lor (Z.shiftl h 8) l) = h * 256 + l.
Proof.
  intros Hh Hl.
  assert (E : forallb (fun x => u16 (Z.lor (Z.shiftl x 8) l) =? x * 256 + l)
                (Z_upto 256) = true).
  { apply (Z_upto_complete
             (fun y => forallb (fun x => u16 (Z.lor (Z.shiftl x 8) y) =? x * 256 + y)
                         (Z_upto 256)) 256);
      [vm_compute; reflexivity | exact Hl]. }
  apply Z.eqb_eq.
  apply (Z_upto_complete _ 256 E). exact Hh.
Qed.

(** ** CRC16 *)

Lemma crc16_shift_range c : is_u16 (crc16_shift c).
Proof. unfold crc16_shift. destruct (negb _); apply u16_range. Qed.

Lemma crc16_unshift_shift c : is_u16 c -> crc16_unshift (crc16_shift c) = c.
Proof.
  intros H. apply Z.eqb_eq.
  apply (Z_upto_complete (fun c => crc16_unshift (crc16_shift c) =? c) 65536);
    [vm_compute; reflexivity | exact H].
Qed.

Lemma crc16_shift_inj a b :
  is_u16 a -> is_u16 b -> crc16_shift a = crc16_shift b -> a = b.
Proof.
  intros Ha Hb E.
  rewrite <- (crc16_unshift_shift a Ha), <- (crc16_unshift_shift b Hb), E.
  reflexivity.
Qed.

Lemma crc16_shift_iter_range n c : is_u16 c -> is_u16 (Nat.iter n crc16_shift c).
Proof. intros H. induction n; simpl; [exact H | apply crc16_shift_range]. Qed.

Lemma crc16_shift_iter_inj n a b :
  is_u16 a -> is_u16 b ->
  Nat.iter n crc16_shift a = Nat.iter n crc16_shift b -> a = b.
Proof.
  intros Ha Hb. induction n; simpl; [tauto|].
  intros E. apply IHn. apply crc16_shift_inj; auto using crc16_shift_iter_range.
Qed.

Lemma crc16_update_range c b : is_u16 (crc16_update c b).
Proof. unfold crc16_update. apply crc16_shift_iter_range, u16_range. Qed.

Lemma crc16_update_inj_crc c1 c2 b :
  is_u16 c1 -> is_u16 c2 -> is_u8 b ->
  crc16_update c1 b = crc16_update c2 b -> c1 = c2.
Proof.
  intros H1 H2 Hb E. unfold crc16_update in E.
  apply crc16_shift_iter_inj in E; try apply u16_range.
  rewrite !u16_lxor, (u16_id c1), (u16_id c2) in E by assumption.
  eapply lxor_inj_l; eassumption.
Qed.

Lemma crc16_update_inj_byte c b1 b2 :
  is_u16 c -> is_u8 b1 -> is_u8 b2 ->
  crc16_update c b1 = crc16_update c b2 -> b1 = b2.
Proof.
  intros Hc H1 H2 E. unfold crc16_update in E.
  apply crc16_shift_iter_inj in E; try apply u16_range.
  rewrite !u16_lxor in E.
  apply lxor_inj_r in E.
  rewrite !u16_id in E by (apply shiftl8_u16; assumption).
  apply shiftl8_inj; assumption.
Qed.

Lemma crc16_fold_range l c : is_u16 c -> is_u16 (fold_left crc16_update l c).
Proof.
  revert c. induction l as [|b l IH]; simpl; intros c Hc; [exact Hc|].
  apply IH, crc16_update_range.
Qed.

Lemma crc16_fold_inj l c1 c2 :
  is_u16 c1 -> is_u16 c2 -> Forall is_u8 l ->
  fold_left crc16_update l c1 = fold_left crc16_update l c2 -> c1 = c2.
Proof.
  revert c1 c2. induction l as [|b l IH]; simpl; intros c1 c2 H1 H2 Hl E; [exact E|].
  inversion Hl; subst.
  apply IH in E; auto using crc16_update_range.
  eapply crc16_update_inj_crc; eauto.
Qed.

(** Two byte strings that differ in exactly one position have different
    CRCs: the CRC detects every corruption confined to one byte. *)
Lemma crc16_single_byte l1 b b' l2 c :
  is_u16 c -> Forall is_u8 l1 -> Forall is_u8 l2 -> is_u8 b -> is_u8 b' ->
  b <> b' ->
  fold_left crc16_update (l1 ++ b :: l2) c
  <> fold_left crc16_update (l1 ++ b' :: l2) c.
Proof.
  intros Hc H1 H2 Hb Hb' Hne E.
  rewrite !fold_left_app in E. simpl in E.
  apply crc16_fold_inj in E; auto using crc16_update_range.
  apply crc16_update_inj_byte in E; auto using crc16_fold_range.
Qed.

Lemma crc16_ccitt_range l : is_u16 (crc16_ccitt l).
Proof. apply crc16_fold_range. unfold is_u16. lia. Qed.

(** *** The code's CRC is the specification's *)

Lemma spec_crc_round_shift x : is_u16 x -> spec_crc_round x = crc16_shift x.
Proof.
  intros H. apply Z.eqb_eq.
  apply (Z_upto_complete (fun c => spec_crc_round c =? crc16_shift c) 65536);
    [vm_compute; reflexivity | exact H].
Qed.

Lemma spec_crc_round_iter n x :
  is_u16 x -> Nat.iter n spec_crc_round x = Nat.iter n crc16_shift x.
Proof.
  intros H. induction n as [|n IH]; [reflexivity|].
  rewrite !Nat.iter_succ, IH.
  apply spec_crc_round_shift, crc16_shift_iter_range, H.
Qed.

Lemma spec_crc_update_code crc byte :
  spec_crc_update crc byte = crc16_update crc byte.
Proof.
  unfold spec_crc_update, crc16_update. cbv zeta.
  rewrite Z.shiftl_mul_pow2 by lia. change (2 ^ 8) with 256.
  change (Z.lxor crc (byte * 256) mod 65536) with (u16 (Z.lxor crc (byte * 256))).
  apply spec_crc_round_iter, u16_range.
Qed.

Lemma spec_crc_of_code bytes : spec_crc_of bytes = crc16_ccitt bytes.
Proof.
  unfold spec_crc_of, crc16_ccitt, spec_crc_init.
  generalize 0xFFFF. induction bytes as [|b bytes IH]; intros c; [reflexivity|].
  cbn [fold_left]. rewrite spec_crc_update_code. apply IH.
Qed.

(** The check value of CRC-16/CCITT-FALSE, on the specification's side. *)
Lemma spec_crc_check_value : spec_crc_of ascii_123456789 = 0x29B1.
Proof. vm_compute. reflexivity. Qed.

(** C5.  The CRC of the nine ASCII bytes of "123456789" is 0x29B1 and the
    CRC of the empty byte sequence is the seed 0xFFFF. *)
Theorem crc16_check_values :
  crc16_ccitt ascii_123456789 = 0x29B1 /\ crc16_ccitt [] = 0xFFFF.
Proof. split; vm_compute; reflexivity. Qed.

(** ** Reduction control

    From here on the CRC is used through its lemmas only. *)

Arguments crc16_update : simpl never.
Opaque crc16_update.
Arguments u16 : simpl never.
Arguments u32 : simpl never.
Arguments u8 : simpl never.

(** ** Parser: feeding streams *)

Lemma feed_all_cons p b rest plat :
  dm_parser_feed_all p (b :: rest) plat =
  match dm_parser_feed p b plat with
  | None => None
  | Some (p1, calls1) =>
      match dm_parser_feed_all p1 rest plat with
      | None => None
      | Some (p2, calls2) => Some (p2, calls1 ++ calls2)
      end
  end.
Proof. reflexivity. Qed.

Lemma feed_all_app p l1 l2 plat :
  dm_parser_feed_all p (l1 ++ l2) plat =
  match dm_parser_feed_all p l1 plat with
  | None => None
  | Some (p1, calls1) =>
      match dm_parser_feed_all p1 l2 plat with
      | None => None
      | Some (p2, calls2) => Some (p2, calls1 ++ calls2)
      end
  end.
Proof.
  revert p. induction l1 as [|b l1 IH]; intros p.
  - simpl. destruct (dm_parser_feed_all p l2 plat) as [[p2 c2]|]; reflexivity.
  - simpl. destruct (dm_parser_feed p b plat) as [[p1 c1]|]; [|reflexivity].
    rewrite IH.
    destruct (dm_parser_feed_all p1 l1 plat) as [[p2 c2]|]; [|reflexivity].
    destruct (dm_parser_feed_all p2 l2 plat) as [[p3 c3]|]; [|reflexivity].
    rewrite app_assoc. reflexivity.
Qed.


(** Normalising field reads of assigned records. *)
Ltac parser_simpl :=
  cbv beta delta
      [set_version set_command set_seq_id set_payload_len set_payload
       set_state set_frame set_payload_index set_running_crc set_crc_high
       set_frames_ok set_frames_crc_err set_frames_len_err parser_reset];
  cbn [state frame payload_index running_crc crc_high frames_ok
       frames_crc_err frames_len_err version command seq_id payload_len
       payload].

(** [dm_parser_feed] in each state. *)

Lemma feed_wait_start p b plat :
  state p = PARSE_WAIT_START ->
  dm_parser_feed p b plat =
  if b =? DM_START_BYTE
  then Some (set_state PARSE_VERSION (parser_reset p), [])
  else Some (p, []).
Proof. intros H. unfold dm_parser_feed. rewrite H. reflexivity. Qed.

Lemma feed_version p b plat :
  state p = PARSE_VERSION ->
  dm_parser_feed p b plat =
  Some (set_state PARSE_COMMAND
          (set_running_crc (crc16_update (running_crc p) b)
             (set_frame (set_version b (frame p)) p)), []).
Proof. intros H. unfold dm_parser_feed. rewrite H. reflexivity. Qed.

Lemma feed_command p b plat :
  state p = PARSE_COMMAND ->
  dm_parser_feed p b plat =
  Some (set_state PARSE_SEQ_ID
          (set_running_crc (crc16_update (running_crc p) b)
             (set_frame (set_command b (frame p)) p)), []).
Proof. intros H. unfold dm_parser_feed. rewrite H. reflexivity. Qed.

Lemma feed_seq_id p b plat :
  state p = PARSE_SEQ_ID ->
  dm_parser_feed p b plat =
  Some (set_state PARSE_LENGTH
          (set_running_crc (crc16_update (running_crc p) b)
             (set_frame (set_seq_id b (frame p)) p)), []).
Proof. intros H. unfold dm_parser_feed. rewrite H. reflexivity. Qed.

Lemma feed_length_overflow p b plat :
  state p = PARSE_LENGTH -> DM_MAX_PAYLOAD < b ->
  dm_parser_feed p b plat =
  Some (parser_reset (set_frames_len_err (u32 (frames_len_err p + 1)) p),
        debug_log plat "DM: frame length overflow, resyncing").
Proof.
  intros H Hb. unfold dm_parser_feed. rewrite H.
  replace (b >? DM_MAX_PAYLOAD) with true; [reflexivity|].
  symmetry. rewrite Z.gtb_ltb. apply Z.ltb_lt. exact Hb.
Qed.

Lemma feed_length_ok p b plat :
  state p = PARSE_LENGTH -> b <= DM_MAX_PAYLOAD ->
  dm_parser_feed p b plat =
  Some (set_state (if b =? 0 then PARSE_CRC_HIGH else PARSE_PAYLOAD)
          (set_payload_index 0
             (set_running_crc (crc16_update (running_crc p) b)
                (set_frame (set_payload_len b (frame p)) p))), []).
Proof.
  intros H Hb. unfold dm_parser_feed. rewrite H.
  replace (b >? DM_MAX_PAYLOAD) with false.
  - destruct (b =? 0); reflexivity.
  - symmetry. rewrite Z.gtb_ltb. apply Z.ltb_ge. exact Hb.
Qed.

Lemma feed_payload_byte p b plat :
  state p = PARSE_PAYLOAD -> 0 <= payload_index p < DM_MAX_PAYLOAD ->
  dm_parser_feed p b plat =
  let q := set_running_crc (crc16_update (running_crc p) b)
             (set_payload_index (u16 (payload_index p + 1))
                (set_frame
                   (set_payload
                      (<[Z.to_nat (payload_index p) := b]> (payload (frame p)))
                      (frame p)) p)) in
  if payload_index q >=? payload_len (frame q)
  then Some (set_state PARSE_CRC_HIGH q, [])
  else Some (q, []).
Proof.
  intros H Hi. unfold dm_parser_feed. rewrite H.
  replace ((0 <=? payload_index p) && (payload_index p <? DM_MAX_PAYLOAD))
    with true; [reflexivity|].
  symmetry. apply andb_true_iff. split; [apply Z.leb_le | apply Z.ltb_lt]; lia.
Qed.

Lemma feed_payload_overrun p b plat :
  state p = PARSE_PAYLOAD -> DM_MAX_PAYLOAD <= payload_index p ->
  dm_parser_feed p b plat = None.
Proof.
  intros H Hi. unfold dm_parser_feed. rewrite H.
  replace (payload_index p <? DM_MAX_PAYLOAD) with false;
    [rewrite andb_false_r; reflexivity|].
  symmetry. apply Z.ltb_ge. exact Hi.
Qed.

Lemma feed_crc_high p b plat :
  state p = PARSE_CRC_HIGH ->
  dm_parser_feed p b plat = Some (set_state PARSE_CRC_LOW (set_crc_high b p), []).
Proof. intros H. unfold dm_parser_feed. rewrite H. reflexivity. Qed.

Lemma feed_crc_low p b plat :
  state p = PARSE_CRC_LOW ->
  dm_parser_feed p b plat =
  if u16 (Z.lor (Z.shiftl (crc_high p) 8) b) =? running_crc p
  then Some (parser_reset (set_frames_ok (u32 (frames_ok p + 1)) p),
             [Dispatch (frame p)])
  else Some (parser_reset (set_frames_crc_err (u32 (frames_crc_err p + 1)) p),
             debug_log plat "DM: CRC mismatch, frame dropped").
Proof. intros H. unfold dm_parser_feed. rewrite H. reflexivity. Qed.

(** The header [0xAA, version, command, seq, len] from the idle state. *)
Lemma feed_header p v c s n plat :
  state p = PARSE_WAIT_START -> 0 <= n <= DM_MAX_PAYLOAD ->
  dm_parser_feed_all p [DM_START_BYTE; v; c; s; n] plat =
  Some ({| state := if n =? 0 then PARSE_CRC_HIGH else PARSE_PAYLOAD;
           frame := {| version := v; command := c; seq_id := s;
                       payload_len := n; payload := payload (frame p) |};
           payload_index := 0;
           running_crc := fold_left crc16_update [v; c; s; n] 0xFFFF;
           crc_high := 0;
           frames_ok := frames_ok p;
           frames_crc_err := frames_crc_err p;
           frames_len_err := frames_len_err p |}, []).
Proof.
  intros Hst Hn.
  destruct p as [st fr idx crc ch ok ce le]. cbn [state] in Hst. subst st.
  rewrite feed_all_cons, feed_wait_start, Z.eqb_refl by reflexivity. parser_simpl.
  rewrite feed_all_cons, feed_version by reflexivity. parser_simpl.
  rewrite feed_all_cons, feed_command by reflexivity. parser_simpl.
  rewrite feed_all_cons, feed_seq_id by reflexivity. parser_simpl.
  rewrite feed_all_cons, feed_length_ok by (reflexivity || lia). parser_simpl.
  cbn [dm_parser_feed_all app fold_left].
  destruct fr; reflexivity.
Qed.


Lemma feed_payload_store b i v c s n buf crc ch ok ce le plat :
  0 <= i < DM_MAX_PAYLOAD ->
  dm_parser_feed
    {| state := PARSE_PAYLOAD;
       frame := {| version := v; command := c; seq_id := s;
                   payload_len := n; payload := buf |};
       payload_index := i; running_crc := crc; crc_high := ch;
       frames_ok := ok; frames_crc_err := ce; frames_len_err := le |}
    b plat =
  Some ({| state := if u16 (i + 1) >=? n then PARSE_CRC_HIGH else PARSE_PAYLOAD;
           frame := {| version := v; command := c; seq_id := s;
                       payload_len := n;
                       payload := <[Z.to_nat i := b]> buf |};
           payload_index := u16 (i + 1);
           running_crc := crc16_update crc b;
           crc_high := ch;
           frames_ok := ok; frames_crc_err := ce; frames_len_err := le |}, []).
Proof.
  intros Hi. rewrite feed_payload_byte by (try reflexivity; exact Hi).
  cbv zeta. parser_simpl.
  destruct (u16 (i + 1) >=? n); reflexivity.
Qed.

(** The payload bytes: each is stored at the cursor, the last one moves
    the parser on to the CRC. *)
Lemma feed_payload pl : forall b k v c s n buf crc ch ok ce le plat,
  Z.of_nat k + Z.of_nat (S (length pl)) = n -> n <= DM_MAX_PAYLOAD ->
  length buf = Z.to_nat DM_MAX_PAYLOAD ->
  dm_parser_feed_all
    {| state := PARSE_PAYLOAD;
       frame := {| version := v; command := c; seq_id := s;
                   payload_len := n; payload := buf |};
       payload_index := Z.of_nat k; running_crc := crc; crc_high := ch;
       frames_ok := ok; frames_crc_err := ce; frames_len_err := le |}
    (b :: pl) plat =
  Some ({| state := PARSE_CRC_HIGH;
           frame := {| version := v; command := c; seq_id := s;
                       payload_len := n;
                       payload := take k buf ++ (b :: pl)
                                  ++ drop (k + S (length pl)) buf |};
           payload_index := n;
           running_crc := fold_left crc16_update (b :: pl) crc;
           crc_high := ch;
           frames_ok := ok; frames_crc_err := ce; frames_len_err := le |}, []).
Proof.
  induction pl as [|b' pl IH]; intros b k v c s n buf crc ch ok ce le plat Hk Hn Hbuf;
    assert (Hmax : DM_MAX_PAYLOAD = 128) by reflexivity;
    assert (Hlen : length buf = 128%nat) by (rewrite Hbuf, Hmax; reflexivity);
    simpl length in Hk;
    rewrite feed_all_cons, feed_payload_store by lia;
    rewrite (u16_id (Z.of_nat k + 1)) by (unfold is_u16; lia);
    rewrite Nat2Z.id.
  - replace (Z.of_nat k + 1 >=? n) with true
      by (symmetry; rewrite Z.geb_leb; apply Z.leb_le; lia).
    cbn [dm_parser_feed_all app fold_left length].
    rewrite (insert_take_drop buf k b) by lia.
    replace (k + 1)%nat with (S k) by lia.
    replace (Z.of_nat k + 1) with n by lia. reflexivity.
  - replace (Z.of_nat k + 1 >=? n) with false
      by (symmetry; rewrite Z.geb_leb; apply Z.leb_gt; lia).
    replace (Z.of_nat k + 1) with (Z.of_nat (S k)) by lia.
    rewrite (IH b' (S k) v c s n (<[k:=b]> buf) (crc16_update crc b) ch ok ce le plat);
      [| simpl length; lia | lia | rewrite length_insert; assumption].
    assert (E : take (S k) (<[k:=b]> buf) ++ (b' :: pl)
                ++ drop (S k + S (length pl)) (<[k:=b]> buf)
                = take k buf ++ (b :: b' :: pl)
                  ++ drop (k + S (length (b' :: pl))) buf).
    { rewrite take_S_r with (x := b) by (apply list_lookup_insert_eq; lia).
      rewrite take_insert_ge by lia.
      rewrite drop_insert_lt by lia.
      rewrite <- app_assoc. cbn [app length].
      replace (S k + S (length pl))%nat with (k + S (S (length pl)))%nat by lia.
      reflexivity. }
    rewrite E. reflexivity.
Qed.

(** The two CRC bytes. *)
Lemma feed_trailer h l fr idx crc ch ok ce le plat :
  dm_parser_feed_all
    {| state := PARSE_CRC_HIGH; frame := fr;
       payload_index := idx; running_crc := crc; crc_high := ch;
       frames_ok := ok; frames_crc_err := ce; frames_len_err := le |}
    [h; l] plat =
  if u16 (Z.lor (Z.shiftl h 8) l) =? crc
  then Some ({| state := PARSE_WAIT_START; frame := fr;
                payload_index := 0; running_crc := 0xFFFF; crc_high := 0;
                frames_ok := u32 (ok + 1); frames_crc_err := ce;
                frames_len_err := le |}, [Dispatch fr])
  else Some ({| state := PARSE_WAIT_START; frame := fr;
                payload_index := 0; running_crc := 0xFFFF; crc_high := 0;
                frames_ok := ok; frames_crc_err := u32 (ce + 1);
                frames_len_err := le |},
             debug_log plat "DM: CRC mismatch, frame dropped").
Proof.
  rewrite feed_all_cons, feed_crc_high by reflexivity. parser_simpl.
  rewrite feed_all_cons, feed_crc_low by reflexivity. parser_simpl.
  destruct (u16 (Z.lor (Z.shiftl h 8) l) =? crc);
    cbn [dm_parser_feed_all app]; rewrite ?app_nil_r; reflexivity.
Qed.

(** A whole frame-shaped byte string, from the idle state: the header and
    payload are captured, and the frame is delivered exactly when the two
    trailing bytes equal the CRC of what lies between the start byte and
    them. *)
Lemma feed_frame p v c s pl h l plat :
  state p = PARSE_WAIT_START ->
  length (payload (frame p)) = Z.to_nat DM_MAX_PAYLOAD ->
  Z.of_nat (length pl) <= DM_MAX_PAYLOAD ->
  let n := Z.of_nat (length pl) in
  let fr := {| version := v; command := c; seq_id := s; payload_len := n;
               payload := pl ++ drop (length pl) (payload (frame p)) |} in
  dm_parser_feed_all p ([DM_START_BYTE; v; c; s; n] ++ pl ++ [h; l]) plat =
  if u16 (Z.lor (Z.shiftl h 8) l) =? crc16_ccitt ([v; c; s; n] ++ pl)
  then Some ({| state := PARSE_WAIT_START; frame := fr;
                payload_index := 0; running_crc := 0xFFFF; crc_high := 0;
                frames_ok := u32 (frames_ok p + 1);
                frames_crc_err := frames_crc_err p;
                frames_len_err := frames_len_err p |}, [Dispatch fr])
  else Some ({| state := PARSE_WAIT_START; frame := fr;
                payload_index := 0; running_crc := 0xFFFF; crc_high := 0;
                frames_ok := frames_ok p;
                frames_crc_err := u32 (frames_crc_err p + 1);
                frames_len_err := frames_len_err p |},
             debug_log plat "DM: CRC mismatch, frame dropped").
Proof.
  intros Hst Hbuf Hlen n fr.
  rewrite feed_all_app, (feed_header p v c s n plat Hst) by (unfold n; lia).
  unfold crc16_ccitt. rewrite fold_left_app.
  destruct pl as [|b pl].
  - cbn [app]. replace (n =? 0) with true by reflexivity.
    rewrite feed_trailer. unfold fr. cbn [length drop app fold_left].
    destruct (_ =? _); reflexivity.
  - replace (n =? 0) with false by (symmetry; apply Z.eqb_neq; unfold n; simpl length; lia).
    rewrite feed_all_app.
    rewrite (feed_payload pl b 0 v c s n) by (unfold n in *; simpl length in *; lia || assumption).
    rewrite feed_trailer. unfold fr. cbn [take app length Nat.add].
    destruct (_ =? _); reflexivity.
Qed.

(** ** Encoder *)

Lemma clamp_min len :
  (if len >? DM_MAX_PAYLOAD then DM_MAX_PAYLOAD else len) = Z.min len DM_MAX_PAYLOAD.
Proof.
  rewrite Z.gtb_ltb. destruct (Z.ltb_spec DM_MAX_PAYLOAD len); lia.
Qed.

(** What [dm_packet_send] hands to [write_bytes] when the slot is there. *)
Lemma dm_packet_send_shape cmd seq payload len pl w :
  write_bytes pl = true ->
  let n := Z.min len DM_MAX_PAYLOAD in
  let body := if n >? 0 then sent_payload payload len else [] in
  let crc := crc16_ccitt ([DM_PROTOCOL_VERSION; cmd; seq; n] ++ body) in
  dm_packet_send cmd seq payload len (Some pl) w =
  call_write_bytes
    ([DM_START_BYTE; DM_PROTOCOL_VERSION; cmd; seq; n] ++ body
     ++ [u8 (Z.shiftr crc 8); u8 (Z.land crc 0xFF)]) w.
Proof.
  intros Hw n body crc. unfold dm_packet_send. rewrite Hw. cbn [negb].
  rewrite clamp_min. fold n. cbv zeta.
  unfold crc, body, sent_payload. fold n.
  destruct payload as [data|]; destruct (n >? 0); cbn [app drop];
    rewrite <- ?app_assoc; cbn [app drop]; rewrite ?app_nil_r; reflexivity.
Qed.

Lemma sent_payload_nonpos payload len :
  Z.min len DM_MAX_PAYLOAD <= 0 -> sent_payload payload len = [].
Proof.
  intros H. unfold sent_payload. destruct payload as [data|]; [|reflexivity].
  replace (Z.to_nat (Z.min len DM_MAX_PAYLOAD)) with 0%nat by lia. reflexivity.
Qed.

Lemma dm_packet_send_bytes cmd seq payload len pl w :
  write_bytes pl = true ->
  let n := Z.min len DM_MAX_PAYLOAD in
  let body := sent_payload payload len in
  let crc := crc16_ccitt ([DM_PROTOCOL_VERSION; cmd; seq; n] ++ body) in
  dm_packet_send cmd seq payload len (Some pl) w =
  call_write_bytes
    ([DM_START_BYTE; DM_PROTOCOL_VERSION; cmd; seq; n] ++ body
     ++ [u8 (Z.shiftr crc 8); u8 (Z.land crc 0xFF)]) w.
Proof.
  intros Hw n body crc. rewrite dm_packet_send_shape by assumption.
  fold n. unfold crc, body.
  destruct (Z.gtb_spec n 0) as [Hpos|Hle]; [reflexivity|].
  rewrite sent_payload_nonpos by (fold n; lia). reflexivity.
Qed.

Lemma dispatched_debug_log plat msg : dispatched (debug_log plat msg) = [].
Proof.
  unfold debug_log. destruct plat as [pl|]; [destruct (log pl)|]; reflexivity.
Qed.

Lemma crc_of_bytes_join bytes :
  u16 (Z.lor (Z.shiftl (crc_of bytes / 256) 8) (crc_of bytes mod 256))
  = crc16_ccitt bytes.
Proof.
  change (crc_of bytes) with (crc16_ccitt bytes).
  pose proof (crc16_ccitt_range bytes) as Hr.
  destruct (crc_bytes_spec _ Hr) as [<- <-].
  apply crc_bytes_join, Hr.
Qed.

(** A frame in the wire format is accepted from the idle state, whatever
    was parsed before, and handed to the dispatcher once. *)
Lemma feed_wire_frame p cmd seq body plat :
  state p = PARSE_WAIT_START ->
  length (payload (frame p)) = Z.to_nat DM_MAX_PAYLOAD ->
  Z.of_nat (length body) <= DM_MAX_PAYLOAD ->
  let fr := {| version := DM_PROTOCOL_VERSION; command := cmd; seq_id := seq;
               payload_len := Z.of_nat (length body);
               payload := body ++ drop (length body) (payload (frame p)) |} in
  dm_parser_feed_all p (wire_frame cmd seq body) plat =
  Some ({| state := PARSE_WAIT_START; frame := fr;
           payload_index := 0; running_crc := 0xFFFF; crc_high := 0;
           frames_ok := u32 (frames_ok p + 1);
           frames_crc_err := frames_crc_err p;
           frames_len_err := frames_len_err p |}, [Dispatch fr]).
Proof.
  intros Hst Hbuf Hlen fr. unfold wire_frame.
  change ([DM_START_BYTE] ++ ([DM_PROTOCOL_VERSION; cmd; seq; Z.of_nat (length body)] ++ body)
          ++ [crc_of ([DM_PROTOCOL_VERSION; cmd; seq; Z.of_nat (length body)] ++ body) / 256;
              crc_of ([DM_PROTOCOL_VERSION; cmd; seq; Z.of_nat (length body)] ++ body) mod 256])
    with ([DM_START_BYTE; DM_PROTOCOL_VERSION; cmd; seq; Z.of_nat (length body)] ++ body
          ++ [crc_of ([DM_PROTOCOL_VERSION; cmd; seq; Z.of_nat (length body)] ++ body) / 256;
              crc_of ([DM_PROTOCOL_VERSION; cmd; seq; Z.of_nat (length body)] ++ body) mod 256]).
  rewrite feed_frame by assumption.
  rewrite crc_of_bytes_join, Z.eqb_refl. reflexivity.
Qed.

(** With a payload of [len <= DM_MAX_PAYLOAD] readable bytes the encoder
    writes the wire format of its arguments. *)
Lemma dm_packet_send_wire_frame cmd seq data pl w :
  write_bytes pl = true ->
  Z.of_nat (length data) <= DM_MAX_PAYLOAD ->
  dm_packet_send cmd seq (Some data) (Z.of_nat (length data)) (Some pl) w =
  call_write_bytes (wire_frame cmd seq data) w.
Proof.
  intros Hw Hlen. rewrite dm_packet_send_bytes by assumption.
  unfold sent_payload.
  rewrite Z.min_l, Nat2Z.id, firstn_all by lia.
  pose proof (crc16_ccitt_range
                ([DM_PROTOCOL_VERSION; cmd; seq; Z.of_nat (length data)] ++ data)) as Hr.
  destruct (crc_bytes_spec _ Hr) as [-> ->].
  reflexivity.
Qed.

Lemma dm_packet_send_empty cmd seq pl w :
  write_bytes pl = true ->
  dm_packet_send cmd seq None 0 (Some pl) w =
  call_write_bytes (wire_frame cmd seq []) w.
Proof.
  intros Hw. rewrite dm_packet_send_bytes by assumption.
  pose proof (crc16_ccitt_range
                ([DM_PROTOCOL_VERSION; cmd; seq; Z.min 0 DM_MAX_PAYLOAD]
                 ++ sent_payload None 0)) as Hr.
  destruct (crc_bytes_spec _ Hr) as [-> ->].
  change (Z.min 0 DM_MAX_PAYLOAD) with 0.
  reflexivity.
Qed.

(** C9.  Called with a platform whose [write_bytes] slot is filled in,
    [dm_packet_send] clamps the payload length to DM_MAX_PAYLOAD, builds
    0xAA, version, cmd, seq, clamped length, the payload bytes and the
    CRC16-CCITT of version .. payload, as section 4.A of the specification
    defines it ([spec_crc_of]), with the high byte first, and passes that
    buffer to [write_bytes] in one call, the only one it makes; the event
    counter is left alone. *)
Theorem dm_packet_send_emits_frame cmd seq payload payload_len pl w :
  write_bytes pl = true ->
  is_u8 cmd -> is_u8 seq -> is_u8 payload_len ->
  (forall data, payload = Some data -> payload_len <= Z.of_nat (length data)) ->
  let n := Z.min payload_len DM_MAX_PAYLOAD in
  let body := sent_payload payload payload_len in
  let crc := spec_crc_of ([DM_PROTOCOL_VERSION; cmd; seq; n] ++ body) in
  let w' := dm_packet_send cmd seq payload payload_len (Some pl) w in
  written w' =
    written w ++ [[DM_START_BYTE; DM_PROTOCOL_VERSION; cmd; seq; n] ++ body
                  ++ [crc / 256; crc mod 256]]
  /\ (forall data, payload = Some data ->
      body = take (Z.to_nat n) data /\ Z.of_nat (length body) = n)
  /\ (payload = None -> body = [])
  /\ s_seq_counter w' = s_seq_counter w.
Proof.
  intros Hw Hcmd Hseq Hlen Hdata n body crc w'.
  unfold w', crc. rewrite spec_crc_of_code.
  rewrite dm_packet_send_bytes by assumption.
  fold n. fold body.
  pose proof (crc16_ccitt_range ([DM_PROTOCOL_VERSION; cmd; seq; n] ++ body)) as Hr.
  destruct (crc_bytes_spec _ Hr) as [-> ->].
  split; [reflexivity|]. split; [|split; [|reflexivity]].
  - intros data ->. unfold body, sent_payload. fold n. split; [reflexivity|].
    specialize (Hdata data eq_refl). unfold is_u8 in Hlen.
    rewrite length_take. unfold n, DM_MAX_PAYLOAD in *. lia.
  - intros ->. reflexivity.
Qed.

Lemma dm_packet_send_emits_frame_witness :
  written (dm_packet_send EVT_ACK 7 (Some [1; 0; 0]) 3 (Some full_platform) world0)
  = [[0xAA; 0x01; 0xF0; 0x07; 0x03; 0x01; 0x00; 0x00; 0x13; 0x2B]].
Proof.
  assert (H := dm_packet_send_emits_frame EVT_ACK 7 (Some [1; 0; 0]) 3
                 full_platform world0).
  cbv zeta in H.
  destruct H as [H _].
  - reflexivity.
  - unfold is_u8, EVT_ACK; lia.
  - unfold is_u8; lia.
  - unfold is_u8; lia.
  - intros data [= <-]. simpl. lia.
  - rewrite H. vm_compute. reflexivity.
Defined.

(** C10.  With a NULL platform pointer, or a platform whose [write_bytes]
    slot is NULL, [dm_packet_send] returns at once: nothing is written and
    the event counter keeps its value. *)
Theorem dm_packet_send_without_writer cmd seq payload payload_len plat w :
  (plat = None \/ exists pl, plat = Some pl /\ write_bytes pl = false) ->
  dm_packet_send cmd seq payload payload_len plat w = w.
Proof.
  intros [-> | (pl & -> & Hw)]; unfold dm_packet_send; [reflexivity|].
  rewrite Hw. reflexivity.
Qed.

Lemma dm_packet_send_without_writer_witness :
  dm_packet_send EVT_NACK 9 (Some [1; 2]) 2
    (Some {| write_bytes := false; millis := true; log := true |}) world0 = world0.
Proof.
  apply dm_packet_send_without_writer.
  right. eexists. split; reflexivity.
Defined.

(** ** Parser: the claims *)

Lemma parser_init_wf : parser_wf dm_parser_init.
Proof. split; vm_compute; try reflexivity; split; discriminate || reflexivity. Qed.

(** C3.  For every command, sequence number and payload of at most
    DM_MAX_PAYLOAD bytes, the buffer [dm_packet_send] writes, fed byte by
    byte to a freshly initialised parser, makes the parser call the
    dispatcher exactly once, with a frame carrying the protocol version,
    the command, the sequence number, the payload length and the payload
    bytes that were encoded. *)
Theorem framing_round_trip cmd seq body pl plat w :
  is_u8 cmd -> is_u8 seq -> Forall is_u8 body ->
  Z.of_nat (length body) <= DM_MAX_PAYLOAD ->
  write_bytes pl = true ->
  exists buf p f,
    written (dm_packet_send cmd seq (Some body) (Z.of_nat (length body)) (Some pl) w)
      = written w ++ [buf]
    /\ dm_parser_feed_all dm_parser_init buf plat = Some (p, [Dispatch f])
    /\ version f = DM_PROTOCOL_VERSION
    /\ command f = cmd
    /\ seq_id f = seq
    /\ payload_len f = Z.of_nat (length body)
    /\ take (length body) (payload f) = body
    /\ frames_ok p = 1 /\ frames_crc_err p = 0 /\ frames_len_err p = 0
    /\ state p = PARSE_WAIT_START.
Proof.
  intros Hcmd Hseq Hbody Hlen Hw.
  rewrite dm_packet_send_wire_frame by assumption.
  eexists. eexists. eexists. split; [reflexivity|].
  split.
  - apply feed_wire_frame; [reflexivity | apply parser_init_wf | assumption].
  - cbn [version command seq_id payload_len payload frames_ok frames_crc_err
         frames_len_err state].
    rewrite take_app_length.
    repeat split; reflexivity.
Qed.

Lemma framing_round_trip_witness :
  exists buf p f,
    written (dm_packet_send 0x20 5 (Some [2; 0xAA; 0x41]) 3 (Some full_platform) world0)
      = [] ++ [buf]
    /\ dm_parser_feed_all dm_parser_init buf None = Some (p, [Dispatch f])
    /\ version f = DM_PROTOCOL_VERSION
    /\ command f = 0x20
    /\ seq_id f = 5
    /\ payload_len f = 3
    /\ take 3 (payload f) = [2; 0xAA; 0x41]
    /\ frames_ok p = 1 /\ frames_crc_err p = 0 /\ frames_len_err p = 0
    /\ state p = PARSE_WAIT_START.
Proof.
  apply (framing_round_trip 0x20 5 [2; 0xAA; 0x41] full_platform None world0).
  - unfold is_u8; lia.
  - unfold is_u8; lia.
  - repeat constructor; unfold is_u8; lia.
  - simpl; unfold DM_MAX_PAYLOAD; lia.
  - reflexivity.
Defined.

(** C6.  A length byte above DM_MAX_PAYLOAD, received in the LENGTH state,
    adds one to [frames_len_err] (a uint32_t), hands nothing to the
    dispatcher and puts the parser back in WAIT_START; a frame in the wire
    format fed right after is parsed, dispatched and counted in
    [frames_ok]. *)
Theorem length_overflow_resync p byte plat cmd seq body :
  parser_wf p -> state p = PARSE_LENGTH ->
  is_u8 byte -> DM_MAX_PAYLOAD < byte ->
  is_u8 cmd -> is_u8 seq -> Forall is_u8 body ->
  Z.of_nat (length body) <= DM_MAX_PAYLOAD ->
  exists p1 calls1,
    dm_parser_feed p byte plat = Some (p1, calls1)
    /\ dispatched calls1 = []
    /\ state p1 = PARSE_WAIT_START
    /\ frames_len_err p1 = u32 (frames_len_err p + 1)
    /\ frames_ok p1 = frames_ok p
    /\ frames_crc_err p1 = frames_crc_err p
    /\ exists p2 f,
         dm_parser_feed_all p1 (wire_frame cmd seq body) plat
           = Some (p2, [Dispatch f])
         /\ frames_ok p2 = u32 (frames_ok p + 1)
         /\ frames_len_err p2 = u32 (frames_len_err p + 1)
         /\ state p2 = PARSE_WAIT_START
         /\ version f = DM_PROTOCOL_VERSION
         /\ command f = cmd /\ seq_id f = seq
         /\ payload_len f = Z.of_nat (length body)
         /\ take (length body) (payload f) = body.
Proof.
  intros Hwf Hst Hbyte Hover Hcmd Hseq Hbody Hlen.
  rewrite feed_length_overflow by assumption.
  eexists. eexists. split; [reflexivity|].
  split; [apply dispatched_debug_log|].
  parser_simpl. do 4 (split; [reflexivity|]).
  eexists. eexists. split.
  - apply feed_wire_frame; [reflexivity | apply Hwf | assumption].
  - cbn [version command seq_id payload_len payload frames_ok frames_crc_err
         frames_len_err state].
    rewrite take_app_length.
    repeat split; reflexivity.
Qed.

Lemma length_overflow_resync_witness :
  exists p1 calls1,
    dm_parser_feed
      (set_state PARSE_LENGTH dm_parser_init) 0xFF (Some full_platform)
      = Some (p1, calls1)
    /\ dispatched calls1 = []
    /\ state p1 = PARSE_WAIT_START
    /\ frames_len_err p1 = u32 (0 + 1)
    /\ frames_ok p1 = 0
    /\ frames_crc_err p1 = 0
    /\ exists p2 f,
         dm_parser_feed_all p1 (wire_frame 0x01 0x7B []) (Some full_platform)
           = Some (p2, [Dispatch f])
         /\ frames_ok p2 = u32 (0 + 1)
         /\ frames_len_err p2 = u32 (0 + 1)
         /\ state p2 = PARSE_WAIT_START
         /\ version f = DM_PROTOCOL_VERSION
         /\ command f = 0x01 /\ seq_id f = 0x7B
         /\ payload_len f = 0
         /\ take 0 (payload f) = [].
Proof.
  apply (length_overflow_resync (set_state PARSE_LENGTH dm_parser_init) 0xFF
           (Some full_platform) 0x01 0x7B []).
  - split; vm_compute; try reflexivity; split; discriminate || reflexivity.
  - reflexivity.
  - unfold is_u8; lia.
  - unfold DM_MAX_PAYLOAD; lia.
  - unfold is_u8; lia.
  - unfold is_u8; lia.
  - constructor.
  - simpl; unfold DM_MAX_PAYLOAD; lia.
Defined.

(** *** No buffer overrun *)

Ltac wf_fields :=
  constructor;
  cbn [state frame payload_index running_crc crc_high frames_ok
       frames_crc_err frames_len_err version command seq_id payload_len
       payload];
  rewrite ?length_insert;
  auto using crc16_update_range, u32_range, u16_range;
  try (unfold is_u16, is_u8, is_u32; lia).

Ltac cursor_trivial :=
  unfold payload_cursor_ok; cbn [state]; intros; discriminate.

Lemma feed_keeps_invariant p b plat :
  parser_wf p -> payload_cursor_ok p -> is_u8 b ->
  exists p' calls,
    dm_parser_feed p b plat = Some (p', calls)
    /\ parser_wf p' /\ payload_cursor_ok p'.
Proof.
  destruct p as [st fr idx crc ch ok ce le]. destruct fr as [v c s n buf].
  intros [H1 H2 H3 H4 H5 H6 H7] Hc Hb.
  cbn [state frame payload_index running_crc crc_high frames_ok
       frames_crc_err frames_len_err payload] in *.
  destruct st.
  - rewrite feed_wait_start by reflexivity.
    destruct (b =? DM_START_BYTE); eexists; eexists; (split; [reflexivity|]);
      parser_simpl; (split; [wf_fields | cursor_trivial || exact Hc]).
  - rewrite feed_version by reflexivity.
    eexists; eexists; (split; [reflexivity|]); parser_simpl;
      (split; [wf_fields | cursor_trivial]).
  - rewrite feed_command by reflexivity.
    eexists; eexists; (split; [reflexivity|]); parser_simpl;
      (split; [wf_fields | cursor_trivial]).
  - rewrite feed_seq_id by reflexivity.
    eexists; eexists; (split; [reflexivity|]); parser_simpl;
      (split; [wf_fields | cursor_trivial]).
  - destruct (Z_lt_le_dec DM_MAX_PAYLOAD b) as [Hover|Hfit].
    + rewrite feed_length_overflow by (reflexivity || assumption).
      eexists; eexists; (split; [reflexivity|]); parser_simpl;
        (split; [wf_fields | cursor_trivial]).
    + rewrite feed_length_ok by (reflexivity || assumption).
      eexists; eexists; (split; [reflexivity|]); parser_simpl.
      split; [wf_fields|].
      unfold payload_cursor_ok.
      cbn [state frame payload_index payload_len].
      destruct (Z.eqb_spec b 0); [discriminate|].
      unfold is_u8 in Hb. intros _. lia.
  - destruct (Hc eq_refl) as [Hidx Hn].
    cbn [frame payload_index payload_len] in Hidx, Hn.
    rewrite feed_payload_store by lia.
    eexists; eexists; (split; [reflexivity|]).
    split; [wf_fields|].
    unfold payload_cursor_ok.
    cbn [state frame payload_index payload_len].
    rewrite (u16_id (idx + 1)) by (unfold is_u16, DM_MAX_PAYLOAD in *; lia).
    rewrite Z.geb_leb.
    destruct (Z.leb_spec n (idx + 1)); [discriminate|].
    intros _. lia.
  - rewrite feed_crc_high by reflexivity.
    eexists; eexists; (split; [reflexivity|]); parser_simpl;
      (split; [wf_fields | cursor_trivial]).
  - rewrite feed_crc_low by reflexivity. parser_simpl.
    destruct (_ =? _); eexists; eexists; (split; [reflexivity|]);
      (split; [wf_fields | cursor_trivial]).
Qed.

Lemma feed_all_keeps_invariant bytes plat : forall p,
  parser_wf p -> payload_cursor_ok p -> Forall is_u8 bytes ->
  exists p' calls,
    dm_parser_feed_all p bytes plat = Some (p', calls)
    /\ parser_wf p' /\ payload_cursor_ok p'.
Proof.
  induction bytes as [|b bytes IH]; intros p Hwf Hc Hbytes.
  - exists p, []. auto.
  - inversion Hbytes as [|? ? Hb Hrest]; subst.
    destruct (feed_keeps_invariant p b plat Hwf Hc Hb) as (p1 & c1 & E1 & Hwf1 & Hc1).
    destruct (IH p1 Hwf1 Hc1 Hrest) as (p2 & c2 & E2 & Hwf2 & Hc2).
    exists p2, (c1 ++ c2). rewrite feed_all_cons, E1, E2. auto.
Qed.

(** C4.  Whatever bytes are fed to a parser set up by [dm_parser_init],
    no store into the payload array falls outside it ([dm_parser_feed]
    never yields [None]), and after every byte the parser, when in the
    PAYLOAD state, has [payload_index < payload_len <= DM_MAX_PAYLOAD]. *)
Theorem parser_no_overrun bytes plat :
  Forall is_u8 bytes ->
  exists p calls,
    dm_parser_feed_all dm_parser_init bytes plat = Some (p, calls)
    /\ (state p = PARSE_PAYLOAD ->
        0 <= payload_index p < payload_len (frame p)
        /\ payload_len (frame p) <= DM_MAX_PAYLOAD)
    /\ length (payload (frame p)) = Z.to_nat DM_MAX_PAYLOAD.
Proof.
  intros Hbytes.
  destruct (feed_all_keeps_invariant bytes plat dm_parser_init)
    as (p & calls & E & Hwf & Hc);
    [apply parser_init_wf | intros H; discriminate H | assumption |].
  exists p, calls. split; [exact E|]. split; [exact Hc | apply Hwf].
Qed.

Lemma parser_no_overrun_witness :
  exists p calls,
    dm_parser_feed_all dm_parser_init [0xAA; 0x01; 0x20; 0x00; 0x02; 0xFF] None
      = Some (p, calls)
    /\ (state p = PARSE_PAYLOAD ->
        0 <= payload_index p < payload_len (frame p)
        /\ payload_len (frame p) <= DM_MAX_PAYLOAD)
    /\ length (payload (frame p)) = Z.to_nat DM_MAX_PAYLOAD.
Proof.
  apply parser_no_overrun.
  repeat constructor; unfold is_u8; lia.
Defined.

(** *** The start byte inside a frame *)

(** C1, as stated, fails: once the start byte has been consumed, a further
    0xAA does not bring the parser back to VERSION.  Already the byte after
    the start byte is taken as the version. *)
Lemma start_byte_resync_counterexample :
  ~ (forall p plat,
       parser_wf p -> payload_cursor_ok p ->
       state p <> PARSE_WAIT_START ->
       exists p' calls,
         dm_parser_feed p DM_START_BYTE plat = Some (p', calls)
         /\ state p' = PARSE_VERSION
         /\ running_crc p' = 0xFFFF
         /\ payload_index p' = 0).
Proof.
  intros H.
  destruct (H (set_state PARSE_VERSION dm_parser_init) None)
    as (p' & calls & E & Hst & _).
  - split; vm_compute; try reflexivity; split; discriminate || reflexivity.
  - intros Hp. discriminate Hp.
  - discriminate.
  - rewrite feed_version in E by reflexivity.
    injection E as <- _. discriminate Hst.
Qed.

(** C1, amended.  Feeding 0xAA starts a frame (state VERSION, running CRC
    0xFFFF, payload index 0) only from WAIT_START.  In each later state
    0xAA is consumed as the byte of that position and the parser never
    goes to VERSION: it is stored as version, command or sequence number,
    it is rejected as a length above DM_MAX_PAYLOAD (frames_len_err + 1,
    back to WAIT_START), it is stored at the payload cursor, it is held as
    the CRC high byte, or it closes the frame as the CRC low byte. *)
Theorem start_byte_by_state p plat :
  parser_wf p -> payload_cursor_ok p ->
  exists p' calls,
    dm_parser_feed p DM_START_BYTE plat = Some (p', calls)
    /\ (state p <> PARSE_WAIT_START -> state p' <> PARSE_VERSION)
    /\ match state p with
       | PARSE_WAIT_START =>
           state p' = PARSE_VERSION /\ running_crc p' = 0xFFFF
           /\ payload_index p' = 0
       | PARSE_VERSION =>
           state p' = PARSE_COMMAND /\ version (frame p') = DM_START_BYTE
           /\ running_crc p' = crc16_update (running_crc p) DM_START_BYTE
       | PARSE_COMMAND =>
           state p' = PARSE_SEQ_ID /\ command (frame p') = DM_START_BYTE
           /\ running_crc p' = crc16_update (running_crc p) DM_START_BYTE
       | PARSE_SEQ_ID =>
           state p' = PARSE_LENGTH /\ seq_id (frame p') = DM_START_BYTE
           /\ running_crc p' = crc16_update (running_crc p) DM_START_BYTE
       | PARSE_LENGTH =>
           state p' = PARSE_WAIT_START
           /\ frames_len_err p' = u32 (frames_len_err p + 1)
       | PARSE_PAYLOAD =>
           (state p' = PARSE_PAYLOAD \/ state p' = PARSE_CRC_HIGH)
           /\ payload (frame p') !! Z.to_nat (payload_index p) = Some DM_START_BYTE
           /\ payload_index p' = payload_index p + 1
           /\ running_crc p' = crc16_update (running_crc p) DM_START_BYTE
       | PARSE_CRC_HIGH =>
           state p' = PARSE_CRC_LOW /\ crc_high p' = DM_START_BYTE
           /\ running_crc p' = running_crc p
       | PARSE_CRC_LOW =>
           state p' = PARSE_WAIT_START
       end.
Proof.
  destruct p as [st fr idx crc ch ok ce le]. destruct fr as [v c s n buf].
  intros [H1 H2 H3 H4 H5 H6 H7] Hc.
  cbn [state frame payload_index running_crc crc_high frames_ok
       frames_crc_err frames_len_err payload] in *.
  destruct st.
  - rewrite feed_wait_start, Z.eqb_refl by reflexivity.
    eexists; eexists; (split; [reflexivity|]); parser_simpl.
    split; [intros Hne; exfalso; apply Hne; reflexivity | repeat split].
  - rewrite feed_version by reflexivity.
    eexists; eexists; (split; [reflexivity|]); parser_simpl.
    split; [intros _; discriminate | repeat split].
  - rewrite feed_command by reflexivity.
    eexists; eexists; (split; [reflexivity|]); parser_simpl.
    split; [intros _; discriminate | repeat split].
  - rewrite feed_seq_id by reflexivity.
    eexists; eexists; (split; [reflexivity|]); parser_simpl.
    split; [intros _; discriminate | repeat split].
  - rewrite feed_length_overflow by (reflexivity || (unfold DM_MAX_PAYLOAD, DM_START_BYTE; lia)).
    eexists; eexists; (split; [reflexivity|]); parser_simpl.
    split; [intros _; discriminate | repeat split].
  - destruct (Hc eq_refl) as [Hidx Hn].
    cbn [frame payload_index payload_len] in Hidx, Hn.
    rewrite feed_payload_store by lia.
    eexists; eexists; (split; [reflexivity|]).
    cbn [state frame payload_index payload running_crc].
    split; [intros _; destruct (_ >=? _); discriminate|].
    split; [destruct (_ >=? _); auto|].
    split; [apply list_lookup_insert_eq; unfold DM_MAX_PAYLOAD in *; lia|].
    split; [apply u16_id; unfold is_u16, DM_MAX_PAYLOAD in *; lia | reflexivity].
  - rewrite feed_crc_high by reflexivity.
    eexists; eexists; (split; [reflexivity|]); parser_simpl.
    split; [intros _; discriminate | repeat split].
  - rewrite feed_crc_low by reflexivity. parser_simpl.
    destruct (_ =? _); eexists; eexists; (split; [reflexivity|]); parser_simpl;
      (split; [intros _; discriminate | reflexivity]).
Qed.

Lemma start_byte_by_state_witness :
  exists p' calls,
    dm_parser_feed (set_state PARSE_SEQ_ID dm_parser_init) DM_START_BYTE None
      = Some (p', calls)
    /\ (PARSE_SEQ_ID <> PARSE_WAIT_START -> state p' <> PARSE_VERSION)
    /\ state p' = PARSE_LENGTH /\ seq_id (frame p') = DM_START_BYTE
    /\ running_crc p' = crc16_update 0xFFFF DM_START_BYTE.
Proof.
  apply (start_byte_by_state (set_state PARSE_SEQ_ID dm_parser_init) None).
  - split; vm_compute; try reflexivity; split; discriminate || reflexivity.
  - intros Hp. discriminate Hp.
Defined.

(** *** Corrupted frames *)

Lemma u8_land z : u8 z = Z.land z (Z.ones 8).
Proof. unfold u8. rewrite Z.land_ones by lia. reflexivity. Qed.

Lemma lxor_u8 a b : is_u8 a -> is_u8 b -> is_u8 (Z.lxor a b).
Proof.
  intros Ha Hb.
  assert (E : u8 (Z.lxor a b) = Z.lxor (u8 a) (u8 b)).
  { rewrite !u8_land. apply Z.bits_inj'. intros n Hn.
    rewrite Z.lxor_spec, !Z.land_spec, Z.lxor_spec.
    destruct (Z.testbit (Z.ones 8) n); rewrite ?andb_true_r, ?andb_false_r; reflexivity. }
  rewrite (u8_id a Ha), (u8_id b Hb) in E. rewrite <- E. apply u8_range.
Qed.

Lemma bit_mask_u8 k : 0 <= k < 8 -> is_u8 (Z.shiftl 1 k) /\ Z.shiftl 1 k <> 0.
Proof.
  intros Hk. rewrite Z.shiftl_1_l. unfold is_u8.
  assert (0 < 2 ^ k) by (apply Z.pow_pos_nonneg; lia).
  assert (2 ^ k < 2 ^ 8) by (apply Z.pow_lt_mono_r; lia).
  change (2 ^ 8) with 256 in *. lia.
Qed.

Lemma flipped_byte b k :
  is_u8 b -> 0 <= k < 8 ->
  is_u8 (Z.lxor b (Z.shiftl 1 k)) /\ Z.lxor b (Z.shiftl 1 k) <> b.
Proof.
  intros Hb Hk. destruct (bit_mask_u8 k Hk) as [Hm Hnz].
  split; [apply lxor_u8; assumption|].
  intros E. apply Hnz.
  apply (lxor_inj_r _ _ b). rewrite Z.lxor_0_r. exact E.
Qed.

Lemma alter_middle (f : Z -> Z) (l : list Z) : forall j x,
  l !! j = Some x -> alter f j l = take j l ++ f x :: drop (S j) l.
Proof.
  induction l as [|a l IH]; intros [|j] x Hx; try discriminate.
  - injection Hx as ->. reflexivity.
  - cbn [take drop app]. rewrite <- (IH j x Hx). reflexivity.
Qed.

Lemma join_bytes_inj h l h' l' :
  is_u8 h -> is_u8 l -> is_u8 h' -> is_u8 l' ->
  u16 (Z.lor (Z.shiftl h 8) l) = u16 (Z.lor (Z.shiftl h' 8) l') ->
  h = h' /\ l = l'.
Proof.
  intros Hh Hl Hh' Hl' E.
  rewrite !join_bytes_value in E by assumption.
  unfold is_u8 in *. lia.
Qed.

(** A frame-shaped byte string whose trailing bytes are not the CRC of its
    contents is dropped and counted as a CRC error. *)
Lemma feed_bad_crc v c s pl h l plat :
  Z.of_nat (length pl) <= DM_MAX_PAYLOAD ->
  u16 (Z.lor (Z.shiftl h 8) l)
    <> crc16_ccitt ([v; c; s; Z.of_nat (length pl)] ++ pl) ->
  exists p calls,
    dm_parser_feed_all dm_parser_init
      ([DM_START_BYTE; v; c; s; Z.of_nat (length pl)] ++ pl ++ [h; l]) plat
      = Some (p, calls)
    /\ frames_ok p = 0 /\ frames_crc_err p = 1 /\ frames_len_err p = 0
    /\ dispatched calls = [] /\ state p = PARSE_WAIT_START.
Proof.
  intros Hlen Hcrc.
  rewrite feed_frame by (reflexivity || apply parser_init_wf || assumption).
  apply Z.eqb_neq in Hcrc. rewrite Hcrc.
  eexists. eexists. split; [reflexivity|].
  cbn [frames_ok frames_crc_err frames_len_err state].
  rewrite dispatched_debug_log. repeat split; reflexivity.
Qed.

(** The CRC carried by a frame in the wire format, as the parser reads it. *)
Lemma wire_frame_crc cmd seq body :
  let covered := [DM_PROTOCOL_VERSION; cmd; seq; Z.of_nat (length body)] ++ body in
  is_u8 (crc_of covered / 256) /\ is_u8 (crc_of covered mod 256).
Proof.
  intros covered.
  pose proof (crc16_ccitt_range covered) as Hr.
  change (crc16_ccitt covered) with (crc_of covered) in Hr.
  unfold is_u16 in Hr. unfold is_u8. split.
  - split; [apply Z.div_pos; lia | apply Z.div_lt_upper_bound; lia].
  - apply Z.mod_pos_bound. lia.
Qed.

Lemma wire_frame_cons cmd seq body :
  wire_frame cmd seq body =
  DM_START_BYTE :: DM_PROTOCOL_VERSION :: cmd :: seq :: Z.of_nat (length body)
  :: body
     ++ [crc_of ([DM_PROTOCOL_VERSION; cmd; seq; Z.of_nat (length body)] ++ body) / 256;
         crc_of ([DM_PROTOCOL_VERSION; cmd; seq; Z.of_nat (length body)] ++ body) mod 256].
Proof. reflexivity. Qed.

Lemma wire_frame_length cmd seq body :
  length (wire_frame cmd seq body) = (length body + 7)%nat.
Proof. rewrite wire_frame_cons. cbn [length]. rewrite length_app. cbn [length]. lia. Qed.

(** C2, as stated, fails for flips in the length byte.  The frame below
    carries the seven bytes of a PING frame as its payload; flipping bit 7
    of its length byte (7 becomes 135) makes the parser drop the header as
    a length overflow and then accept the embedded frame: [frames_ok] is 1,
    [frames_crc_err] is 0 and a frame reaches the dispatcher. *)
Lemma single_bit_flip_counterexample :
  ~ (forall cmd seq body i k plat,
       is_u8 cmd -> is_u8 seq -> Forall is_u8 body ->
       Z.of_nat (length body) <= DM_MAX_PAYLOAD ->
       (0 < i < length (wire_frame cmd seq body))%nat -> 0 <= k < 8 ->
       exists p calls,
         dm_parser_feed_all dm_parser_init
           (flip_bit i k (wire_frame cmd seq body)) plat = Some (p, calls)
         /\ frames_ok p = 0 /\ frames_crc_err p >= 1
         /\ dispatched calls = []).
Proof.
  intros H.
  destruct (H 0x20 5 (wire_frame 0x01 0x7B []) 4%nat 7 None)
    as (p & calls & E & Hok & _).
  - unfold is_u8; lia.
  - unfold is_u8; lia.
  - vm_compute. repeat constructor; discriminate.
  - vm_compute. discriminate.
  - vm_compute. lia.
  - lia.
  - vm_compute in E. injection E as <- _. vm_compute in Hok. discriminate Hok.
Qed.

(** C2, amended.  For every frame in the wire format and every single-bit
    flip in a byte other than the start byte and the length byte (that is,
    in the version, command, sequence number, payload or CRC bytes), a
    freshly initialised parser fed the corrupted bytes ends with
    [frames_ok = 0] and [frames_crc_err = 1], has dispatched nothing and is
    back in WAIT_START. *)
Theorem single_bit_flip_rejected cmd seq body i k plat :
  is_u8 cmd -> is_u8 seq -> Forall is_u8 body ->
  Z.of_nat (length body) <= DM_MAX_PAYLOAD ->
  (0 < i < length (wire_frame cmd seq body))%nat -> i <> 4%nat ->
  0 <= k < 8 ->
  exists p calls,
    dm_parser_feed_all dm_parser_init
      (flip_bit i k (wire_frame cmd seq body)) plat = Some (p, calls)
    /\ frames_ok p = 0 /\ frames_crc_err p = 1 /\ frames_len_err p = 0
    /\ dispatched calls = [] /\ state p = PARSE_WAIT_START.
Proof.
  intros Hcmd Hseq Hbody Hlen Hi Hi4 Hk.
  rewrite wire_frame_length in Hi. rewrite wire_frame_cons.
  set (n := Z.of_nat (length body)).
  set (covered := [DM_PROTOCOL_VERSION; cmd; seq; n] ++ body).
  destruct (wire_frame_crc cmd seq body) as [Hhi Hlo].
  fold n in Hhi, Hlo. fold covered in Hhi, Hlo.
  assert (Hn : is_u8 n) by (unfold is_u8, n, DM_MAX_PAYLOAD in *; lia).
  assert (Hver : is_u8 DM_PROTOCOL_VERSION) by (unfold is_u8, DM_PROTOCOL_VERSION; lia).
  assert (Hseed : is_u16 0xFFFF) by (unfold is_u16; lia).
  assert (Hflip : forall b, is_u8 b ->
            is_u8 (Z.lxor b (Z.shiftl 1 k)) /\ Z.lxor b (Z.shiftl 1 k) <> b)
    by (intros b Hb; apply flipped_byte; assumption).
  unfold flip_bit.
  destruct i as [|[|[|[|[|j]]]]]; [lia | | | | congruence |].
  - destruct (Hflip _ Hver) as [Hu Hne].
    apply (feed_bad_crc _ cmd seq body); [assumption|].
    fold n. rewrite crc_of_bytes_join. intros E.
    apply (crc16_single_byte [] DM_PROTOCOL_VERSION
             (Z.lxor DM_PROTOCOL_VERSION (Z.shiftl 1 k))
             ([cmd; seq; n] ++ body) 0xFFFF); auto.
    repeat (constructor; [assumption|]). assumption.
  - destruct (Hflip _ Hcmd) as [Hu Hne].
    apply (feed_bad_crc DM_PROTOCOL_VERSION _ seq body); [assumption|].
    fold n. rewrite crc_of_bytes_join. intros E.
    apply (crc16_single_byte [DM_PROTOCOL_VERSION] cmd
             (Z.lxor cmd (Z.shiftl 1 k)) ([seq; n] ++ body) 0xFFFF); auto.
    repeat (constructor; [assumption|]). assumption.
  - destruct (Hflip _ Hseq) as [Hu Hne].
    apply (feed_bad_crc DM_PROTOCOL_VERSION cmd _ body); [assumption|].
    fold n. rewrite crc_of_bytes_join. intros E.
    apply (crc16_single_byte [DM_PROTOCOL_VERSION; cmd] seq
             (Z.lxor seq (Z.shiftl 1 k)) ([n] ++ body) 0xFFFF); auto.
    repeat (constructor; [assumption|]). assumption.
  - change (alter (fun b => Z.lxor b (Z.shiftl 1 k)) (S (S (S (S (S j)))))
              (DM_START_BYTE :: DM_PROTOCOL_VERSION :: cmd :: seq :: n
               :: body ++ [crc_of covered / 256; crc_of covered mod 256]))
      with ([DM_START_BYTE; DM_PROTOCOL_VERSION; cmd; seq; n]
            ++ alter (fun b => Z.lxor b (Z.shiftl 1 k)) j
                 (body ++ [crc_of covered / 256; crc_of covered mod 256])).
    destruct (lt_dec j (length body)) as [Hj|Hj].
    + rewrite alter_app_l by assumption.
      destruct (lookup_lt_is_Some_2 body j Hj) as [x Hx].
      rewrite (alter_middle _ body j x Hx).
      assert (Hx8 : is_u8 x) by (eapply Forall_lookup_1; eassumption).
      destruct (Hflip _ Hx8) as [Hu Hne].
      set (body' := take j body ++ Z.lxor x (Z.shiftl 1 k) :: drop (S j) body).
      assert (Hlen' : Z.of_nat (length body') = n).
      { unfold body', n. rewrite <- (take_drop_middle body j x Hx) at 3.
        rewrite !length_app. cbn [length]. reflexivity. }
      rewrite <- Hlen'.
      apply (feed_bad_crc DM_PROTOCOL_VERSION cmd seq body');
        [rewrite Hlen'; assumption|].
      rewrite Hlen'. rewrite crc_of_bytes_join. intros E.
      unfold covered, body' in E.
      rewrite <- (take_drop_middle body j x Hx) in E at 1.
      rewrite !app_assoc in E.
      apply (crc16_single_byte _ _ _ _ _ Hseed) in E; auto.
      * apply Forall_app. split; [|apply Forall_take; assumption].
        repeat (constructor; [assumption|]). constructor.
      * apply Forall_drop; assumption.
    + rewrite alter_app_r_alt by lia.
      assert (Hcases : (j - length body = 0 \/ j - length body = 1)%nat) by lia.
      destruct Hcases as [-> | ->]; cbn [alter list_alter].
      * destruct (Hflip _ Hhi) as [Hu Hne].
        apply (feed_bad_crc DM_PROTOCOL_VERSION cmd seq body); [assumption|].
        fold n. fold covered. rewrite <- (crc_of_bytes_join covered). intros E.
        apply join_bytes_inj in E; auto. destruct E as [E _]. contradiction.
      * destruct (Hflip _ Hlo) as [Hu Hne].
        apply (feed_bad_crc DM_PROTOCOL_VERSION cmd seq body); [assumption|].
        fold n. fold covered. rewrite <- (crc_of_bytes_join covered). intros E.
        apply join_bytes_inj in E; auto. destruct E as [_ E]. contradiction.
Qed.

Lemma single_bit_flip_rejected_witness :
  exists p calls,
    dm_parser_feed_all dm_parser_init
      (flip_bit 6 0 (wire_frame 0x01 0x7B [])) (Some full_platform)
      = Some (p, calls)
    /\ frames_ok p = 0 /\ frames_crc_err p = 1 /\ frames_len_err p = 0
    /\ dispatched calls = [] /\ state p = PARSE_WAIT_START.
Proof.
  apply (single_bit_flip_rejected 0x01 0x7B [] 6 0 (Some full_platform)).
  - unfold is_u8; lia.
  - unfold is_u8; lia.
  - constructor.
  - simpl; unfold DM_MAX_PAYLOAD; lia.
  - rewrite wire_frame_length. simpl. lia.
  - discriminate.
  - lia.
Defined.

(** ** Events *)

(** The sequence number a written buffer carries (offset 3 of a frame). *)
Lemma wire_frame_seq cmd seq body : nth 3 (wire_frame cmd seq body) 0 = seq.
Proof. reflexivity. Qed.

(** Each event sender writes one frame carrying the counter's value and
    moves the counter on by one, modulo 256. *)
Lemma send_event_step e pl w :
  write_bytes pl = true ->
  exists buf,
    written (send_event e (Some pl) w) = written w ++ [buf]
    /\ nth 3 buf 0 = s_seq_counter w
    /\ s_seq_counter (send_event e (Some pl) w) = u8 (s_seq_counter w + 1).
Proof.
  intros Hw.
  destruct e as [i | i v | pg | x y]; cbn [send_event];
    unfold dm_packet_send_button_pressed, dm_packet_send_slider_changed,
      dm_packet_send_page_changed, dm_packet_send_touch_event;
    cbv zeta; rewrite dm_packet_send_bytes by assumption;
    eexists; (split; [reflexivity|]); split; reflexivity.
Qed.

Lemma send_event_counter e plat w :
  s_seq_counter (send_event e plat w) = u8 (s_seq_counter w + 1).
Proof.
  destruct e as [i | i v | pg | x y]; cbn [send_event];
    unfold dm_packet_send_button_pressed, dm_packet_send_slider_changed,
      dm_packet_send_page_changed, dm_packet_send_touch_event;
    cbv zeta; unfold dm_packet_send;
    (destruct plat as [pl|]; [destruct (write_bytes pl)|]); reflexivity.
Qed.

Lemma send_events_cons e es plat w :
  send_events (e :: es) plat w = send_events es plat (send_event e plat w).
Proof. reflexivity. Qed.

Lemma send_events_run es pl : forall w,
  write_bytes pl = true -> is_u8 (s_seq_counter w) ->
  exists frames,
    written (send_events es (Some pl) w) = written w ++ frames
    /\ map (fun buf => nth 3 buf 0) frames
       = map (fun i => (s_seq_counter w + Z.of_nat i) mod 256)
           (seq 0 (length es))
    /\ s_seq_counter (send_events es (Some pl) w)
       = (s_seq_counter w + Z.of_nat (length es)) mod 256.
Proof.
  induction es as [|e es IH]; intros w Hw Hs.
  - exists []. cbn [send_events fold_left length seq map].
    rewrite app_nil_r, Z.add_0_r, Z.mod_small by exact Hs. auto.
  - rewrite send_events_cons.
    destruct (send_event_step e pl w Hw) as (buf & Hbuf & Hseq & Hcnt).
    destruct (IH (send_event e (Some pl) w) Hw) as (frames & Hfr & Hmap & Hfin).
    { rewrite Hcnt. apply u8_range. }
    exists (buf :: frames).
    rewrite Hfr, Hbuf, <- app_assoc. split; [reflexivity|].
    rewrite Hfin, Hcnt. unfold u8.
    cbn [length seq map]. rewrite Hseq, Hmap, Hcnt, <- seq_shift, map_map.
    unfold u8. rewrite Z.add_0_r, (Z.mod_small (s_seq_counter w)) by exact Hs.
    split.
    + f_equal. apply map_ext. intros i.
      rewrite Z.add_mod_idemp_l by lia. f_equal. lia.
    + rewrite Z.add_mod_idemp_l by lia. f_equal. lia.
Qed.

(** C8.  Over any sequence of N event sends (button pressed, slider
    changed, page changed, touch event, in any mix) to a platform that
    transmits, N frames are written whose sequence numbers are
    s, s+1, ..., s+N-1 modulo 256, [s] being the counter before the first
    send, and the counter ends at s+N modulo 256; every single send adds
    one to the 8-bit counter, whatever the platform. *)
Theorem event_seq_consecutive es pl w :
  write_bytes pl = true -> is_u8 (s_seq_counter w) ->
  (exists frames,
     written (send_events es (Some pl) w) = written w ++ frames
     /\ length frames = length es
     /\ map (fun buf => nth 3 buf 0) frames
        = map (fun i => (s_seq_counter w + Z.of_nat i) mod 256)
            (seq 0 (length es))
     /\ s_seq_counter (send_events es (Some pl) w)
        = (s_seq_counter w + Z.of_nat (length es)) mod 256)
  /\ (forall e plat w0,
        s_seq_counter (send_event e plat w0) = (s_seq_counter w0 + 1) mod 256).
Proof.
  intros Hw Hs. split; [|intros; apply send_event_counter].
  destruct (send_events_run es pl w Hw Hs) as (frames & Hfr & Hmap & Hfin).
  exists frames. repeat split; try assumption.
  apply (f_equal (@length Z)) in Hmap.
  rewrite !length_map, length_seq in Hmap. exact Hmap.
Qed.

Lemma event_seq_consecutive_witness :
  (exists frames,
     written (send_events [ButtonPressed 2; TouchEvent 10 (-3); PageChanged 1]
                (Some full_platform) {| s_seq_counter := 255; written := [] |})
       = [] ++ frames
     /\ length frames = 3%nat
     /\ map (fun buf => nth 3 buf 0) frames
        = map (fun i => (255 + Z.of_nat i) mod 256) (seq 0 3)
     /\ s_seq_counter
          (send_events [ButtonPressed 2; TouchEvent 10 (-3); PageChanged 1]
             (Some full_platform) {| s_seq_counter := 255; written := [] |})
        = (255 + Z.of_nat 3) mod 256)
  /\ (forall e plat w0,
        s_seq_counter (send_event e plat w0) = (s_seq_counter w0 + 1) mod 256).
Proof.
  apply (event_seq_consecutive
           [ButtonPressed 2; TouchEvent 10 (-3); PageChanged 1] full_platform
           {| s_seq_counter := 255; written := [] |}).
  - reflexivity.
  - simpl. unfold is_u8. lia.
Defined.

(** ** Binder *)

(** C7.  When [dm_handle_show_page] is given at least one payload byte and
    [ui_pages_show] accepts the page, what it writes to a platform that
    transmits is the complete EVT_ACK frame echoing the request's sequence
    number and then, in a later [write_bytes] call, the EVT_PAGE_CHANGED
    frame for that page, numbered by the event counter. *)
Theorem show_page_ack_before_event seq p len pl ui w :
  1 <= len ->
  fst (ui_pages_show (nth 0 p 0) ui) = true ->
  write_bytes pl = true ->
  let '(ui', w') := dm_handle_show_page seq p len (Some pl) ui w in
  written w' =
    written w ++ [wire_frame EVT_ACK seq [];
                  wire_frame EVT_PAGE_CHANGED (s_seq_counter w) [nth 0 p 0]]
  /\ s_current_page ui' = nth 0 p 0
  /\ s_seq_counter w' = u8 (s_seq_counter w + 1).
Proof.
  intros Hlen Hshow Hw. unfold dm_handle_show_page.
  replace (len <? 1) with false by (symmetry; apply Z.ltb_ge; lia).
  destruct (ui_pages_show (nth 0 p 0) ui) as [shown ui'] eqn:Eshow.
  cbn [fst] in Hshow. subst shown.
  unfold dm_packet_send_ack, dm_packet_send_page_changed. cbv zeta.
  rewrite dm_packet_send_empty by assumption.
  rewrite (dm_packet_send_wire_frame EVT_PAGE_CHANGED _ [nth 0 p 0] pl)
    by (assumption || (simpl; unfold DM_MAX_PAYLOAD; lia)).
  cbn [written call_write_bytes set_s_seq_counter s_seq_counter].
  rewrite <- app_assoc. split; [reflexivity|]. split; [|reflexivity].
  unfold ui_pages_show in Eshow.
  destruct (nth 0 p 0 >=? s_page_count ui); [discriminate|].
  injection Eshow as <-. reflexivity.
Qed.

Lemma show_page_ack_before_event_witness :
  let '(ui', w') :=
    dm_handle_show_page 0x42 [0] 1 (Some full_platform)
      {| s_page_count := 2; s_current_page := 0xFF |} world0 in
  written w' =
    written world0 ++ [wire_frame EVT_ACK 0x42 [];
                       wire_frame EVT_PAGE_CHANGED (s_seq_counter world0) [nth 0 [0] 0]]
  /\ s_current_page ui' = nth 0 [0] 0
  /\ s_seq_counter w' = u8 (s_seq_counter world0 + 1).
Proof.
  apply (show_page_ack_before_event 0x42 [0] 1 full_platform
           {| s_page_count := 2; s_current_page := 0xFF |} world0).
  - lia.
  - reflexivity.
  - reflexivity.
Defined.

(** ** Parser: garbage and resynchronisation *)

Lemma feed_garbage G plat : forall p,
  state p = PARSE_WAIT_START ->
  Forall (fun b => b <> DM_START_BYTE) G ->
  dm_parser_feed_all p G plat = Some (p, []).
Proof.
  induction G as [|b G IH]; intros p Hst HG; [reflexivity|].
  inversion HG as [|? ? Hb Hrest]; subst.
  rewrite feed_all_cons, feed_wait_start by assumption.
  apply Z.eqb_neq in Hb. rewrite Hb.
  rewrite IH by assumption. reflexivity.
Qed.

(** X1.  Bytes other than 0xAA arriving while the parser is idle are discarded
    without a trace: the frame that follows them is delivered exactly as if
    it had come first. *)
Theorem resync_after_garbage G cmd seq body plat :
  Forall (fun b => b <> DM_START_BYTE) G ->
  Z.of_nat (length body) <= DM_MAX_PAYLOAD ->
  exists p f,
    dm_parser_feed_all dm_parser_init (G ++ wire_frame cmd seq body) plat
      = Some (p, [Dispatch f])
    /\ frame_carries f (cmd, seq, body)
    /\ frames_ok p = 1 /\ frames_crc_err p = 0 /\ frames_len_err p = 0
    /\ state p = PARSE_WAIT_START.
Proof.
  intros HG Hlen.
  rewrite feed_all_app, feed_garbage by (reflexivity || assumption).
  rewrite feed_wire_frame by (reflexivity || apply parser_init_wf || assumption).
  eexists. eexists. split; [reflexivity|].
  unfold frame_carries.
  cbn [version command seq_id payload_len payload frames_ok frames_crc_err
       frames_len_err state].
  rewrite take_app_length. repeat split; reflexivity.
Qed.

Lemma resync_after_garbage_witness :
  exists p f,
    dm_parser_feed_all dm_parser_init
      ([0xFF; 0xFF; 0xFF] ++ wire_frame 0x01 0x7B []) None
      = Some (p, [Dispatch f])
    /\ frame_carries f (0x01, 0x7B, [])
    /\ frames_ok p = 1 /\ frames_crc_err p = 0 /\ frames_len_err p = 0
    /\ state p = PARSE_WAIT_START.
Proof.
  apply (resync_after_garbage [0xFF; 0xFF; 0xFF] 0x01 0x7B [] None).
  - repeat constructor; discriminate.
  - simpl. unfold DM_MAX_PAYLOAD. lia.
Defined.

(** X2.  A frame-shaped byte string whose two trailing bytes differ from the
    CRC of its contents, received in the idle state: nothing is handed to
    the dispatcher, [frames_crc_err] goes up by one, the other counters
    stay, the mismatch is logged when the platform has a log slot, and the
    parser is idle again. *)
Theorem crc_mismatch_dropped p v c s pl h l plat :
  state p = PARSE_WAIT_START ->
  length (payload (frame p)) = Z.to_nat DM_MAX_PAYLOAD ->
  Z.of_nat (length pl) <= DM_MAX_PAYLOAD ->
  is_u8 h -> is_u8 l ->
  h * 256 + l <> crc16_ccitt ([v; c; s; Z.of_nat (length pl)] ++ pl) ->
  exists p',
    dm_parser_feed_all p
      ([DM_START_BYTE; v; c; s; Z.of_nat (length pl)] ++ pl ++ [h; l]) plat
      = Some (p', debug_log plat "DM: CRC mismatch, frame dropped")
    /\ frames_crc_err p' = u32 (frames_crc_err p + 1)
    /\ frames_ok p' = frames_ok p
    /\ frames_len_err p' = frames_len_err p
    /\ state p' = PARSE_WAIT_START.
Proof.
  intros Hst Hbuf Hlen Hh Hl Hcrc.
  rewrite feed_frame by assumption.
  rewrite join_bytes_value by assumption.
  apply Z.eqb_neq in Hcrc. rewrite Hcrc.
  eexists. split; [reflexivity|].
  cbn [frames_ok frames_crc_err frames_len_err state]. repeat split; reflexivity.
Qed.

Lemma crc_mismatch_dropped_witness :
  exists p',
    dm_parser_feed_all dm_parser_init
      ([DM_START_BYTE; 1; 1; 0x7B; Z.of_nat (length (@nil Z))] ++ [] ++ [0; 0])
      (Some full_platform)
      = Some (p', debug_log (Some full_platform) "DM: CRC mismatch, frame dropped")
    /\ frames_crc_err p' = u32 (frames_crc_err dm_parser_init + 1)
    /\ frames_ok p' = frames_ok dm_parser_init
    /\ frames_len_err p' = frames_len_err dm_parser_init
    /\ state p' = PARSE_WAIT_START.
Proof.
  apply (crc_mismatch_dropped dm_parser_init 1 1 0x7B [] 0 0 (Some full_platform)).
  - reflexivity.
  - reflexivity.
  - simpl. unfold DM_MAX_PAYLOAD. lia.
  - unfold is_u8. lia.
  - unfold is_u8. lia.
  - vm_compute. discriminate.
Defined.

(** ** Parser: what has been accumulated *)

Lemma crc16_ccitt_snoc l b :
  crc16_ccitt (l ++ [b]) = crc16_update (crc16_ccitt l) b.
Proof. unfold crc16_ccitt. rewrite fold_left_app. reflexivity. Qed.

Lemma take_store (buf : list Z) (k : nat) (b : Z) :
  (k < length buf)%nat -> take (S k) (<[k := b]> buf) = take k buf ++ [b].
Proof.
  intros Hk.
  rewrite take_S_r with (x := b) by (apply list_lookup_insert_eq; lia).
  rewrite take_insert_ge by lia. reflexivity.
Qed.

Lemma feed_keeps_progress p b plat :
  parser_wf p -> parser_progress p -> is_u8 b ->
  exists p' calls,
    dm_parser_feed p b plat = Some (p', calls)
    /\ parser_wf p' /\ parser_progress p'.
Proof.
  destruct p as [st fr idx crc ch ok ce le]. destruct fr as [v c s n buf].
  intros [H1 H2 H3 H4 H5 H6 H7] Hp Hb.
  unfold parser_progress in Hp.
  cbn [state frame payload_index running_crc crc_high frames_ok
       frames_crc_err frames_len_err payload payload_len version command
       seq_id] in *.
  destruct st.
  - rewrite feed_wait_start by reflexivity.
    destruct (b =? DM_START_BYTE); eexists; eexists; (split; [reflexivity|]);
      parser_simpl; (split; [wf_fields | exact I || reflexivity]).
  - rewrite feed_version by reflexivity.
    eexists; eexists; (split; [reflexivity|]); parser_simpl.
    split; [wf_fields|]. unfold parser_progress. parser_simpl.
    rewrite Hp. symmetry. apply (crc16_ccitt_snoc [] b).
  - rewrite feed_command by reflexivity.
    eexists; eexists; (split; [reflexivity|]); parser_simpl.
    split; [wf_fields|]. unfold parser_progress. parser_simpl.
    rewrite Hp. symmetry. apply (crc16_ccitt_snoc [v] b).
  - rewrite feed_seq_id by reflexivity.
    eexists; eexists; (split; [reflexivity|]); parser_simpl.
    split; [wf_fields|]. unfold parser_progress. parser_simpl.
    rewrite Hp. symmetry. apply (crc16_ccitt_snoc [v; c] b).
  - destruct (Z_lt_le_dec DM_MAX_PAYLOAD b) as [Hover|Hfit].
    + rewrite feed_length_overflow by (reflexivity || assumption).
      eexists; eexists; (split; [reflexivity|]); parser_simpl;
        (split; [wf_fields | exact I]).
    + rewrite feed_length_ok by (reflexivity || assumption).
      eexists; eexists; (split; [reflexivity|]); parser_simpl.
      split; [wf_fields|].
      unfold parser_progress, frame_contents. parser_simpl. rewrite Hp.
      unfold is_u8 in Hb.
      change (Z.to_nat 0) with 0%nat. cbn [take].
      destruct (Z.eqb_spec b 0) as [->|Hnz].
      * split; [unfold DM_MAX_PAYLOAD; lia|].
        change (Z.to_nat 0) with 0%nat. cbn [take]. rewrite app_nil_r.
        symmetry. apply (crc16_ccitt_snoc [v; c; s] 0).
      * split; [lia|]. split; [assumption|].
        rewrite app_nil_r. symmetry. apply (crc16_ccitt_snoc [v; c; s] b).
  - destruct Hp as (Hidx & Hn & Hcrc).
    rewrite feed_payload_store by lia.
    eexists; eexists; (split; [reflexivity|]).
    split; [wf_fields|].
    unfold parser_progress, frame_contents.
    cbn [state frame payload_index payload_len running_crc version command
         seq_id payload].
    rewrite (u16_id (idx + 1)) by (unfold is_u16, DM_MAX_PAYLOAD in *; lia).
    assert (Hk : (Z.to_nat idx < length buf)%nat)
      by (rewrite H1; unfold DM_MAX_PAYLOAD in *; lia).
    assert (Estep :
      crc16_update crc b
      = crc16_ccitt ([v; c; s; n] ++ take (Z.to_nat (idx + 1))
                                       (<[Z.to_nat idx := b]> buf))).
    { replace (Z.to_nat (idx + 1)) with (S (Z.to_nat idx)) by lia.
      rewrite take_store by assumption.
      rewrite app_assoc, crc16_ccitt_snoc, <- Hcrc. reflexivity. }
    rewrite Z.geb_leb.
    destruct (Z.leb_spec n (idx + 1)) as [Hlast|Hmore].
    + split; [lia|].
      replace (Z.to_nat n) with (Z.to_nat (idx + 1)) by lia. exact Estep.
    + split; [lia|]. split; [assumption | exact Estep].
  - rewrite feed_crc_high by reflexivity.
    eexists; eexists; (split; [reflexivity|]); parser_simpl.
    split; [wf_fields | exact Hp].
  - rewrite feed_crc_low by reflexivity. parser_simpl.
    destruct (_ =? _); eexists; eexists; (split; [reflexivity|]);
      (split; [wf_fields | exact I]).
Qed.

Lemma feed_all_keeps_progress bytes plat : forall p,
  parser_wf p -> parser_progress p -> Forall is_u8 bytes ->
  exists p' calls,
    dm_parser_feed_all p bytes plat = Some (p', calls)
    /\ parser_wf p' /\ parser_progress p'.
Proof.
  induction bytes as [|b bytes IH]; intros p Hwf Hp Hbytes.
  - exists p, []. auto.
  - inversion Hbytes as [|? ? Hb Hrest]; subst.
    destruct (feed_keeps_progress p b plat Hwf Hp Hb) as (p1 & c1 & E1 & Hwf1 & Hp1).
    destruct (IH p1 Hwf1 Hp1 Hrest) as (p2 & c2 & E2 & Hwf2 & Hp2).
    exists p2, (c1 ++ c2). rewrite feed_all_cons, E1, E2. auto.
Qed.

(** What a dispatching step looks like. *)
Lemma feed_dispatch_inv p b plat p' calls f :
  dm_parser_feed p b plat = Some (p', calls) ->
  In (Dispatch f) calls ->
  state p = PARSE_CRC_LOW /\ calls = [Dispatch f] /\ f = frame p
  /\ u16 (Z.lor (Z.shiftl (crc_high p) 8) b) = running_crc p
  /\ frames_ok p' = u32 (frames_ok p + 1).
Proof.
  destruct p as [st fr idx crc ch ok ce le].
  intros E Hin.
  assert (Hlog : forall msg, ~ In (Dispatch f) (debug_log plat msg)).
  { intros msg. unfold debug_log.
    destruct plat as [pl|]; [destruct (log pl)|]; cbn [In];
      intros Hx; try destruct Hx as [Hx|[]]; try discriminate; assumption. }
  destruct st.
  - rewrite feed_wait_start in E by reflexivity.
    destruct (b =? DM_START_BYTE); injection E as <- <-; destruct Hin.
  - rewrite feed_version in E by reflexivity. injection E as <- <-; destruct Hin.
  - rewrite feed_command in E by reflexivity. injection E as <- <-; destruct Hin.
  - rewrite feed_seq_id in E by reflexivity. injection E as <- <-; destruct Hin.
  - destruct (Z_lt_le_dec DM_MAX_PAYLOAD b) as [Hover|Hfit].
    + rewrite feed_length_overflow in E by (reflexivity || assumption).
      injection E as <- <-. exfalso. eapply Hlog; eassumption.
    + rewrite feed_length_ok in E by (reflexivity || assumption).
      injection E as <- <-; destruct Hin.
  - unfold dm_parser_feed in E. cbn [state] in E.
    destruct ((0 <=? _) && _); [|discriminate].
    cbv zeta in E. destruct (_ >=? _); injection E as <- <-; destruct Hin.
  - rewrite feed_crc_high in E by reflexivity. injection E as <- <-; destruct Hin.
  - rewrite feed_crc_low in E by reflexivity.
    cbn [crc_high running_crc frames_ok] in *.
    destruct (Z.eqb_spec (u16 (Z.lor (Z.shiftl ch 8) b)) crc) as [Hcrc|Hcrc].
    + injection E as <- <-. destruct Hin as [[= <-]|[]].
      repeat split; try reflexivity. exact Hcrc.
    + injection E as <- <-. exfalso. eapply Hlog; eassumption.
Qed.

Lemma parser_init_progress : parser_progress dm_parser_init.
Proof. exact I. Qed.

(** X3.  Every call of the dispatcher is backed by a CRC check: whatever bytes
    a freshly initialised parser has been fed, if the next byte makes it
    dispatch a frame then that is the only call of the step, the CRC high
    byte held by the parser and the byte just fed are the CRC16 of the
    frame's header fields and its first [payload_len] payload bytes, the
    payload length is at most DM_MAX_PAYLOAD, and the parser is idle
    again. *)
Theorem dispatched_frame_checked pre b plat :
  Forall is_u8 pre -> is_u8 b ->
  exists p calls0 p' calls,
    dm_parser_feed_all dm_parser_init pre plat = Some (p, calls0)
    /\ dm_parser_feed p b plat = Some (p', calls)
    /\ forall f, In (Dispatch f) calls ->
         calls = [Dispatch f]
         /\ crc_high p * 256 + b = crc16_ccitt (frame_contents f)
         /\ 0 <= payload_len f <= DM_MAX_PAYLOAD
         /\ length (payload f) = Z.to_nat DM_MAX_PAYLOAD
         /\ state p' = PARSE_WAIT_START.
Proof.
  intros Hpre Hb.
  destruct (feed_all_keeps_progress pre plat dm_parser_init
              parser_init_wf parser_init_progress Hpre)
    as (p & calls0 & E0 & Hwf & Hp).
  destruct (feed_keeps_progress p b plat Hwf Hp Hb) as (p' & calls & E & Hwf' & Hp').
  exists p, calls0, p', calls. split; [exact E0|]. split; [exact E|].
  intros f Hin.
  destruct (feed_dispatch_inv p b plat p' calls f E Hin)
    as (Hst & Hcalls & Hf & Hcrc & _).
  unfold parser_progress in Hp. rewrite Hst in Hp. destruct Hp as [Hn Hrun].
  subst f. split; [exact Hcalls|].
  rewrite join_bytes_value in Hcrc by (apply Hwf || assumption).
  split; [rewrite Hcrc; exact Hrun|]. split; [exact Hn|].
  split; [apply Hwf|].
  rewrite feed_crc_low in E by assumption.
  destruct (_ =? _); injection E as <- _; reflexivity.
Qed.

Lemma dispatched_frame_checked_witness :
  exists p calls0 p' calls,
    dm_parser_feed_all dm_parser_init [0xAA; 0x01; 0x01; 0x7B; 0x00; 0x11] None
      = Some (p, calls0)
    /\ dm_parser_feed p 0xE7 None = Some (p', calls)
    /\ forall f, In (Dispatch f) calls ->
         calls = [Dispatch f]
         /\ crc_high p * 256 + 0xE7 = crc16_ccitt (frame_contents f)
         /\ 0 <= payload_len f <= DM_MAX_PAYLOAD
         /\ length (payload f) = Z.to_nat DM_MAX_PAYLOAD
         /\ state p' = PARSE_WAIT_START.
Proof.
  apply (dispatched_frame_checked [0xAA; 0x01; 0x01; 0x7B; 0x00; 0x11] 0xE7 None).
  - repeat constructor; unfold is_u8; lia.
  - unfold is_u8; lia.
Defined.

(** ** Parser: the statistics counters *)

Lemma dispatched_app c1 c2 : dispatched (c1 ++ c2) = dispatched c1 ++ dispatched c2.
Proof.
  induction c1 as [|[f|msg] c1 IH]; cbn [app dispatched]; rewrite ?IH; reflexivity.
Qed.

Lemma logged_app c1 c2 : logged (c1 ++ c2) = logged c1 ++ logged c2.
Proof.
  induction c1 as [|[f|msg] c1 IH]; cbn [app logged]; rewrite ?IH; reflexivity.
Qed.

Lemma logged_debug_log plat msg :
  logged (debug_log plat msg) = if platform_logs plat then [msg] else [].
Proof.
  unfold debug_log, platform_logs.
  destruct plat as [pl|]; [destruct (log pl)|]; reflexivity.
Qed.

Lemma u32_add_l a b : u32 (u32 a + b) = u32 (a + b).
Proof. unfold u32. apply Z.add_mod_idemp_l. lia. Qed.

Lemma u32_add_r a b : u32 (a + u32 b) = u32 (a + b).
Proof. unfold u32. apply Z.add_mod_idemp_r. lia. Qed.

(** One step: [frames_ok] grows by the number of dispatcher calls, the two
    error counters together by the number of error events, each of which
    is logged when there is a log slot. *)
Lemma feed_counts p b plat p' calls :
  dm_parser_feed p b plat = Some (p', calls) ->
  u32 (frames_ok p') = u32 (frames_ok p + Z.of_nat (length (dispatched calls)))
  /\ (platform_logs plat = true ->
      u32 (frames_crc_err p' + frames_len_err p')
      = u32 (frames_crc_err p + frames_len_err p
             + Z.of_nat (length (logged calls))))
  /\ (platform_logs plat = false -> logged calls = []).
Proof.
  destruct p as [st fr idx crc ch ok ce le].
  intros E.
  assert (Hquiet : forall q,
            frames_ok q = ok -> frames_crc_err q = ce -> frames_len_err q = le ->
            u32 (frames_ok q) = u32 (ok + Z.of_nat (length (dispatched [])))
            /\ (platform_logs plat = true ->
                u32 (frames_crc_err q + frames_len_err q)
                = u32 (ce + le + Z.of_nat (length (logged []))))
            /\ (platform_logs plat = false -> logged [] = [])).
  { intros q -> -> ->. cbn [dispatched logged length].
    rewrite !Z.add_0_r. auto. }
  cbn [frames_ok frames_crc_err frames_len_err].
  destruct st.
  - rewrite feed_wait_start in E by reflexivity.
    destruct (b =? DM_START_BYTE); injection E as <- <-; apply Hquiet; reflexivity.
  - rewrite feed_version in E by reflexivity.
    injection E as <- <-; apply Hquiet; reflexivity.
  - rewrite feed_command in E by reflexivity.
    injection E as <- <-; apply Hquiet; reflexivity.
  - rewrite feed_seq_id in E by reflexivity.
    injection E as <- <-; apply Hquiet; reflexivity.
  - destruct (Z_lt_le_dec DM_MAX_PAYLOAD b) as [Hover|Hfit].
    + rewrite feed_length_overflow in E by (reflexivity || assumption).
      injection E as <- <-. parser_simpl.
      rewrite dispatched_debug_log, logged_debug_log. cbn [length].
      rewrite Z.add_0_r. split; [reflexivity|].
      split; intros Hlog; rewrite Hlog; [|reflexivity].
      cbn [length]. rewrite u32_add_r. f_equal. lia.
    + rewrite feed_length_ok in E by (reflexivity || assumption).
      injection E as <- <-; apply Hquiet; reflexivity.
  - unfold dm_parser_feed in E. cbn [state] in E.
    destruct ((0 <=? _) && _); [|discriminate].
    cbv zeta in E.
    destruct (_ >=? _); injection E as <- <-; apply Hquiet; reflexivity.
  - rewrite feed_crc_high in E by reflexivity.
    injection E as <- <-; apply Hquiet; reflexivity.
  - rewrite feed_crc_low in E by reflexivity.
    destruct (_ =? _); injection E as <- <-; parser_simpl.
    + cbn [dispatched logged length]. rewrite Z.add_0_r.
      split; [unfold u32; rewrite Z.mod_mod by lia; reflexivity|]. auto.
    + rewrite dispatched_debug_log, logged_debug_log. cbn [length].
      rewrite Z.add_0_r. split; [reflexivity|].
      split; intros Hlog; rewrite Hlog; [|reflexivity].
      cbn [length]. rewrite u32_add_l. f_equal. lia.
Qed.

Lemma feed_all_counts bytes plat : forall p p' calls,
  dm_parser_feed_all p bytes plat = Some (p', calls) ->
  u32 (frames_ok p') = u32 (frames_ok p + Z.of_nat (length (dispatched calls)))
  /\ (platform_logs plat = true ->
      u32 (frames_crc_err p' + frames_len_err p')
      = u32 (frames_crc_err p + frames_len_err p
             + Z.of_nat (length (logged calls))))
  /\ (platform_logs plat = false -> logged calls = []).
Proof.
  induction bytes as [|b bytes IH]; intros p p' calls E.
  - injection E as <- <-. cbn [dispatched logged length]. rewrite !Z.add_0_r. auto.
  - rewrite feed_all_cons in E.
    destruct (dm_parser_feed p b plat) as [[p1 c1]|] eqn:E1; [|discriminate].
    destruct (dm_parser_feed_all p1 bytes plat) as [[p2 c2]|] eqn:E2; [|discriminate].
    injection E as <- <-.
    destruct (feed_counts _ _ _ _ _ E1) as (Hok1 & Herr1 & Hq1).
    destruct (IH _ _ _ E2) as (Hok2 & Herr2 & Hq2).
    rewrite dispatched_app, logged_app, !length_app, !Nat2Z.inj_add.
    split; [|split].
    + rewrite Hok2, <- u32_add_l, Hok1, u32_add_l. f_equal. lia.
    + intros Hlog. rewrite (Herr2 Hlog), <- u32_add_l, (Herr1 Hlog), u32_add_l.
      f_equal. lia.
    + intros Hlog. rewrite (Hq1 Hlog), (Hq2 Hlog). reflexivity.
Qed.

(** X4.  The counters tell what happened: after any byte stream fed to a fresh
    parser, [frames_ok] is the number of frames handed to the dispatcher
    and [frames_crc_err + frames_len_err] the number of log calls made on
    a platform with a log slot (all modulo 2^32); without a log slot
    nothing is logged. *)
Theorem counters_count_calls bytes plat :
  Forall is_u8 bytes ->
  exists p calls,
    dm_parser_feed_all dm_parser_init bytes plat = Some (p, calls)
    /\ frames_ok p = u32 (Z.of_nat (length (dispatched calls)))
    /\ (platform_logs plat = true ->
        u32 (frames_crc_err p + frames_len_err p)
        = u32 (Z.of_nat (length (logged calls))))
    /\ (platform_logs plat = false -> logged calls = []).
Proof.
  intros Hbytes.
  destruct (feed_all_keeps_invariant bytes plat dm_parser_init)
    as (p & calls & E & Hwf & _);
    [apply parser_init_wf | intros H; discriminate H | assumption |].
  exists p, calls. split; [exact E|].
  destruct (feed_all_counts _ _ _ _ _ E) as (Hok & Herr & Hq).
  split; [|split; assumption].
  rewrite <- (Z.mod_small (frames_ok p) 4294967296) by apply Hwf.
  exact Hok.
Qed.

Lemma counters_count_calls_witness :
  exists p calls,
    dm_parser_feed_all dm_parser_init
      [0xAA; 1; 1; 0x7B; 0xFF; 0xAA; 1; 1; 0x7B; 0; 0x11; 0xE7]
      (Some full_platform) = Some (p, calls)
    /\ frames_ok p = u32 (Z.of_nat (length (dispatched calls)))
    /\ (platform_logs (Some full_platform) = true ->
        u32 (frames_crc_err p + frames_len_err p)
        = u32 (Z.of_nat (length (logged calls))))
    /\ (platform_logs (Some full_platform) = false -> logged calls = []).
Proof.
  apply counters_count_calls.
  repeat constructor; unfold is_u8; lia.
Defined.

(** ** Parser: a frame in progress ends *)

Lemma feed_towards_idle p b plat :
  parser_wf p -> parser_progress p -> is_u8 b ->
  state p <> PARSE_WAIT_START ->
  exists p' calls,
    dm_parser_feed p b plat = Some (p', calls)
    /\ parser_wf p' /\ parser_progress p'
    /\ 0 <= bytes_to_idle p' < bytes_to_idle p.
Proof.
  destruct p as [st fr idx crc ch ok ce le]. destruct fr as [v c s n buf].
  intros Hwf Hp Hb Hst.
  destruct (feed_keeps_progress _ b plat Hwf Hp Hb) as (p' & calls & E & Hwf' & Hp').
  exists p', calls. split; [exact E|]. split; [exact Hwf'|]. split; [exact Hp'|].
  unfold parser_progress in Hp.
  unfold bytes_to_idle, DM_MAX_FRAME_SIZE, DM_HEADER_SIZE, DM_CRC_SIZE,
    DM_MAX_PAYLOAD in *.
  cbn [state frame payload_index payload_len] in *.
  destruct st; [congruence | | | | | | |].
  - rewrite feed_version in E by reflexivity. injection E as <- _. parser_simpl. lia.
  - rewrite feed_command in E by reflexivity. injection E as <- _. parser_simpl. lia.
  - rewrite feed_seq_id in E by reflexivity. injection E as <- _. parser_simpl. lia.
  - destruct (Z_lt_le_dec 128 b) as [Hover|Hfit].
    + rewrite feed_length_overflow in E by (reflexivity || assumption).
      injection E as <- _. parser_simpl. lia.
    + rewrite feed_length_ok in E by (reflexivity || assumption).
      injection E as <- _. parser_simpl. unfold is_u8 in Hb.
      destruct (Z.eqb_spec b 0); cbn [state]; lia.
  - destruct Hp as (Hidx & Hn & _).
    rewrite feed_payload_store in E by (unfold DM_MAX_PAYLOAD; lia).
    injection E as <- _. cbn [state frame payload_index payload_len].
    rewrite (u16_id (idx + 1)) by (unfold is_u16; lia).
    rewrite Z.geb_leb.
    destruct (Z.leb_spec n (idx + 1)); lia.
  - rewrite feed_crc_high in E by reflexivity. injection E as <- _. parser_simpl. lia.
  - rewrite feed_crc_low in E by reflexivity. parser_simpl.
    destruct (_ =? _); injection E as <- _; parser_simpl; lia.
Qed.

Lemma bytes_to_idle_bound p :
  parser_progress p -> 0 <= bytes_to_idle p <= DM_MAX_FRAME_SIZE - 1.
Proof.
  unfold parser_progress, bytes_to_idle, DM_MAX_FRAME_SIZE, DM_HEADER_SIZE,
    DM_CRC_SIZE, DM_MAX_PAYLOAD.
  destruct (state p); intros Hp; lia.
Qed.

Lemma reaches_idle (m : nat) : forall p rest plat,
  parser_wf p -> parser_progress p -> Forall is_u8 rest ->
  bytes_to_idle p <= Z.of_nat m -> (m <= length rest)%nat ->
  exists k p' calls,
    (k <= m)%nat
    /\ dm_parser_feed_all p (take k rest) plat = Some (p', calls)
    /\ state p' = PARSE_WAIT_START.
Proof.
  induction m as [|m IH]; intros p rest plat Hwf Hp Hrest Hbudget Hlen.
  - exists 0%nat, p, []. split; [lia|]. split; [reflexivity|].
    pose proof (bytes_to_idle_bound p Hp) as Hb.
    unfold bytes_to_idle in *. unfold parser_progress in Hp.
    destruct (state p); try reflexivity;
      unfold DM_MAX_FRAME_SIZE, DM_HEADER_SIZE, DM_CRC_SIZE, DM_MAX_PAYLOAD in *;
      lia.
  - destruct (state p) eqn:Hst;
      try (exists 0%nat, p, []; split; [lia|]; split; [reflexivity | exact Hst]);
      (destruct rest as [|b rest]; [cbn [length] in Hlen; lia|];
       inversion Hrest as [|? ? Hb Hrest']; subst;
       destruct (feed_towards_idle p b plat Hwf Hp Hb)
         as (p1 & c1 & E1 & Hwf1 & Hp1 & Hdec); [congruence|];
       destruct (IH p1 rest plat Hwf1 Hp1 Hrest')
         as (k & p2 & c2 & Hk & E2 & Hidle); [lia | cbn [length] in Hlen; lia|];
       exists (S k), p2, (c1 ++ c2); split; [lia|]; split; [|exact Hidle];
       cbn [take]; rewrite feed_all_cons, E1, E2; reflexivity).
Qed.

(** X5.  The parser cannot stay inside a frame: whatever it has been fed, among
    the next DM_MAX_FRAME_SIZE - 1 bytes there is one after which it is
    back in WAIT_START (the frame in progress was delivered or dropped). *)
Theorem frame_ends_within_bound pre rest plat :
  Forall is_u8 pre -> Forall is_u8 rest ->
  DM_MAX_FRAME_SIZE - 1 <= Z.of_nat (length rest) ->
  exists p calls0 k p' calls,
    dm_parser_feed_all dm_parser_init pre plat = Some (p, calls0)
    /\ Z.of_nat k <= DM_MAX_FRAME_SIZE - 1
    /\ dm_parser_feed_all p (take k rest) plat = Some (p', calls)
    /\ state p' = PARSE_WAIT_START.
Proof.
  intros Hpre Hrest Hlen.
  destruct (feed_all_keeps_progress pre plat dm_parser_init
              parser_init_wf parser_init_progress Hpre)
    as (p & calls0 & E0 & Hwf & Hp).
  pose proof (bytes_to_idle_bound p Hp) as Hb.
  destruct (reaches_idle (Z.to_nat (DM_MAX_FRAME_SIZE - 1)) p rest plat Hwf Hp Hrest)
    as (k & p' & calls & Hk & E & Hidle);
    [unfold DM_MAX_FRAME_SIZE, DM_HEADER_SIZE, DM_CRC_SIZE, DM_MAX_PAYLOAD in *; lia
    |unfold DM_MAX_FRAME_SIZE, DM_HEADER_SIZE, DM_CRC_SIZE, DM_MAX_PAYLOAD in *; lia|].
  exists p, calls0, k, p', calls. split; [exact E0|].
  split; [unfold DM_MAX_FRAME_SIZE, DM_HEADER_SIZE, DM_CRC_SIZE, DM_MAX_PAYLOAD in *; lia|].
  split; assumption.
Qed.

Lemma frame_ends_within_bound_witness :
  exists p calls0 k p' calls,
    dm_parser_feed_all dm_parser_init [0xAA; 1; 1] None = Some (p, calls0)
    /\ Z.of_nat k <= DM_MAX_FRAME_SIZE - 1
    /\ dm_parser_feed_all p (take k (replicate 134 0x55)) None = Some (p', calls)
    /\ state p' = PARSE_WAIT_START.
Proof.
  apply (frame_ends_within_bound [0xAA; 1; 1] (replicate 134 0x55) None).
  - repeat constructor; unfold is_u8; lia.
  - apply Forall_replicate. unfold is_u8; lia.
  - rewrite length_replicate. vm_compute. discriminate.
Defined.

(** ** Parser: frames in a row *)

Lemma feed_requests reqs plat : forall p,
  state p = PARSE_WAIT_START ->
  length (payload (frame p)) = Z.to_nat DM_MAX_PAYLOAD ->
  is_u32 (frames_ok p) ->
  Forall (fun req => Z.of_nat (length (snd req)) <= DM_MAX_PAYLOAD) reqs ->
  exists p' fs,
    dm_parser_feed_all p (concat (map encode_request reqs)) plat
      = Some (p', map Dispatch fs)
    /\ Forall2 frame_carries fs reqs
    /\ state p' = PARSE_WAIT_START
    /\ frames_ok p' = u32 (frames_ok p + Z.of_nat (length reqs))
    /\ frames_crc_err p' = frames_crc_err p
    /\ frames_len_err p' = frames_len_err p.
Proof.
  induction reqs as [|[[cmd seq] body] reqs IH]; intros p Hst Hbuf Hok32 Hreqs.
  - exists p, []. cbn [map concat dm_parser_feed_all length].
    rewrite Z.add_0_r, (Z.mod_small (frames_ok p) 4294967296 Hok32 : u32 _ = _).
    repeat split; try assumption; constructor.
  - inversion Hreqs as [|? ? Hlen Hrest]; subst. cbn [snd] in Hlen.
    cbn [map concat encode_request].
    rewrite feed_all_app, feed_wire_frame by assumption.
    match goal with
    | |- context [dm_parser_feed_all ?q (concat _) plat] =>
        destruct (IH q) as (p' & fs & E & Hfs & Hst' & Hok & Hce & Hle)
    end; [reflexivity | | apply u32_range | assumption |].
    { cbn [frame payload]. rewrite length_app, length_drop.
      unfold DM_MAX_PAYLOAD in *. lia. }
    rewrite E. eexists. eexists (_ :: fs). split; [reflexivity|].
    split; [constructor; [|exact Hfs]|].
    + unfold frame_carries. cbn [version command seq_id payload_len payload].
      rewrite take_app_length. repeat split; reflexivity.
    + split; [exact Hst'|].
      cbn [frames_ok frames_crc_err frames_len_err] in Hok, Hce, Hle.
      split; [|split; assumption].
      rewrite Hok, u32_add_l. f_equal. cbn [length]. lia.
Qed.

(** X6.  Requests sent one after the other are delivered one after the other:
    the concatenated wire frames of any list of requests (payloads of at
    most DM_MAX_PAYLOAD bytes) make a fresh parser call the dispatcher once
    per request, in the order sent, each time with that request's command,
    sequence number and payload, and [frames_ok] counts them. *)
Theorem frames_delivered_in_order reqs plat :
  Forall (fun req => Z.of_nat (length (snd req)) <= DM_MAX_PAYLOAD) reqs ->
  exists p fs,
    dm_parser_feed_all dm_parser_init (concat (map encode_request reqs)) plat
      = Some (p, map Dispatch fs)
    /\ Forall2 frame_carries fs reqs
    /\ frames_ok p = u32 (Z.of_nat (length reqs))
    /\ frames_crc_err p = 0 /\ frames_len_err p = 0
    /\ state p = PARSE_WAIT_START.
Proof.
  intros Hreqs.
  destruct (feed_requests reqs plat dm_parser_init)
    as (p & fs & E & Hfs & Hst & Hok & Hce & Hle);
    [reflexivity | reflexivity | apply parser_init_wf | assumption |].
  exists p, fs. repeat split; assumption.
Qed.

Lemma frames_delivered_in_order_witness :
  exists p fs,
    dm_parser_feed_all dm_parser_init
      (concat (map encode_request [(0x01, 1, []); (0x10, 2, [0]); (0x22, 3, [4; 1])]))
      None
      = Some (p, map Dispatch fs)
    /\ Forall2 frame_carries fs [(0x01, 1, []); (0x10, 2, [0]); (0x22, 3, [4; 1])]
    /\ frames_ok p = u32 (Z.of_nat 3)
    /\ frames_crc_err p = 0 /\ frames_len_err p = 0
    /\ state p = PARSE_WAIT_START.
Proof.
  apply (frames_delivered_in_order
           [(0x01, 1, []); (0x10, 2, [0]); (0x22, 3, [4; 1])] None).
  repeat constructor; simpl; unfold DM_MAX_PAYLOAD; lia.
Defined.

(** ** CRC16: what it detects *)

(** X7.  Two byte strings of the same length that differ in exactly one byte
    never have the same CRC16, whatever the two byte values are: every
    corruption confined to one byte of a frame's contents changes the
    checksum. *)
Theorem crc16_detects_single_byte l1 b b' l2 :
  Forall is_u8 l1 -> Forall is_u8 l2 -> is_u8 b -> is_u8 b' -> b <> b' ->
  crc16_ccitt (l1 ++ b :: l2) <> crc16_ccitt (l1 ++ b' :: l2).
Proof.
  intros H1 H2 Hb Hb' Hne. unfold crc16_ccitt.
  apply crc16_single_byte; try assumption. unfold is_u16. lia.
Qed.

Lemma crc16_detects_single_byte_witness :
  crc16_ccitt ([1; 1] ++ 0x7B :: [0]) <> crc16_ccitt ([1; 1] ++ 0x7C :: [0]).
Proof.
  apply crc16_detects_single_byte.
  - repeat constructor; unfold is_u8; lia.
  - repeat constructor; unfold is_u8; lia.
  - unfold is_u8; lia.
  - unfold is_u8; lia.
  - discriminate.
Defined.

(** X8.  Continuing a CRC over its own two bytes, high byte first, gives 0:
    for every message, the CRC16 of the message followed by its CRC bytes,
    which is how the encoder lays out a frame, is zero. *)
Theorem crc16_residue_zero data :
  let crc := crc16_ccitt data in
  crc16_ccitt (data ++ [u8 (Z.shiftr crc 8); u8 (Z.land crc 0xFF)]) = 0.
Proof.
  intros crc.
  change (data ++ [u8 (Z.shiftr crc 8); u8 (Z.land crc 0xFF)])
    with (data ++ [u8 (Z.shiftr crc 8)] ++ [u8 (Z.land crc 0xFF)]).
  rewrite app_assoc, !crc16_ccitt_snoc. fold crc.
  pose proof (crc16_ccitt_range data) as Hr. fold crc in Hr.
  apply Z.eqb_eq.
  apply (Z_upto_complete
           (fun c => crc16_update (crc16_update c (u8 (Z.shiftr c 8)))
                       (u8 (Z.land c 0xFF)) =? 0) 65536);
    [vm_compute; reflexivity | exact Hr].
Qed.

(** ** Encoder: size and truncation *)

(** X9.  Whatever its arguments, [dm_packet_send] makes at most one
    [write_bytes] call, and the buffer it passes starts with 0xAA, has
    between 7 and DM_MAX_FRAME_SIZE bytes (it fits the stack array
    [frame[DM_MAX_FRAME_SIZE]]) and consists of bytes when the arguments
    do. *)
Theorem dm_packet_send_fits_buffer cmd seq payload payload_len plat w :
  is_u8 cmd -> is_u8 seq -> is_u8 payload_len ->
  (forall data, payload = Some data -> Forall is_u8 data) ->
  let w' := dm_packet_send cmd seq payload payload_len plat w in
  written w' = written w
  \/ exists buf,
       written w' = written w ++ [buf]
       /\ 7 <= Z.of_nat (length buf) <= DM_MAX_FRAME_SIZE
       /\ nth 0 buf 0 = DM_START_BYTE
       /\ Forall is_u8 buf.
Proof.
  intros Hcmd Hseq Hlen Hdata w'. unfold w'.
  destruct plat as [pl|]; [|left; reflexivity].
  destruct (write_bytes pl) eqn:Hw;
    [|left; unfold dm_packet_send; rewrite Hw; reflexivity].
  right. rewrite dm_packet_send_bytes by assumption.
  eexists. split; [reflexivity|].
  assert (Hbody : Forall is_u8 (sent_payload payload payload_len)
                  /\ Z.of_nat (length (sent_payload payload payload_len))
                     <= DM_MAX_PAYLOAD).
  { unfold sent_payload. destruct payload as [data|].
    - split; [apply Forall_take; auto|].
      rewrite length_take. unfold DM_MAX_PAYLOAD, is_u8 in *. lia.
    - split; [constructor | unfold DM_MAX_PAYLOAD; cbn [length]; lia]. }
  destruct Hbody as [Hb8 Hblen].
  split; [|split; [reflexivity|]].
  - cbn [app length]. rewrite length_app. cbn [length].
    unfold DM_MAX_FRAME_SIZE, DM_HEADER_SIZE, DM_CRC_SIZE, DM_MAX_PAYLOAD in *. lia.
  - cbn [app].
    repeat (constructor; [assumption || (unfold is_u8, DM_START_BYTE, DM_PROTOCOL_VERSION; lia)
                          || (unfold is_u8, DM_MAX_PAYLOAD in *; lia)|]).
    apply Forall_app. split; [assumption|].
    repeat constructor; apply u8_range.
Qed.

Lemma dm_packet_send_fits_buffer_witness :
  let w' := dm_packet_send EVT_ACK 7 (Some [1; 0; 0]) 3 (Some full_platform) world0 in
  written w' = written world0
  \/ exists buf,
       written w' = written world0 ++ [buf]
       /\ 7 <= Z.of_nat (length buf) <= DM_MAX_FRAME_SIZE
       /\ nth 0 buf 0 = DM_START_BYTE
       /\ Forall is_u8 buf.
Proof.
  apply (dm_packet_send_fits_buffer EVT_ACK 7 (Some [1; 0; 0]) 3
           (Some full_platform) world0).
  - unfold is_u8, EVT_ACK; lia.
  - unfold is_u8; lia.
  - unfold is_u8; lia.
  - intros data [= <-]. repeat constructor; unfold is_u8; lia.
Defined.

(** X10.  A payload length above DM_MAX_PAYLOAD is cut down without notice: the
    frame written carries the first DM_MAX_PAYLOAD bytes of the payload and
    announces that length, and the parser accepts it as such. *)
Theorem dm_packet_send_truncates cmd seq data len pl plat w :
  write_bytes pl = true ->
  DM_MAX_PAYLOAD < len <= Z.of_nat (length data) ->
  let body := take (Z.to_nat DM_MAX_PAYLOAD) data in
  dm_packet_send cmd seq (Some data) len (Some pl) w
    = call_write_bytes (wire_frame cmd seq body) w
  /\ exists p f,
       dm_parser_feed_all dm_parser_init (wire_frame cmd seq body) plat
         = Some (p, [Dispatch f])
       /\ payload_len f = DM_MAX_PAYLOAD
       /\ payload f = body
       /\ command f = cmd /\ seq_id f = seq.
Proof.
  intros Hw Hlen body.
  assert (Hbody : length body = Z.to_nat DM_MAX_PAYLOAD).
  { unfold body. rewrite length_take. unfold DM_MAX_PAYLOAD in *. lia. }
  split.
  - rewrite dm_packet_send_bytes by assumption.
    unfold sent_payload. rewrite Z.min_r by lia. fold body.
    pose proof (crc16_ccitt_range
                  ([DM_PROTOCOL_VERSION; cmd; seq; DM_MAX_PAYLOAD] ++ body)) as Hr.
    destruct (crc_bytes_spec _ Hr) as [-> ->].
    unfold wire_frame. rewrite Hbody. reflexivity.
  - rewrite feed_wire_frame
      by (reflexivity || apply parser_init_wf || (rewrite Hbody; unfold DM_MAX_PAYLOAD; lia)).
    eexists. eexists. split; [reflexivity|].
    cbn [payload_len payload command seq_id].
    rewrite Hbody. split; [reflexivity|]. split; [|split; reflexivity].
    rewrite drop_ge
      by (apply Nat.eq_le_incl; apply (wf_payload_length _ parser_init_wf)).
    apply app_nil_r.
Qed.

Lemma dm_packet_send_truncates_witness :
  let body := take (Z.to_nat DM_MAX_PAYLOAD) (replicate 200 0x41) in
  dm_packet_send EVT_ACK 1 (Some (replicate 200 0x41)) 200 (Some full_platform) world0
    = call_write_bytes (wire_frame EVT_ACK 1 body) world0
  /\ exists p f,
       dm_parser_feed_all dm_parser_init (wire_frame EVT_ACK 1 body) None
         = Some (p, [Dispatch f])
       /\ payload_len f = DM_MAX_PAYLOAD
       /\ payload f = body
       /\ command f = EVT_ACK /\ seq_id f = 1.
Proof.
  apply (dm_packet_send_truncates EVT_ACK 1 (replicate 200 0x41) 200
           full_platform None world0).
  - reflexivity.
  - rewrite length_replicate. unfold DM_MAX_PAYLOAD. lia.
Defined.

(** ** Responses *)

Lemma nack_written seq pl w :
  write_bytes pl = true ->
  dm_packet_send_nack seq (Some pl) w
  = call_write_bytes (wire_frame EVT_NACK seq []) w.
Proof. intros Hw. unfold dm_packet_send_nack. apply dm_packet_send_empty, Hw. Qed.

Lemma ack_written seq pl w :
  write_bytes pl = true ->
  dm_packet_send_ack seq (Some pl) None 0 w
  = call_write_bytes (wire_frame EVT_ACK seq []) w.
Proof. intros Hw. unfold dm_packet_send_ack. apply dm_packet_send_empty, Hw. Qed.

(** ** Binder: malformed and failing requests *)

(** X11.  A request whose payload is shorter than its command needs (one byte
    for SHOW_PAGE, two for SET_TEXT, SET_VISIBLE and SET_ENABLED, three for
    SET_VALUE) is answered with a NACK echoing its sequence number and
    nothing else happens: the UI state is untouched, no LVGL call is made
    and the event counter keeps its value. *)
Theorem binder_rejects_short_payload seq p len pl pg ui w :
  write_bytes pl = true ->
  let nack := call_write_bytes (wire_frame EVT_NACK seq []) w in
  (len < 1 -> dm_handle_show_page seq p len (Some pl) pg w = (pg, nack))
  /\ (len < 2 -> dm_handle_set_text seq p len (Some pl) ui w = (ui, nack))
  /\ (len < 3 -> dm_handle_set_value seq p len (Some pl) ui w = (ui, nack))
  /\ (len < 2 -> dm_handle_set_visible seq p len (Some pl) ui w = (ui, nack))
  /\ (len < 2 -> dm_handle_set_enabled seq p len (Some pl) ui w = (ui, nack)).
Proof.
  intros Hw nack. unfold nack.
  repeat split; intros Hlen;
    unfold dm_handle_show_page, dm_handle_set_text, dm_handle_set_value,
      dm_handle_set_visible, dm_handle_set_enabled;
    match goal with
    | |- context [len <? ?k] =>
        replace (len <? k) with true by (symmetry; apply Z.ltb_lt; lia)
    end;
    rewrite nack_written by assumption; reflexivity.
Qed.

Lemma binder_rejects_short_payload_witness :
  let nack := call_write_bytes (wire_frame EVT_NACK 5 []) world0 in
  (1 < 1 -> dm_handle_show_page 5 [0] 1 (Some full_platform)
              {| s_page_count := 2; s_current_page := 0 |} world0
            = ({| s_page_count := 2; s_current_page := 0 |}, nack))
  /\ (1 < 2 -> dm_handle_set_text 5 [0] 1 (Some full_platform)
                 {| s_widgets := []; s_widget_count := 0; s_plat := None;
                    lv_first_child := fun _ => None; lv_calls := [] |} world0
               = ({| s_widgets := []; s_widget_count := 0; s_plat := None;
                     lv_first_child := fun _ => None; lv_calls := [] |}, nack))
  /\ (1 < 3 -> dm_handle_set_value 5 [0] 1 (Some full_platform)
                 {| s_widgets := []; s_widget_count := 0; s_plat := None;
                    lv_first_child := fun _ => None; lv_calls := [] |} world0
               = ({| s_widgets := []; s_widget_count := 0; s_plat := None;
                     lv_first_child := fun _ => None; lv_calls := [] |}, nack))
  /\ (1 < 2 -> dm_handle_set_visible 5 [0] 1 (Some full_platform)
                 {| s_widgets := []; s_widget_count := 0; s_plat := None;
                    lv_first_child := fun _ => None; lv_calls := [] |} world0
               = ({| s_widgets := []; s_widget_count := 0; s_plat := None;
                     lv_first_child := fun _ => None; lv_calls := [] |}, nack))
  /\ (1 < 2 -> dm_handle_set_enabled 5 [0] 1 (Some full_platform)
                 {| s_widgets := []; s_widget_count := 0; s_plat := None;
                    lv_first_child := fun _ => None; lv_calls := [] |} world0
               = ({| s_widgets := []; s_widget_count := 0; s_plat := None;
                     lv_first_child := fun _ => None; lv_calls := [] |}, nack)).
Proof.
  apply (binder_rejects_short_payload 5 [0] 1 full_platform).
  reflexivity.
Defined.

(** X12.  SHOW_PAGE for a page that does not exist ([page_id >= s_page_count]) is
    answered with a NACK only: no EVT_PAGE_CHANGED is sent, the current
    page stays and the event counter is not consumed. *)
Theorem show_page_unknown_page seq p len pl pg w :
  write_bytes pl = true -> 1 <= len ->
  s_page_count pg <= nth 0 p 0 ->
  dm_handle_show_page seq p len (Some pl) pg w
  = (pg, call_write_bytes (wire_frame EVT_NACK seq []) w).
Proof.
  intros Hw Hlen Hpage. unfold dm_handle_show_page, ui_pages_show.
  replace (len <? 1) with false by (symmetry; apply Z.ltb_ge; lia).
  replace (nth 0 p 0 >=? s_page_count pg) with true
    by (symmetry; rewrite Z.geb_leb; apply Z.leb_le; lia).
  rewrite nack_written by assumption. reflexivity.
Qed.

Lemma show_page_unknown_page_witness :
  dm_handle_show_page 9 [2] 1 (Some full_platform)
    {| s_page_count := 2; s_current_page := 0 |} world0
  = ({| s_page_count := 2; s_current_page := 0 |},
     call_write_bytes (wire_frame EVT_NACK 9 []) world0).
Proof.
  apply show_page_unknown_page.
  - reflexivity.
  - lia.
  - simpl. lia.
Defined.

(** ** Binder: values and texts *)

Lemma int16_bytes_round_trip v :
  is_i16 v ->
  to_int16 (u16 (Z.lor (Z.shiftl (u8 (Z.land (Z.shiftr v 8) 0xFF)) 8)
                       (u8 (Z.land v 0xFF)))) = v.
Proof.
  intros Hv. apply Z.eqb_eq.
  replace v with ((v + 32768) - 32768) by lia.
  apply (Z_upto_complete
           (fun c =>
              to_int16 (u16 (Z.lor (Z.shiftl (u8 (Z.land (Z.shiftr (c - 32768) 8) 0xFF)) 8)
                                   (u8 (Z.land (c - 32768) 0xFF))))
              =? c - 32768) 65536);
    [vm_compute; reflexivity | unfold is_i16 in Hv; lia].
Qed.

(** X13.  The 16-bit value of a slider travels unchanged: the payload that
    [dm_packet_send_slider_changed] puts in its EVT_SLIDER_CHANGED frame
    for a widget and an int16_t value, given to [dm_handle_set_value] as a
    request payload, makes the binder call [ui_pages_set_value] with that
    widget and that value, and answer ACK or NACK by its result. *)
Theorem slider_value_round_trip idx v pl w :
  is_i16 v -> write_bytes pl = true ->
  exists hi lo,
    dm_packet_send_slider_changed idx v (Some pl) w
    = call_write_bytes
        (wire_frame EVT_SLIDER_CHANGED (s_seq_counter w) [idx; hi; lo])
        (set_s_seq_counter (u8 (s_seq_counter w + 1)) w)
    /\ forall seq rest plat ui w2,
         dm_handle_set_value seq ([idx; hi; lo] ++ rest) 3 plat ui w2
         = (snd (ui_pages_set_value idx v ui),
            if fst (ui_pages_set_value idx v ui)
            then dm_packet_send_ack seq plat None 0 w2
            else dm_packet_send_nack seq plat w2).
Proof.
  intros Hv Hw.
  exists (u8 (Z.land (Z.shiftr v 8) 0xFF)), (u8 (Z.land v 0xFF)). split.
  - unfold dm_packet_send_slider_changed. cbv zeta.
    apply (dm_packet_send_wire_frame EVT_SLIDER_CHANGED (s_seq_counter w)
             [idx; u8 (Z.land (Z.shiftr v 8) 0xFF); u8 (Z.land v 0xFF)]);
      [assumption | simpl; unfold DM_MAX_PAYLOAD; lia].
  - intros seq rest plat ui w2. unfold dm_handle_set_value.
    replace (3 <? 3) with false by reflexivity.
    cbn [app nth]. rewrite int16_bytes_round_trip by assumption.
    destruct (ui_pages_set_value idx v ui) as [[|] ui']; reflexivity.
Qed.

Lemma slider_value_round_trip_witness :
  exists hi lo,
    dm_packet_send_slider_changed 4 (-2) (Some full_platform) world0
    = call_write_bytes
        (wire_frame EVT_SLIDER_CHANGED (s_seq_counter world0) [4; hi; lo])
        (set_s_seq_counter (u8 (s_seq_counter world0 + 1)) world0)
    /\ forall seq rest plat ui w2,
         dm_handle_set_value seq ([4; hi; lo] ++ rest) 3 plat ui w2
         = (snd (ui_pages_set_value 4 (-2) ui),
            if fst (ui_pages_set_value 4 (-2) ui)
            then dm_packet_send_ack seq plat None 0 w2
            else dm_packet_send_nack seq plat w2).
Proof.
  apply (slider_value_round_trip 4 (-2) full_platform world0).
  - unfold is_i16. lia.
  - reflexivity.
Defined.







(** X15.  SET_VISIBLE and SET_ENABLED with at least two payload bytes are always
    ACKed, also when the widget index is outside the table, in which case
    nothing is done to the UI; for a registered widget exactly one LVGL
    call is made, on that widget's object: the flag or state is cleared
    for a nonzero second byte and set for a zero one. *)
Theorem visibility_always_acked seq p len pl ui w :
  write_bytes pl = true -> 2 <= len ->
  let ack := call_write_bytes (wire_frame EVT_ACK seq []) w in
  let idx := nth 0 p 0 in
  let o := obj (widget_at ui idx) in
  snd (dm_handle_set_visible seq p len (Some pl) ui w) = ack
  /\ snd (dm_handle_set_enabled seq p len (Some pl) ui w) = ack
  /\ (s_widget_count ui <= idx ->
      fst (dm_handle_set_visible seq p len (Some pl) ui w) = ui
      /\ fst (dm_handle_set_enabled seq p len (Some pl) ui w) = ui)
  /\ (idx < s_widget_count ui ->
      lv_calls (fst (dm_handle_set_visible seq p len (Some pl) ui w))
      = lv_calls ui ++ [if nth 1 p 0 =? 0 then lv_obj_add_flag o
                        else lv_obj_clear_flag o]
      /\ lv_calls (fst (dm_handle_set_enabled seq p len (Some pl) ui w))
         = lv_calls ui ++ [if nth 1 p 0 =? 0 then lv_obj_add_state o
                           else lv_obj_clear_state o]).
Proof.
  intros Hw Hlen ack idx o. unfold ack, idx, o.
  unfold dm_handle_set_visible, dm_handle_set_enabled,
    ui_pages_set_visible, ui_pages_set_enabled.
  replace (len <? 2) with false by (symmetry; apply Z.ltb_ge; lia).
  cbv zeta. cbn [fst snd]. rewrite ack_written by assumption.
  split; [reflexivity|]. split; [reflexivity|]. split.
  - intros Hout.
    replace (nth 0 p 0 >=? s_widget_count ui) with true
      by (symmetry; rewrite Z.geb_leb; apply Z.leb_le; lia).
    split; reflexivity.
  - intros Hin.
    replace (nth 0 p 0 >=? s_widget_count ui) with false
      by (symmetry; rewrite Z.geb_leb; apply Z.leb_gt; lia).
    destruct (nth 1 p 0 =? 0); split; reflexivity.
Qed.

Lemma visibility_always_acked_witness :
  let ui := {| s_widgets := [{| obj := 77; type := WIDGET_LABEL |}];
               s_widget_count := 1; s_plat := None;
               lv_first_child := fun _ => None; lv_calls := [] |} in
  let ack := call_write_bytes (wire_frame EVT_ACK 8 []) world0 in
  let idx := nth 0 [0; 1] 0 in
  let o := obj (widget_at ui idx) in
  snd (dm_handle_set_visible 8 [0; 1] 2 (Some full_platform) ui world0) = ack
  /\ snd (dm_handle_set_enabled 8 [0; 1] 2 (Some full_platform) ui world0) = ack
  /\ (s_widget_count ui <= idx ->
      fst (dm_handle_set_visible 8 [0; 1] 2 (Some full_platform) ui world0) = ui
      /\ fst (dm_handle_set_enabled 8 [0; 1] 2 (Some full_platform) ui world0) = ui)
  /\ (idx < s_widget_count ui ->
      lv_calls (fst (dm_handle_set_visible 8 [0; 1] 2 (Some full_platform) ui world0))
      = lv_calls ui ++ [if nth 1 [0; 1] 0 =? 0 then lv_obj_add_flag o
                        else lv_obj_clear_flag o]
      /\ lv_calls (fst (dm_handle_set_enabled 8 [0; 1] 2 (Some full_platform) ui world0))
         = lv_calls ui ++ [if nth 1 [0; 1] 0 =? 0 then lv_obj_add_state o
                           else lv_obj_clear_state o]).
Proof.
  intros ui.
  apply (visibility_always_acked 8 [0; 1] 2 full_platform ui world0).
  - reflexivity.
  - lia.
Defined.

(** ** UI: the widget table and its events *)

(** X16.  Registering a widget in a table that has room gives it the next index,
    under which it is then found, leaves the widgets registered before
    where they were and keeps the table at its size; in a full table
    (WIDGET_TABLE_SIZE entries) nothing is stored and 0xFF is returned. *)
Theorem register_widget_spec o t ui :
  length (s_widgets ui) = Z.to_nat WIDGET_TABLE_SIZE ->
  0 <= s_widget_count ui <= WIDGET_TABLE_SIZE ->
  let r := register_widget o t ui in
  (s_widget_count ui = WIDGET_TABLE_SIZE -> r = (0xFF, ui))
  /\ (s_widget_count ui < WIDGET_TABLE_SIZE ->
      fst r = s_widget_count ui
      /\ s_widget_count (snd r) = s_widget_count ui + 1
      /\ widget_at (snd r) (fst r) = {| obj := o; type := t |}
      /\ length (s_widgets (snd r)) = Z.to_nat WIDGET_TABLE_SIZE
      /\ forall i, 0 <= i < s_widget_count ui ->
           widget_at (snd r) i = widget_at ui i).
Proof.
  intros Hlen Hcount r. unfold r, register_widget, WIDGET_TABLE_SIZE in *.
  split.
  - intros Hfull. rewrite Hfull. reflexivity.
  - intros Hroom.
    replace (s_widget_count ui >=? 16) with false
      by (symmetry; rewrite Z.geb_leb; apply Z.leb_gt; lia).
    cbv zeta. cbn [fst snd s_widget_count s_widgets].
    split; [reflexivity|].
    split; [apply u8_id; unfold is_u8; lia|].
    unfold widget_at. cbn [s_widgets].
    split; [|split].
    + apply nth_lookup_Some with (d := {| obj := 0; type := WIDGET_LABEL |}).
      apply list_lookup_insert_eq. lia.
    + rewrite length_insert. exact Hlen.
    + intros i Hi.
      assert (Hne : Z.to_nat (s_widget_count ui) <> Z.to_nat i) by lia.
      pose proof (list_lookup_insert_ne (s_widgets ui) _ _
                    {| obj := o; type := t |} Hne) as Hlk.
      rewrite !nth_lookup, Hlk. reflexivity.
Qed.

Lemma register_widget_spec_witness :
  let ui := {| s_widgets := replicate 16 {| obj := 0; type := WIDGET_LABEL |};
               s_widget_count := 2; s_plat := None;
               lv_first_child := fun _ => None; lv_calls := [] |} in
  let r := register_widget 99 WIDGET_SLIDER ui in
  (s_widget_count ui = WIDGET_TABLE_SIZE -> r = (0xFF, ui))
  /\ (s_widget_count ui < WIDGET_TABLE_SIZE ->
      fst r = s_widget_count ui
      /\ s_widget_count (snd r) = s_widget_count ui + 1
      /\ widget_at (snd r) (fst r) = {| obj := 99; type := WIDGET_SLIDER |}
      /\ length (s_widgets (snd r)) = Z.to_nat WIDGET_TABLE_SIZE
      /\ forall i, 0 <= i < s_widget_count ui ->
           widget_at (snd r) i = widget_at ui i).
Proof.
  intros ui.
  apply (register_widget_spec 99 WIDGET_SLIDER ui).
  - reflexivity.
  - simpl. unfold WIDGET_TABLE_SIZE. lia.
Defined.

Lemma btn_event_loop_silent ui btn w : forall count i,
  s_plat ui = None \/ (forall j, i <= j < i + Z.of_nat count ->
                                 obj (widget_at ui j) <> btn) ->
  0 <= i -> i + Z.of_nat count <= 255 ->
  btn_event_loop ui btn i count w = w.
Proof.
  induction count as [|count IH]; intros i Hquiet Hi Hend; [reflexivity|].
  cbn [btn_event_loop].
  replace ((obj (widget_at ui i) =? btn)
           && match s_plat ui with Some _ => true | None => false end)
    with false.
  - rewrite (u8_id (i + 1)) by (unfold is_u8; lia).
    apply IH; [|lia|lia].
    destruct Hquiet as [Hnone|Hmiss]; [left; exact Hnone|].
    right. intros j Hj. apply Hmiss. lia.
  - symmetry. destruct Hquiet as [-> | Hmiss]; [apply andb_false_r|].
    apply andb_false_iff. left. apply Z.eqb_neq. apply Hmiss. lia.
Qed.

Lemma slider_event_loop_silent ui slider val w : forall count i,
  s_plat ui = None \/ (forall j, i <= j < i + Z.of_nat count ->
                                 obj (widget_at ui j) <> slider) ->
  0 <= i -> i + Z.of_nat count <= 255 ->
  slider_event_loop ui slider val i count w = w.
Proof.
  induction count as [|count IH]; intros i Hquiet Hi Hend; [reflexivity|].
  cbn [slider_event_loop].
  replace ((obj (widget_at ui i) =? slider)
           && match s_plat ui with Some _ => true | None => false end)
    with false.
  - rewrite (u8_id (i + 1)) by (unfold is_u8; lia).
    apply IH; [|lia|lia].
    destruct Hquiet as [Hnone|Hmiss]; [left; exact Hnone|].
    right. intros j Hj. apply Hmiss. lia.
  - symmetry. destruct Hquiet as [-> | Hmiss]; [apply andb_false_r|].
    apply andb_false_iff. left. apply Z.eqb_neq. apply Hmiss. lia.
Qed.

Lemma btn_event_loop_hit ui btn pl w k : forall count i,
  s_plat ui = Some pl ->
  0 <= i <= k -> k < i + Z.of_nat count -> i + Z.of_nat count <= 255 ->
  obj (widget_at ui k) = btn ->
  (forall j, i <= j < k -> obj (widget_at ui j) <> btn) ->
  btn_event_loop ui btn i count w
  = dm_packet_send_button_pressed k (Some pl) w.
Proof.
  induction count as [|count IH]; intros i Hpl Hi Hk Hend Hobj Hfirst; [lia|].
  cbn [btn_event_loop]. rewrite Hpl, andb_true_r.
  destruct (Z.eq_dec i k) as [->|Hne].
  - rewrite Hobj, Z.eqb_refl. reflexivity.
  - replace (obj (widget_at ui i) =? btn) with false
      by (symmetry; apply Z.eqb_neq; apply Hfirst; lia).
    rewrite (u8_id (i + 1)) by (unfold is_u8; lia).
    apply IH; try assumption; try lia.
    intros j Hj. apply Hfirst. lia.
Qed.

Lemma slider_event_loop_hit ui slider val pl w k : forall count i,
  s_plat ui = Some pl ->
  0 <= i <= k -> k < i + Z.of_nat count -> i + Z.of_nat count <= 255 ->
  obj (widget_at ui k) = slider ->
  (forall j, i <= j < k -> obj (widget_at ui j) <> slider) ->
  slider_event_loop ui slider val i count w
  = dm_packet_send_slider_changed k val (Some pl) w.
Proof.
  induction count as [|count IH]; intros i Hpl Hi Hk Hend Hobj Hfirst; [lia|].
  cbn [slider_event_loop]. rewrite Hpl, andb_true_r.
  destruct (Z.eq_dec i k) as [->|Hne].
  - rewrite Hobj, Z.eqb_refl. reflexivity.
  - replace (obj (widget_at ui i) =? slider) with false
      by (symmetry; apply Z.eqb_neq; apply Hfirst; lia).
    rewrite (u8_id (i + 1)) by (unfold is_u8; lia).
    apply IH; try assumption; try lia.
    intros j Hj. apply Hfirst. lia.
Qed.

(** X17.  The UI callbacks transmit only through the platform pointer [s_plat]
    of ui_pages.c: while that pointer is NULL, the value it is initialised
    with, a button click or a slider change writes nothing and does not
    consume an event sequence number, whatever widget it comes from. *)
Theorem ui_events_silent_without_platform ui clicked btn changed slider val w :
  s_plat ui = None -> 0 <= s_widget_count ui <= 255 ->
  btn_event_cb clicked btn ui w = w
  /\ slider_event_cb changed slider val ui w = w.
Proof.
  intros Hnone Hcount. unfold btn_event_cb, slider_event_cb. split.
  - destruct clicked; [|reflexivity]. cbn [negb].
    apply btn_event_loop_silent; [left; exact Hnone | lia | lia].
  - destruct changed; [|reflexivity]. cbn [negb].
    apply slider_event_loop_silent; [left; exact Hnone | lia | lia].
Qed.

Lemma ui_events_silent_without_platform_witness :
  let ui := {| s_widgets := [{| obj := 77; type := WIDGET_BUTTON |}];
               s_widget_count := 1; s_plat := None;
               lv_first_child := fun _ => None; lv_calls := [] |} in
  btn_event_cb true 77 ui world0 = world0
  /\ slider_event_cb true 77 5 ui world0 = world0.
Proof.
  intros ui.
  apply (ui_events_silent_without_platform ui true 77 true 77 5 world0).
  - reflexivity.
  - simpl. lia.
Defined.

(** X18.  With [s_plat] set to a platform that transmits, a click on a button
    or a change of a slider whose object is in the widget table sends one
    event frame, EVT_BUTTON_PRESSED or EVT_SLIDER_CHANGED, carrying the
    first table index that holds the object and the next event sequence
    number; an event of another kind, or from an object that is not in the
    table, sends nothing. *)
Theorem ui_event_reports_widget ui pl target k val w :
  s_plat ui = Some pl -> write_bytes pl = true ->
  0 <= k < s_widget_count ui -> s_widget_count ui <= 255 ->
  obj (widget_at ui k) = target ->
  (forall j, 0 <= j < k -> obj (widget_at ui j) <> target) ->
  btn_event_cb true target ui w
  = call_write_bytes (wire_frame EVT_BUTTON_PRESSED (s_seq_counter w) [k])
      (set_s_seq_counter (u8 (s_seq_counter w + 1)) w)
  /\ (exists hi lo,
        slider_event_cb true target val ui w
        = call_write_bytes
            (wire_frame EVT_SLIDER_CHANGED (s_seq_counter w) [k; hi; lo])
            (set_s_seq_counter (u8 (s_seq_counter w + 1)) w))
  /\ btn_event_cb false target ui w = w
  /\ slider_event_cb false target val ui w = w
  /\ (forall other,
        (forall j, 0 <= j < s_widget_count ui -> obj (widget_at ui j) <> other) ->
        btn_event_cb true other ui w = w
        /\ slider_event_cb true other val ui w = w).
Proof.
  intros Hpl Hw Hk Hcount Hobj Hfirst.
  unfold btn_event_cb, slider_event_cb. cbn [negb].
  split; [|split; [|split; [reflexivity|split; [reflexivity|]]]].
  - rewrite (btn_event_loop_hit ui target pl w k) by (assumption || lia).
    unfold dm_packet_send_button_pressed. cbv zeta.
    apply (dm_packet_send_wire_frame EVT_BUTTON_PRESSED _ [k]);
      [assumption | simpl; unfold DM_MAX_PAYLOAD; lia].
  - rewrite (slider_event_loop_hit ui target val pl w k) by (assumption || lia).
    unfold dm_packet_send_slider_changed. cbv zeta.
    eexists. eexists.
    apply (dm_packet_send_wire_frame EVT_SLIDER_CHANGED _ [k; _; _]);
      [assumption | simpl; unfold DM_MAX_PAYLOAD; lia].
  - intros other Hmiss. split.
    + apply btn_event_loop_silent; [right|lia|lia].
      intros j Hj. apply Hmiss. lia.
    + apply slider_event_loop_silent; [right|lia|lia].
      intros j Hj. apply Hmiss. lia.
Qed.

Lemma ui_event_reports_widget_witness :
  let ui := {| s_widgets := [{| obj := 70; type := WIDGET_LABEL |};
                             {| obj := 77; type := WIDGET_BUTTON |}];
               s_widget_count := 2; s_plat := Some full_platform;
               lv_first_child := fun _ => None; lv_calls := [] |} in
  btn_event_cb true 77 ui world0
  = call_write_bytes (wire_frame EVT_BUTTON_PRESSED (s_seq_counter world0) [1])
      (set_s_seq_counter (u8 (s_seq_counter world0 + 1)) world0)
  /\ (exists hi lo,
        slider_event_cb true 77 5 ui world0
        = call_write_bytes
            (wire_frame EVT_SLIDER_CHANGED (s_seq_counter world0) [1; hi; lo])
            (set_s_seq_counter (u8 (s_seq_counter world0 + 1)) world0))
  /\ btn_event_cb false 77 ui world0 = world0
  /\ slider_event_cb false 77 5 ui world0 = world0
  /\ (forall other,
        (forall j, 0 <= j < s_widget_count ui -> obj (widget_at ui j) <> other) ->
        btn_event_cb true other ui world0 = world0
        /\ slider_event_cb true other 5 ui world0 = world0).
Proof.
  intros ui.
  apply (ui_event_reports_widget ui full_platform 77 1 5 world0).
  - reflexivity.
  - reflexivity.
  - simpl. lia.
  - simpl. lia.
  - reflexivity.
  - intros j Hj. assert (j = 0) as -> by lia. discriminate.
Defined.

(** ** Dispatcher *)

(** X19.  A frame whose command is none of the nine known ones is answered with
    one NACK echoing its sequence number; the UI state and the event
    counter are untouched and, if the platform has a log slot, one line is
    logged. *)
Theorem dispatch_unknown_command f pl s :
  write_bytes pl = true ->
  ~ In (command f) [CMD_PING; CMD_GET_VERSION; CMD_RESET; CMD_ENTER_BOOTLOADER;
                    CMD_SHOW_PAGE; CMD_SET_TEXT; CMD_SET_VALUE;
                    CMD_SET_VISIBLE; CMD_SET_ENABLED] ->
  dm_protocol_dispatch f (Some pl) s
  = {| pages := pages s; widgets := widgets s;
       io := call_write_bytes (wire_frame EVT_NACK (seq_id f) []) (io s);
       logs := if log pl
               then logs s ++ ["DM: unknown command – sending NACK"%string]
               else logs s |}.
Proof.
  intros Hw Hunknown. unfold dm_protocol_dispatch. cbv zeta.
  cbn [In] in Hunknown.
  repeat match goal with
         | |- context [command f =? ?k] =>
             replace (command f =? k) with false
               by (symmetry; apply Z.eqb_neq; intros E; apply Hunknown;
                   rewrite E; tauto)
         end.
  unfold system_log, set_io.
  destruct (log pl); cbn [pages widgets io logs];
    rewrite nack_written by assumption; reflexivity.
Qed.

Lemma dispatch_unknown_command_witness :
  let f := {| version := 1; command := 0xFE; seq_id := 0x33; payload_len := 0;
              payload := replicate 128 0 |} in
  let s := {| pages := {| s_page_count := 2; s_current_page := 0 |};
              widgets := {| s_widgets := []; s_widget_count := 0; s_plat := None;
                            lv_first_child := fun _ => None; lv_calls := [] |};
              io := world0; logs := [] |} in
  dm_protocol_dispatch f (Some full_platform) s
  = {| pages := pages s; widgets := widgets s;
       io := call_write_bytes (wire_frame EVT_NACK (seq_id f) []) (io s);
       logs := if log full_platform
               then logs s ++ ["DM: unknown command – sending NACK"%string]
               else logs s |}.
Proof.
  intros f s.
  apply (dispatch_unknown_command f full_platform s).
  - reflexivity.
  - cbn. intros H. repeat (destruct H as [H|H]; [discriminate H|]). exact H.
Defined.

(** X20.  The four system commands, whatever their payload: PING and RESET are
    answered with an ACK without payload, GET_VERSION with an ACK carrying
    the protocol version followed by two zero bytes, ENTER_BOOTLOADER with
    a NACK; each answer echoes the request's sequence number and is the
    only thing that happens. *)
Theorem dispatch_system_commands f pl s :
  write_bytes pl = true ->
  let answer frame := set_io (call_write_bytes frame (io s)) s in
  (command f = CMD_PING \/ command f = CMD_RESET ->
   dm_protocol_dispatch f (Some pl) s = answer (wire_frame EVT_ACK (seq_id f) []))
  /\ (command f = CMD_GET_VERSION ->
      dm_protocol_dispatch f (Some pl) s
      = answer (wire_frame EVT_ACK (seq_id f) [DM_PROTOCOL_VERSION; 0; 0]))
  /\ (command f = CMD_ENTER_BOOTLOADER ->
      dm_protocol_dispatch f (Some pl) s
      = answer (wire_frame EVT_NACK (seq_id f) [])).
Proof.
  intros Hw answer. unfold answer, dm_protocol_dispatch. cbv zeta.
  split; [|split].
  - intros [-> | ->]; cbn [Z.eqb Pos.eqb];
      unfold dm_handle_ping, dm_handle_reset;
      rewrite ack_written by assumption; reflexivity.
  - intros ->. cbn [Z.eqb Pos.eqb]. unfold dm_handle_get_version. cbv zeta.
    unfold dm_packet_send_ack.
    rewrite (dm_packet_send_wire_frame EVT_ACK (seq_id f)
               [DM_PROTOCOL_VERSION; 0; 0] pl)
      by (assumption || (simpl; unfold DM_MAX_PAYLOAD; lia)).
    reflexivity.
  - intros ->. cbn [Z.eqb Pos.eqb]. unfold dm_handle_enter_bootloader.
    rewrite nack_written by assumption. reflexivity.
Qed.

Lemma dispatch_system_commands_witness :
  let f := {| version := 1; command := CMD_GET_VERSION; seq_id := 0x10;
              payload_len := 0; payload := replicate 128 0 |} in
  let s := {| pages := {| s_page_count := 2; s_current_page := 0 |};
              widgets := {| s_widgets := []; s_widget_count := 0; s_plat := None;
                            lv_first_child := fun _ => None; lv_calls := [] |};
              io := world0; logs := [] |} in
  let answer frame := set_io (call_write_bytes frame (io s)) s in
  (command f = CMD_PING \/ command f = CMD_RESET ->
   dm_protocol_dispatch f (Some full_platform) s
   = answer (wire_frame EVT_ACK (seq_id f) []))
  /\ (command f = CMD_GET_VERSION ->
      dm_protocol_dispatch f (Some full_platform) s
      = answer (wire_frame EVT_ACK (seq_id f) [DM_PROTOCOL_VERSION; 0; 0]))
  /\ (command f = CMD_ENTER_BOOTLOADER ->
      dm_protocol_dispatch f (Some full_platform) s
      = answer (wire_frame EVT_NACK (seq_id f) [])).
Proof.
  intros f s.
  apply (dispatch_system_commands f full_platform s).
  reflexivity.
Defined.

Lemma is_answer_ack seq body : is_answer seq (wire_frame EVT_ACK seq body).
Proof. left. exists body. reflexivity. Qed.

Lemma is_answer_nack seq : is_answer seq (wire_frame EVT_NACK seq []).
Proof. right. reflexivity. Qed.

Lemma dispatch_response f pl s :
  write_bytes pl = true ->
  exists resp events,
    written (io (dm_protocol_dispatch f (Some pl) s))
      = written (io s) ++ resp :: events
    /\ is_answer (seq_id f) resp
    /\ (events = []
        \/ (command f = CMD_SHOW_PAGE
            /\ resp = wire_frame EVT_ACK (seq_id f) []
            /\ events = [wire_frame EVT_PAGE_CHANGED (s_seq_counter (io s))
                           [nth 0 (payload f) 0]])).
Proof.
  intros Hw. unfold dm_protocol_dispatch. cbv zeta.
  assert (Hack : forall w,
            written (dm_packet_send_ack (seq_id f) (Some pl) None 0 w)
            = written w ++ [wire_frame EVT_ACK (seq_id f) []])
    by (intros w; rewrite ack_written by assumption; reflexivity).
  assert (Hnack : forall w,
            written (dm_packet_send_nack (seq_id f) (Some pl) w)
            = written w ++ [wire_frame EVT_NACK (seq_id f) []])
    by (intros w; rewrite nack_written by assumption; reflexivity).
  destruct (command f =? CMD_PING);
    [|destruct (command f =? CMD_GET_VERSION);
      [|destruct (command f =? CMD_RESET);
        [|destruct (command f =? CMD_ENTER_BOOTLOADER);
          [|destruct (command f =? CMD_SHOW_PAGE) eqn:Eshow;
            [|destruct (command f =? CMD_SET_TEXT);
              [|destruct (command f =? CMD_SET_VALUE);
                [|destruct (command f =? CMD_SET_VISIBLE);
                  [|destruct (command f =? CMD_SET_ENABLED)]]]]]]]].
  - eexists. exists []. cbn [io set_io]. unfold dm_handle_ping.
    split; [apply Hack|]. split; [apply is_answer_ack | left; reflexivity].
  - eexists. exists []. cbn [io set_io]. unfold dm_handle_get_version. cbv zeta.
    unfold dm_packet_send_ack.
    rewrite (dm_packet_send_wire_frame EVT_ACK (seq_id f)
               [DM_PROTOCOL_VERSION; 0; 0] pl)
      by (assumption || (simpl; unfold DM_MAX_PAYLOAD; lia)).
    split; [reflexivity|]. split; [apply is_answer_ack | left; reflexivity].
  - eexists. exists []. cbn [io set_io]. unfold dm_handle_reset.
    split; [apply Hack|]. split; [apply is_answer_ack | left; reflexivity].
  - eexists. exists []. cbn [io set_io]. unfold dm_handle_enter_bootloader.
    split; [apply Hnack|]. split; [apply is_answer_nack | left; reflexivity].
  - apply Z.eqb_eq in Eshow. cbn [io set_pages_io].
    unfold dm_handle_show_page.
    destruct (payload_len f <? 1).
    + eexists. exists []. cbn [snd].
      split; [apply Hnack|]. split; [apply is_answer_nack | left; reflexivity].
    + destruct (ui_pages_show (nth 0 (payload f) 0) (pages s)) as [[|] pg'].
      * eexists. eexists. cbn [snd].
        unfold dm_packet_send_page_changed. cbv zeta.
        rewrite ack_written by assumption.
        rewrite (dm_packet_send_wire_frame EVT_PAGE_CHANGED _
                   [nth 0 (payload f) 0] pl)
          by (assumption || (simpl; unfold DM_MAX_PAYLOAD; lia)).
        cbn [written call_write_bytes set_s_seq_counter s_seq_counter].
        rewrite <- app_assoc. split; [reflexivity|].
        split; [apply is_answer_ack|]. right. repeat split. exact Eshow.
      * eexists. exists []. cbn [snd].
        split; [apply Hnack|]. split; [apply is_answer_nack | left; reflexivity].
  - cbn [io set_widgets_io]. unfold dm_handle_set_text.
    destruct (payload_len f <? 2).
    + eexists. exists []. cbn [snd].
      split; [apply Hnack|]. split; [apply is_answer_nack | left; reflexivity].
    + cbv zeta.
      match goal with
      | |- context [ui_pages_set_text ?i ?t ?u] =>
          destruct (ui_pages_set_text i t u) as [[|] ui']
      end; eexists; exists []; cbn [snd].
      * split; [apply Hack|]. split; [apply is_answer_ack | left; reflexivity].
      * split; [apply Hnack|]. split; [apply is_answer_nack | left; reflexivity].
  - cbn [io set_widgets_io]. unfold dm_handle_set_value.
    destruct (payload_len f <? 3).
    + eexists. exists []. cbn [snd].
      split; [apply Hnack|]. split; [apply is_answer_nack | left; reflexivity].
    + cbv zeta.
      match goal with
      | |- context [ui_pages_set_value ?i ?t ?u] =>
          destruct (ui_pages_set_value i t u) as [[|] ui']
      end; eexists; exists []; cbn [snd].
      * split; [apply Hack|]. split; [apply is_answer_ack | left; reflexivity].
      * split; [apply Hnack|]. split; [apply is_answer_nack | left; reflexivity].
  - cbn [io set_widgets_io]. unfold dm_handle_set_visible.
    destruct (payload_len f <? 2); eexists; exists []; cbn [snd].
    + split; [apply Hnack|]. split; [apply is_answer_nack | left; reflexivity].
    + split; [apply Hack|]. split; [apply is_answer_ack | left; reflexivity].
  - cbn [io set_widgets_io]. unfold dm_handle_set_enabled.
    destruct (payload_len f <? 2); eexists; exists []; cbn [snd].
    + split; [apply Hnack|]. split; [apply is_answer_nack | left; reflexivity].
    + split; [apply Hack|]. split; [apply is_answer_ack | left; reflexivity].
  - eexists. exists []. cbn [io set_io].
    assert (Hio : io (system_log (Some pl)
                        "DM: unknown command – sending NACK" s) = io s)
      by (unfold system_log; destruct (log pl); reflexivity).
    rewrite Hio.
    split; [apply Hnack|]. split; [apply is_answer_nack | left; reflexivity].
Qed.

(** X21.  Every request is answered, and answered first: whatever frame the
    dispatcher is given, on a platform that transmits, the first buffer it
    writes is an ACK or a NACK echoing the frame's sequence number, and
    nothing else is written except, after the ACK of a successful
    SHOW_PAGE, the EVT_PAGE_CHANGED event of that page. *)
Theorem dispatch_answers f pl s :
  write_bytes pl = true ->
  exists resp events,
    written (io (dm_protocol_dispatch f (Some pl) s))
      = written (io s) ++ resp :: events
    /\ is_answer (seq_id f) resp
    /\ (events = []
        \/ (command f = CMD_SHOW_PAGE
            /\ resp = wire_frame EVT_ACK (seq_id f) []
            /\ events = [wire_frame EVT_PAGE_CHANGED (s_seq_counter (io s))
                           [nth 0 (payload f) 0]])).
Proof. apply dispatch_response. Qed.

Lemma dispatch_answers_witness :
  let f := {| version := 1; command := CMD_SHOW_PAGE; seq_id := 0x42;
              payload_len := 1; payload := replicate 128 0 |} in
  let s := {| pages := {| s_page_count := 2; s_current_page := 0xFF |};
              widgets := {| s_widgets := []; s_widget_count := 0; s_plat := None;
                            lv_first_child := fun _ => None; lv_calls := [] |};
              io := world0; logs := [] |} in
  exists resp events,
    written (io (dm_protocol_dispatch f (Some full_platform) s))
      = written (io s) ++ resp :: events
    /\ is_answer (seq_id f) resp
    /\ (events = []
        \/ (command f = CMD_SHOW_PAGE
            /\ resp = wire_frame EVT_ACK (seq_id f) []
            /\ events = [wire_frame EVT_PAGE_CHANGED (s_seq_counter (io s))
                           [nth 0 (payload f) 0]])).
Proof.
  intros f s.
  apply (dispatch_answers f full_platform s).
  reflexivity.
Defined.

(** ** Core *)

Lemma perform_calls_app c1 c2 plat s :
  perform_calls (c1 ++ c2) plat s = perform_calls c2 plat (perform_calls c1 plat s).
Proof.
  revert s. induction c1 as [|[f|msg] c1 IH]; intros s; cbn [app perform_calls];
    [reflexivity | apply IH | apply IH].
Qed.

Lemma dm_receive_bytes_feed_all bytes : forall core s,
  dm_receive_bytes bytes (core, s) =
  match dm_parser_feed_all (s_parser core) bytes (s_platform core) with
  | None => None
  | Some (p, calls) =>
      Some ({| s_platform := s_platform core; s_parser := p |},
            perform_calls calls (s_platform core) s)
  end.
Proof.
  induction bytes as [|b bytes IH]; intros core s.
  - destruct core. reflexivity.
  - cbn [dm_receive_bytes dm_receive_byte]. rewrite feed_all_cons.
    destruct (dm_parser_feed (s_parser core) b (s_platform core)) as [[p1 c1]|];
      [|reflexivity].
    rewrite IH. cbn [s_parser s_platform].
    destruct (dm_parser_feed_all p1 bytes (s_platform core)) as [[p2 c2]|];
      [|reflexivity].
    rewrite perform_calls_app. reflexivity.
Qed.

(** X22.  The core is the parser driving the dispatcher: after [dm_init], any
    stream of bytes given to [dm_receive_byte] is taken without a store
    outside the parser's payload array, and its effect on the system is
    that of running the dispatcher on the frames the parser delivers, in
    order, with the parser's log lines in between. *)
Theorem core_runs_dispatcher bytes platform s :
  Forall is_u8 bytes ->
  exists p calls,
    dm_parser_feed_all dm_parser_init bytes platform = Some (p, calls)
    /\ dm_receive_bytes bytes (dm_init platform s)
       = Some ({| s_platform := platform; s_parser := p |},
               perform_calls calls platform
                 (system_log platform "DM: initialised" s)).
Proof.
  intros Hbytes.
  destruct (feed_all_keeps_invariant bytes platform dm_parser_init)
    as (p & calls & E & _ & _);
    [apply parser_init_wf | intros H; discriminate H | assumption |].
  exists p, calls. split; [exact E|].
  unfold dm_init. rewrite dm_receive_bytes_feed_all.
  cbn [s_parser s_platform]. rewrite E. reflexivity.
Qed.

Lemma core_runs_dispatcher_witness :
  exists p calls,
    dm_parser_feed_all dm_parser_init [0xAA; 1; 1; 0x7B; 0; 0x11; 0xE7]
      (Some full_platform) = Some (p, calls)
    /\ dm_receive_bytes [0xAA; 1; 1; 0x7B; 0; 0x11; 0xE7]
         (dm_init (Some full_platform)
            {| pages := {| s_page_count := 2; s_current_page := 0 |};
               widgets := {| s_widgets := []; s_widget_count := 0; s_plat := None;
                             lv_first_child := fun _ => None; lv_calls := [] |};
               io := world0; logs := [] |})
       = Some ({| s_platform := Some full_platform; s_parser := p |},
               perform_calls calls (Some full_platform)
                 (system_log (Some full_platform) "DM: initialised"
                    {| pages := {| s_page_count := 2; s_current_page := 0 |};
                       widgets := {| s_widgets := []; s_widget_count := 0;
                                     s_plat := None;
                                     lv_first_child := fun _ => None;
                                     lv_calls := [] |};
                       io := world0; logs := [] |})).
Proof.
  apply core_runs_dispatcher.
  repeat constructor; unfold is_u8; lia.
Defined.

Lemma system_log_io plat msg s : io (system_log plat msg s) = io s.
Proof.
  unfold system_log. destruct plat as [pl|]; [destruct (log pl)|]; reflexivity.
Qed.

(** X23.  End to end: after [dm_init] with a platform that transmits, the bytes
    of a request frame (any command, any sequence number, a payload of at
    most DM_MAX_PAYLOAD bytes) given to [dm_receive_byte] one by one make
    the device transmit an answer first, ACK or NACK with the request's
    sequence number, followed by nothing or, for a SHOW_PAGE, by the
    EVT_PAGE_CHANGED event; the parser is idle again with [frames_ok = 1]. *)
Theorem core_answers_request cmd seq body pl s :
  write_bytes pl = true ->
  Z.of_nat (length body) <= DM_MAX_PAYLOAD ->
  exists core' s' resp events,
    dm_receive_bytes (wire_frame cmd seq body) (dm_init (Some pl) s)
      = Some (core', s')
    /\ written (io s') = written (io s) ++ resp :: events
    /\ is_answer seq resp
    /\ (events = []
        \/ (cmd = CMD_SHOW_PAGE
            /\ events = [wire_frame EVT_PAGE_CHANGED (s_seq_counter (io s))
                           [nth 0 body 0]]))
    /\ state (s_parser core') = PARSE_WAIT_START
    /\ frames_ok (s_parser core') = 1.
Proof.
  intros Hw Hlen.
  unfold dm_init. rewrite dm_receive_bytes_feed_all.
  cbn [s_parser s_platform].
  rewrite feed_wire_frame by (reflexivity || apply parser_init_wf || assumption).
  cbn [perform_calls].
  match goal with
  | |- context [dm_protocol_dispatch ?f (Some pl) ?s0] =>
      destruct (dispatch_response f pl s0 Hw)
        as (resp & events & Hwr & Hans & Hev)
  end.
  eexists. eexists. exists resp, events. split; [reflexivity|].
  rewrite system_log_io in Hwr. cbn [seq_id] in Hans.
  split; [exact Hwr|]. split; [exact Hans|].
  split; [|split; reflexivity].
  destruct Hev as [-> | (Hcmd & _ & ->)]; [left; reflexivity|].
  right. cbn [command payload] in *. split; [exact Hcmd|].
  rewrite system_log_io.
  assert (Hnth : nth 0 (body ++ drop (length body) (payload (frame dm_parser_init))) 0
                 = nth 0 body 0).
  { destruct body as [|b body]; reflexivity. }
  rewrite Hnth. reflexivity.
Qed.

Lemma core_answers_request_witness :
  let s := {| pages := {| s_page_count := 2; s_current_page := 0xFF |};
              widgets := {| s_widgets := []; s_widget_count := 0; s_plat := None;
                            lv_first_child := fun _ => None; lv_calls := [] |};
              io := world0; logs := [] |} in
  exists core' s' resp events,
    dm_receive_bytes (wire_frame CMD_SHOW_PAGE 0x42 [1]) (dm_init (Some full_platform) s)
      = Some (core', s')
    /\ written (io s') = written (io s) ++ resp :: events
    /\ is_answer 0x42 resp
    /\ (events = []
        \/ (CMD_SHOW_PAGE = CMD_SHOW_PAGE
            /\ events = [wire_frame EVT_PAGE_CHANGED (s_seq_counter (io s))
                           [nth 0 [1] 0]]))
    /\ state (s_parser core') = PARSE_WAIT_START
    /\ frames_ok (s_parser core') = 1.
Proof.
  intros s.
  apply (core_answers_request CMD_SHOW_PAGE 0x42 [1] full_platform s).
  - reflexivity.
  - simpl. unfold DM_MAX_PAYLOAD. lia.
Defined.

(** X24.  Nothing is transmitted for a frame that fails its CRC: after
    [dm_init], a frame-shaped byte string whose trailing bytes are not the
    CRC of its contents leaves the UI state, the transmit side and the
    event counter as they were, whatever command it names; the host gets no
    NACK.  The only trace is the parser's log line, on a platform with a
    log slot, and [frames_crc_err = 1]. *)
Theorem core_silent_on_crc_error v c q pl h l platform s :
  Z.of_nat (length pl) <= DM_MAX_PAYLOAD ->
  is_u8 h -> is_u8 l ->
  h * 256 + l <> crc16_ccitt ([v; c; q; Z.of_nat (length pl)] ++ pl) ->
  exists core' s',
    dm_receive_bytes
      ([DM_START_BYTE; v; c; q; Z.of_nat (length pl)] ++ pl ++ [h; l])
      (dm_init platform s) = Some (core', s')
    /\ io s' = io s /\ pages s' = pages s /\ widgets s' = widgets s
    /\ logs s'
       = logs s
         ++ (if platform_logs platform
             then ["DM: initialised"%string; "DM: CRC mismatch, frame dropped"%string]
             else [])
    /\ frames_crc_err (s_parser core') = 1
    /\ frames_ok (s_parser core') = 0
    /\ state (s_parser core') = PARSE_WAIT_START.
Proof.
  intros Hlen Hh Hl Hcrc.
  unfold dm_init. rewrite dm_receive_bytes_feed_all.
  cbn [s_parser s_platform].
  rewrite feed_frame by (reflexivity || apply parser_init_wf || assumption).
  rewrite join_bytes_value by assumption.
  apply Z.eqb_neq in Hcrc. rewrite Hcrc.
  eexists. eexists. split; [reflexivity|].
  cbn [s_parser frames_crc_err frames_ok state].
  unfold debug_log, system_log, platform_logs.
  destruct platform as [p0|]; [destruct (log p0)|];
    cbn [perform_calls io pages widgets logs];
    rewrite <- ?app_assoc, ?app_nil_r; repeat split; reflexivity.
Qed.

Lemma core_silent_on_crc_error_witness :
  let s := {| pages := {| s_page_count := 2; s_current_page := 0xFF |};
              widgets := {| s_widgets := []; s_widget_count := 0; s_plat := None;
                            lv_first_child := fun _ => None; lv_calls := [] |};
              io := world0; logs := [] |} in
  exists core' s',
    dm_receive_bytes
      ([DM_START_BYTE; 1; 1; 0x7B; Z.of_nat (length (@nil Z))] ++ [] ++ [0x11; 0xE6])
      (dm_init (Some full_platform) s) = Some (core', s')
    /\ io s' = io s /\ pages s' = pages s /\ widgets s' = widgets s
    /\ logs s'
       = logs s
         ++ (if platform_logs (Some full_platform)
             then ["DM: initialised"%string; "DM: CRC mismatch, frame dropped"%string]
             else [])
    /\ frames_crc_err (s_parser core') = 1
    /\ frames_ok (s_parser core') = 0
    /\ state (s_parser core') = PARSE_WAIT_START.
Proof.
  intros s.
  apply (core_silent_on_crc_error 1 1 0x7B [] 0x11 0xE6 (Some full_platform) s).
  - simpl. unfold DM_MAX_PAYLOAD. lia.
  - unfold is_u8. lia.
  - unfold is_u8. lia.
  - vm_compute. discriminate.
Defined.

(** ** Events: what is lost and how coordinates travel *)

(** X25.  An event raised while the platform cannot transmit (NULL platform or
    NULL [write_bytes]) is dropped, but its sequence number is used up:
    each of the four event senders then writes nothing and still advances
    the event counter by one, so the host sees a gap. *)
Theorem event_dropped_consumes_seq e plat w :
  (plat = None \/ exists pl, plat = Some pl /\ write_bytes pl = false) ->
  send_event e plat w = set_s_seq_counter (u8 (s_seq_counter w + 1)) w.
Proof.
  intros Hplat.
  assert (Hsend : forall cmd seq payload len w0,
            dm_packet_send cmd seq payload len plat w0 = w0).
  { intros. unfold dm_packet_send.
    destruct Hplat as [-> | (pl & -> & Hw)]; [reflexivity|].
    rewrite Hw. reflexivity. }
  destruct e as [i | i v | pg | x y]; cbn [send_event];
    unfold dm_packet_send_button_pressed, dm_packet_send_slider_changed,
      dm_packet_send_page_changed, dm_packet_send_touch_event;
    cbv zeta; apply Hsend.
Qed.

Lemma event_dropped_consumes_seq_witness :
  send_event (ButtonPressed 2) None world0
  = set_s_seq_counter (u8 (s_seq_counter world0 + 1)) world0.
Proof.
  apply event_dropped_consumes_seq. left. reflexivity.
Defined.

Lemma int16_big_endian v :
  is_i16 v ->
  u8 (Z.land (Z.shiftr v 8) 0xFF) * 256 + u8 (Z.land v 0xFF) = v mod 65536.
Proof.
  intros Hv. apply Z.eqb_eq.
  replace v with ((v + 32768) - 32768) by lia.
  apply (Z_upto_complete
           (fun c =>
              u8 (Z.land (Z.shiftr (c - 32768) 8) 0xFF) * 256
              + u8 (Z.land (c - 32768) 0xFF) =? (c - 32768) mod 65536) 65536);
    [vm_compute; reflexivity | unfold is_i16 in Hv; lia].
Qed.

(** X26.  A touch event carries its coordinates as two 16-bit big-endian
    integers in two's complement: the frame written is an EVT_TOUCH_EVENT
    with the next event sequence number and four payload bytes, the first
    two being [x mod 2^16] high byte first, the last two [y mod 2^16]. *)
Theorem touch_event_big_endian x y pl w :
  is_i16 x -> is_i16 y -> write_bytes pl = true ->
  exists xh xl yh yl,
    dm_packet_send_touch_event x y (Some pl) w
    = call_write_bytes
        (wire_frame EVT_TOUCH_EVENT (s_seq_counter w) [xh; xl; yh; yl])
        (set_s_seq_counter (u8 (s_seq_counter w + 1)) w)
    /\ is_u8 xh /\ is_u8 xl /\ is_u8 yh /\ is_u8 yl
    /\ xh * 256 + xl = x mod 65536
    /\ yh * 256 + yl = y mod 65536.
Proof.
  intros Hx Hy Hw.
  exists (u8 (Z.land (Z.shiftr x 8) 0xFF)), (u8 (Z.land x 0xFF)),
         (u8 (Z.land (Z.shiftr y 8) 0xFF)), (u8 (Z.land y 0xFF)).
  split.
  - unfold dm_packet_send_touch_event. cbv zeta.
    apply (dm_packet_send_wire_frame EVT_TOUCH_EVENT (s_seq_counter w)
             [u8 (Z.land (Z.shiftr x 8) 0xFF); u8 (Z.land x 0xFF);
              u8 (Z.land (Z.shiftr y 8) 0xFF); u8 (Z.land y 0xFF)]);
      [assumption | simpl; unfold DM_MAX_PAYLOAD; lia].
  - repeat (split; [apply u8_range|]).
    split; apply int16_big_endian; assumption.
Qed.

Lemma touch_event_big_endian_witness :
  exists xh xl yh yl,
    dm_packet_send_touch_event 300 (-1) (Some full_platform) world0
    = call_write_bytes
        (wire_frame EVT_TOUCH_EVENT (s_seq_counter world0) [xh; xl; yh; yl])
        (set_s_seq_counter (u8 (s_seq_counter world0 + 1)) world0)
    /\ is_u8 xh /\ is_u8 xl /\ is_u8 yh /\ is_u8 yl
    /\ xh * 256 + xl = 300 mod 65536
    /\ yh * 256 + yl = (-1) mod 65536.
Proof.
  apply (touch_event_big_endian 300 (-1) full_platform world0).
  - unfold is_i16. lia.
  - unfold is_i16. lia.
  - reflexivity.
Defined.
